(** * A shallow embedding of the RV32I assembler and simulator

    [Assembler.py] turns assembly text into 32-character binary lines;
    [Simulator.py] loads such lines into a 32-word memory and runs them.
    Python integers are [Z], Python strings are [string] (ASCII text),
    lists are [list], the label dictionary is a [gmap].  Exceptions that
    the source does not catch are results of their own, so that a crash
    is never confused with a normal return. *)

From Stdlib Require Import ZArith Lia String Ascii List Bool.
From stdpp Require Import base option list gmap strings.

Local Open Scope string_scope.
Local Open Scope Z_scope.

(** ** Python string and integer primitives used by both programs *)
Module Py.

(** ASCII characters for which [str.isspace] holds; [str.strip] and the
    regular expression class [\s] use the same set. *)
Definition is_space (c : ascii) : bool :=
  let n := Z.of_N (N_of_ascii c) in
  ((9 <=? n) && (n <=? 13)) || ((28 <=? n) && (n <=? 32)).

Definition is_empty (s : string) : bool :=
  match s with EmptyString => true | String _ _ => false end.

Fixpoint lstrip (s : string) : string :=
  match s with
  | EmptyString => EmptyString
  | String c r => if is_space c then lstrip r else s
  end.

(** A character is dropped from the right end exactly when it is white
    space and everything after it is dropped too. *)
Fixpoint rstrip (s : string) : string :=
  match s with
  | EmptyString => EmptyString
  | String c r =>
      let r' := rstrip r in
      if is_space c && is_empty r' then EmptyString else String c r'
  end.

(** [s.strip()] *)
Definition strip (s : string) : string := rstrip (lstrip s).

Definition len (s : string) : Z := Z.of_nat (String.length s).

(** Start and stop of a slice, clamped as Python does. *)
Definition clamp (n i : Z) : Z :=
  if i <? 0 then Z.max (i + n) 0 else Z.min i n.

(** [s[lo:hi]]; [None] stands for an omitted bound. *)
Definition slice (s : string) (lo hi : option Z) : string :=
  let n := len s in
  let l := match lo with Some i => clamp n i | None => 0 end in
  let h := match hi with Some i => clamp n i | None => n end in
  substring (Z.to_nat l) (Z.to_nat (h - l)) s.

(** [s[i]]; [None] is Python's IndexError. *)
Definition item (s : string) (i : Z) : option ascii :=
  let n := len s in
  let j := if i <? 0 then i + n else i in
  if (0 <=? j) && (j <? n) then String.get (Z.to_nat j) s else None.

Fixpoint digits_pos (p : positive) : string :=
  match p with
  | xH => "1"
  | xO q => digits_pos q +:+ "0"
  | xI q => digits_pos q +:+ "1"
  end.

(** [bin(z)] *)
Definition bin (z : Z) : string :=
  match z with
  | Z0 => "0b0"
  | Zpos p => "0b" +:+ digits_pos p
  | Zneg p => "-0b" +:+ digits_pos p
  end.

(** [format(z, 'b')] *)
Definition format_b (z : Z) : string :=
  match z with
  | Z0 => "0"
  | Zpos p => digits_pos p
  | Zneg p => "-" +:+ digits_pos p
  end.

Fixpoint zeros (n : nat) : string :=
  match n with O => EmptyString | S k => String "0" (zeros k) end.

Definition is_sign (c : ascii) : bool :=
  (c =? "+")%char || (c =? "-")%char.

(** [s.zfill(w)]: zeros go after a leading sign. *)
Definition zfill (s : string) (w : Z) : string :=
  let n := len s in
  if w <=? n then s
  else
    match s with
    | String c r =>
        if is_sign c then String c (zeros (Z.to_nat (w - n)) +:+ r)
        else zeros (Z.to_nat (w - n)) +:+ s
    | EmptyString => zeros (Z.to_nat (w - n))
    end.

(** [format(z, '0<w>b')]: sign-aware zero padding to width [w]. *)
Definition format_0b (w : Z) (z : Z) : string := zfill (format_b z) w.

(** Value of a character as a digit, as [int] reads it. *)
Definition digit_val (c : ascii) : option Z :=
  let n := Z.of_N (N_of_ascii c) in
  if (48 <=? n) && (n <=? 57) then Some (n - 48)
  else if (97 <=? n) && (n <=? 122) then Some (n - 87)
  else if (65 <=? n) && (n <=? 90) then Some (n - 55)
  else None.

(** Digits with single underscores between them.  [us] says that the
    previous character was an underscore or that no digit was read yet. *)
Fixpoint int_digits (base : Z) (s : string) (acc : Z) (us : bool) : option Z :=
  match s with
  | EmptyString => if us then None else Some acc
  | String c r =>
      if (c =? "_")%char then
        if us then None else int_digits base r acc true
      else
        match digit_val c with
        | Some d =>
            if d <? base then int_digits base r (acc * base + d) false
            else None
        | None => None
        end
  end.

(** After the sign: for base 2 an optional [0b] or [0B] prefix, which may
    be followed by one underscore. *)
Definition int_unsigned (base : Z) (s : string) : option Z :=
  match s with
  | String "0" (String c r) =>
      if (base =? 2) && ((c =? "b")%char || (c =? "B")%char) then
        match r with
        | String "_" r' => int_digits base r' 0 true
        | _ => int_digits base r 0 true
        end
      else int_digits base s 0 true
  | _ => int_digits base s 0 true
  end.

(** [int(s, base)] for base 2 and base 10; [None] is ValueError. *)
Definition int (base : Z) (s : string) : option Z :=
  match strip s with
  | String "+" r => int_unsigned base r
  | String "-" r => Z.opp <$> int_unsigned base r
  | t => int_unsigned base t
  end.

(** [c in s] for a one-character [c] *)
Fixpoint contains (c : ascii) (s : string) : bool :=
  match s with
  | EmptyString => false
  | String d r => (c =? d)%char || contains c r
  end.

(** [s.split(c, 1)[0]]: the text before the first [c]. *)
Fixpoint before (c : ascii) (s : string) : string :=
  match s with
  | EmptyString => EmptyString
  | String d r => if (c =? d)%char then EmptyString else String d (before c r)
  end.

(** [s.split(c, 1)[1]], for [s] that contains [c]. *)
Fixpoint after (c : ascii) (s : string) : string :=
  match s with
  | EmptyString => EmptyString
  | String d r => if (c =? d)%char then r else after c r
  end.

Definition is_sep (c : ascii) : bool :=
  (c =? ",")%char || is_space c || (c =? "(")%char || (c =? ")")%char.

(** [re.split(r'[,\s()]+', s)].  The head of the result is the piece being
    read; [sep] says that the previous character was a separator. *)
Fixpoint re_split (s : string) (sep : bool) : list string :=
  match s with
  | EmptyString => [EmptyString]
  | String c r =>
      if is_sep c then
        if sep then re_split r true else EmptyString :: re_split r true
      else
        match re_split r false with
        | tok :: rest => String c tok :: rest
        | [] => [String c EmptyString]
        end
  end.

End Py.

(** ** The assembler, [Assembler.py] *)
Module Asm.

(** Exceptions the assembler never catches, and [exit()]. *)
Inductive exn := SystemExit | ValueError | TypeError | IndexError.

(** What [print] sends to standard output. *)
Inductive event :=
  | Print (msg : string)
  | PrintData (data : list string).

(** The module-level state: standard output, the lines appended to the
    output file, and the globals [check] and [label_dict]. *)
Record env := Env {
  stdout : list event;
  output : list string;
  check : Z;
  label_dict : gmap string Z
}.

Inductive res (A : Type) :=
  | Ok (a : A)
  | Raise (e : exn).
Arguments Ok {A} a.
Arguments Raise {A} e.

(** State and exception monad of the assembler. *)
Definition M (A : Type) : Type := env -> env * res A.

Definition ret {A} (a : A) : M A := fun e => (e, Ok a).
Definition raise {A} (x : exn) : M A := fun e => (e, Raise x).
Definition bind {A B} (m : M A) (k : A -> M B) : M B :=
  fun e => match m e with
           | (e', Ok a) => k a e'
           | (e', Raise x) => (e', Raise x)
           end.

#[global] Instance M_ret : MRet M := @ret.
#[global] Instance M_bind : MBind M := fun A B k m => bind m k.
#[global] Instance M_fmap : FMap M := fun A B f m => bind m (fun a => ret (f a)).

Definition print (msg : string) : M unit :=
  fun e => (Env (stdout e ++ [Print msg])%list (output e) (check e) (label_dict e), Ok tt).
Definition print_data (data : list string) : M unit :=
  fun e => (Env (stdout e ++ [PrintData data])%list (output e) (check e) (label_dict e), Ok tt).
Definition write (line : string) : M unit :=
  fun e => (Env (stdout e) (output e ++ [line])%list (check e) (label_dict e), Ok tt).
Definition set_check (v : Z) : M unit :=
  fun e => (Env (stdout e) (output e) v (label_dict e), Ok tt).
Definition set_label (label : string) (i : Z) : M unit :=
  fun e => (Env (stdout e) (output e) (check e) (<[label := i]> (label_dict e)), Ok tt).
Definition get_check : M Z :=
  fun e => (e, Ok (check e)).
Definition get_label (label : string) : M (option Z) :=
  fun e => (e, Ok (label_dict e !! label)).

(** An uncaught exception where Python would raise it. *)
Definition orelse {A} (x : exn) (o : option A) : M A :=
  match o with Some a => ret a | None => raise x end.

(** [data[k]] *)
Definition at_ (data : list string) (k : nat) : M string :=
  orelse IndexError (data !! k).

(** [s[i]] as a one-character string *)
Definition char_at (s : string) (i : Z) : M string :=
  (fun c => String c EmptyString) <$> orelse IndexError (Py.item s i).

(** An argument of [Binary_convertor]: a token of the source line or an
    integer the caller computed. *)
Inductive pyarg := PStr (s : string) | PInt (z : Z).

(** [int(a)] *)
Definition int_of (a : pyarg) : M Z :=
  match a with
  | PStr s => orelse ValueError (Py.int 10 s)
  | PInt z => ret z
  end.

Definition Binary_convertor (a : pyarg) (b : Z) : M string :=
  a ← int_of a;
  if negb ((-2147483648 <=? a) && (a <=? 2147483647)) then
    (print "Immediate out of range";; raise SystemExit)
  else
    let binary_representation :=
      if a <? 0 then Py.slice (Py.bin (Z.shiftl 1 b + a)) (Some 2) None
      else Py.slice (Py.bin a) (Some 2) None in
    ret (Py.zfill binary_representation b).

(** An element of the list a format function builds: a string, or the
    [None] that [reg_add] returns for a name it does not know. *)
Definition field := option string.

Definition reg_add (register : string) : M field :=
  if (register =? "zero")%string then Some <$> Binary_convertor (PInt 0) 5 else
  if (register =? "ra")%string then Some <$> Binary_convertor (PInt 1) 5 else
  if (register =? "sp")%string then Some <$> Binary_convertor (PInt 2) 5 else
  if (register =? "gp")%string then Some <$> Binary_convertor (PInt 3) 5 else
  if (register =? "tp")%string then Some <$> Binary_convertor (PInt 4) 5 else
  if (register =? "t0")%string then Some <$> Binary_convertor (PInt 5) 5 else
  if (register =? "t1")%string then Some <$> Binary_convertor (PInt 6) 5 else
  if (register =? "t2")%string then Some <$> Binary_convertor (PInt 7) 5 else
  if (register =? "s0")%string || (register =? "fp")%string then Some <$> Binary_convertor (PInt 8) 5 else
  if (register =? "s1")%string then Some <$> Binary_convertor (PInt 9) 5 else
  if (register =? "a0")%string then Some <$> Binary_convertor (PInt 10) 5 else
  if (register =? "a1")%string then Some <$> Binary_convertor (PInt 11) 5 else
  if (register =? "a2")%string then Some <$> Binary_convertor (PInt 12) 5 else
  if (register =? "a3")%string then Some <$> Binary_convertor (PInt 13) 5 else
  if (register =? "a4")%string then Some <$> Binary_convertor (PInt 14) 5 else
  if (register =? "a5")%string then Some <$> Binary_convertor (PInt 15) 5 else
  if (register =? "a6")%string then Some <$> Binary_convertor (PInt 16) 5 else
  if (register =? "a7")%string then Some <$> Binary_convertor (PInt 17) 5 else
  if (register =? "s2")%string then Some <$> Binary_convertor (PInt 18) 5 else
  if (register =? "s3")%string then Some <$> Binary_convertor (PInt 19) 5 else
  if (register =? "s4")%string then Some <$> Binary_convertor (PInt 20) 5 else
  if (register =? "s5")%string then Some <$> Binary_convertor (PInt 21) 5 else
  if (register =? "s6")%string then Some <$> Binary_convertor (PInt 22) 5 else
  if (register =? "s7")%string then Some <$> Binary_convertor (PInt 23) 5 else
  if (register =? "s8")%string then Some <$> Binary_convertor (PInt 24) 5 else
  if (register =? "s9")%string then Some <$> Binary_convertor (PInt 25) 5 else
  if (register =? "s10")%string then Some <$> Binary_convertor (PInt 26) 5 else
  if (register =? "s11")%string then Some <$> Binary_convertor (PInt 27) 5 else
  if (register =? "t3")%string then Some <$> Binary_convertor (PInt 28) 5 else
  if (register =? "t4")%string then Some <$> Binary_convertor (PInt 29) 5 else
  if (register =? "t5")%string then Some <$> Binary_convertor (PInt 30) 5 else
  if (register =? "t6")%string then Some <$> Binary_convertor (PInt 31) 5 else
  (print "error : invalid register";; ret None).

(** The names [reg_add] knows, with their indices. *)
Definition reg_table : list (string * Z) :=
  [("zero", 0); ("ra", 1); ("sp", 2); ("gp", 3); ("tp", 4); ("t0", 5); ("t1", 6); ("t2", 7); ("s0", 8); ("fp", 8); ("s1", 9); ("a0", 10); ("a1", 11); ("a2", 12); ("a3", 13); ("a4", 14); ("a5", 15); ("a6", 16); ("a7", 17); ("s2", 18); ("s3", 19); ("s4", 20); ("s5", 21); ("s6", 22); ("s7", 23); ("s8", 24); ("s9", 25); ("s10", 26); ("s11", 27); ("t3", 28); ("t4", 29); ("t5", 30); ("t6", 31)].

Fixpoint lookup_name (register : string) (t : list (string * Z)) : option Z :=
  match t with
  | [] => None
  | (name, n) :: t' =>
      if (register =? name)%string then Some n else lookup_name register t'
  end.

Definition reg_index (register : string) : option Z :=
  lookup_name register reg_table.

(** One [if data[0] == mn:] block of a format function: when the mnemonic
    matches, the fields of [body] are appended to [ans]. *)
Definition block (data : list string) (mn : string)
    (body : M (list field)) (ans : list field) : M (list field) :=
  d0 ← at_ data 0;
  if (d0 =? mn)%string then fs ← body; ret (ans ++ fs)%list else ret ans.

Definition r_body (data : list string) (funct3 funct7 : string) : M (list field) :=
  d1 ← at_ data 1; rd ← reg_add d1;
  d2 ← at_ data 2; rs1 ← reg_add d2;
  d3 ← at_ data 3; rs2 ← reg_add d3;
  ret [Some "0110011"; rd; Some funct3; rs1; rs2; Some funct7].

Definition r_type (data : list string) (i : Z) : M (list field) :=
  ans ← block data "add" (r_body data "000" "0000000") [];
  ans ← block data "sub" (r_body data "000" "0100000") ans;
  ans ← block data "sll" (r_body data "001" "0000000") ans;
  ans ← block data "slt" (r_body data "010" "0000000") ans;
  ans ← block data "sltu" (r_body data "011" "0000000") ans;
  ans ← block data "xor" (r_body data "100" "0000000") ans;
  ans ← block data "srl" (r_body data "101" "0000000") ans;
  ans ← block data "or" (r_body data "110" "0000000") ans;
  block data "and" (r_body data "111" "0000000") ans.

Definition lw_body (data : list string) : M (list field) :=
  d1 ← at_ data 1; rd ← reg_add d1;
  d3 ← at_ data 3; rs1 ← reg_add d3;
  d2 ← at_ data 2; binr ← Binary_convertor (PStr d2) 32;
  ret [Some "0000011"; rd; Some "010"; rs1; Some (Py.slice binr (Some (-12)) None)].

Definition i_body (data : list string) (opcode funct3 : string) : M (list field) :=
  d1 ← at_ data 1; rd ← reg_add d1;
  d2 ← at_ data 2; rs1 ← reg_add d2;
  d3 ← at_ data 3; binr ← Binary_convertor (PStr d3) 32;
  ret [Some opcode; rd; Some funct3; rs1; Some (Py.slice binr (Some (-12)) None)].

Definition i_type (data : list string) (i : Z) : M (list field) :=
  ans ← block data "lw" (lw_body data) [];
  ans ← block data "addi" (i_body data "0010011" "000") ans;
  ans ← block data "sltiu" (i_body data "0010011" "011") ans;
  block data "jalr" (i_body data "1100111" "000") ans.

Definition sw_body (data : list string) : M (list field) :=
  d2 ← at_ data 2; binr ← Binary_convertor (PStr d2) 32;
  d3 ← at_ data 3; rs1 ← reg_add d3;
  d1 ← at_ data 1; rs2 ← reg_add d1;
  ret [Some "0100011"; Some (Py.slice binr (Some (-5)) None); Some "010";
       rs1; rs2; Some (Py.slice binr (Some (-12)) (Some (-5)))].

Definition s_type (data : list string) (i : Z) : M (list field) :=
  block data "sw" (sw_body data) [].

(** The [try: int(tok) except ValueError: (label_dict.get(tok) - i) * 4] of
    the B and J formats.  A literal stays the token it was; a label becomes
    the integer computed from the table; a label the table does not hold
    makes [None - i], a TypeError. *)
Definition target (tok : string) (i : Z) : M pyarg :=
  match Py.int 10 tok with
  | Some _ => ret (PStr tok)
  | None =>
      l ← get_label tok;
      labelIndex ← orelse TypeError l;
      ret (PInt ((labelIndex - i) * 4))
  end.

Definition b_body (data : list string) (i : Z) (funct3 : string) : M (list field) :=
  d3 ← at_ data 3;
  immediate_val ← target d3 i;
  binr ← Binary_convertor immediate_val 32;
  b11 ← char_at binr (-12);
  let imm1 := Py.slice binr (Some (-5)) (Some (-1)) +:+ b11 in
  d1 ← at_ data 1; rs1 ← reg_add d1;
  d2 ← at_ data 2; rs2 ← reg_add d2;
  b12 ← char_at binr (-13);
  let imm2 := b12 +:+ Py.slice binr (Some (-11)) (Some (-5)) in
  ret [Some "1100011"; Some imm1; Some funct3; rs1; rs2; Some imm2].

(** The test for the virtual halt, with Python's short-circuit [and]. *)
Definition halt_pattern (data : list string) : M bool :=
  d0 ← at_ data 0;
  if negb (d0 =? "beq")%string then ret false else
  d1 ← at_ data 1;
  if negb (d1 =? "zero")%string then ret false else
  d2 ← at_ data 2;
  if negb (d2 =? "zero")%string then ret false else
  d3 ← at_ data 3;
  ret (d3 =? "0")%string.

Definition b_type (data : list string) (i : Z) : M (list field) :=
  h ← halt_pattern data;
  (if h : bool then set_check 1 else ret tt);;
  ans ← block data "beq" (b_body data i "000") [];
  ans ← block data "bne" (b_body data i "001") ans;
  ans ← block data "blt" (b_body data i "100") ans;
  ans ← block data "bge" (b_body data i "101") ans;
  ans ← block data "bltu" (b_body data i "110") ans;
  block data "bgeu" (b_body data i "111") ans.

Definition u_body (data : list string) (opcode : string) : M (list field) :=
  d1 ← at_ data 1; rd ← reg_add d1;
  d2 ← at_ data 2; binr ← Binary_convertor (PStr d2) 32;
  ret [Some opcode; rd; Some (Py.slice binr (Some (-32)) (Some (-12)))].

Definition u_type (data : list string) (i : Z) : M (list field) :=
  ans ← block data "lui" (u_body data "0110111") [];
  block data "auipc" (u_body data "0010111") ans.

Definition jal_body (data : list string) (i : Z) : M (list field) :=
  d2 ← at_ data 2;
  t ← target d2 i;
  offset ← int_of t;
  let imm_21 :=
    if offset <? 0 then Py.format_0b 21 (Z.shiftl 1 21 + offset)
    else Py.format_0b 21 offset in
  b20 ← char_at imm_21 0;
  b11 ← char_at imm_21 9;
  let encoded_imm :=
    b20 +:+ Py.slice imm_21 (Some 10) (Some 20) +:+ b11
        +:+ Py.slice imm_21 (Some 1) (Some 9) in
  d1 ← at_ data 1; rd ← reg_add d1;
  ret [Some "1101111"; rd; Some encoded_imm].

Definition j_type (data : list string) (i : Z) : M (list field) :=
  block data "jal" (jal_body data i) [].

(** [default_case] prints and returns [None]. *)
Definition default_case (data : list string) (i : Z) : M (option (list field)) :=
  d0 ← at_ data 0;
  print ("error:  " +:+ d0);;
  ret None.

Inductive format := RType | IType | SType | BType | UType | JType.

Definition switch_dict : list (string * format) :=
  [("add", RType); ("sub", RType); ("sll", RType); ("slt", RType); ("sltu", RType); ("xor", RType);
   ("srl", RType); ("or", RType); ("and", RType);
   ("lw", IType); ("addi", IType); ("sltiu", IType); ("jalr", IType);
   ("sw", SType);
   ("beq", BType); ("bne", BType); ("blt", BType); ("bge", BType); ("bltu", BType); ("bgeu", BType);
   ("lui", UType); ("auipc", UType);
   ("jal", JType)].

Fixpoint get_format (case_value : string) (d : list (string * format)) : option format :=
  match d with
  | [] => None
  | (mn, f) :: d' =>
      if (case_value =? mn)%string then Some f else get_format case_value d'
  end.

Definition run_format (f : format) (data : list string) (i : Z) : M (list field) :=
  match f with
  | RType => r_type data i
  | IType => i_type data i
  | SType => s_type data i
  | BType => b_type data i
  | UType => u_type data i
  | JType => j_type data i
  end.

(** [while l: s += l.pop()] on the reversed list: adding [None] to a
    string is a TypeError. *)
Fixpoint pop_all (popped : list field) (s : string) : M string :=
  match popped with
  | [] => ret s
  | Some f :: rest => pop_all rest (s +:+ f)
  | None :: _ => raise TypeError
  end.

Definition Switch_case (case_value : string) (data : list string) (i : Z) : M unit :=
  l ← match get_format case_value switch_dict with
      | Some f => Some <$> run_format f data i
      | None => default_case data i
      end;
  s ← match l with
      | Some l => pop_all (rev l) ""
      | None => ret ""
      end;
  write (s +:+ "
").

(** The first loop of the module: [i] counts the non-blank lines read so
    far, starting from -1; a line with a colon records its label. *)
Fixpoint pass1 (lines : list string) (i : Z) : M unit :=
  match lines with
  | [] => ret tt
  | b :: rest =>
      if Py.is_empty b then ret tt
      else if Py.is_empty (Py.strip b) then pass1 rest i
      else
        let i := i + 1 in
        (if Py.contains ":" b
         then set_label (Py.strip (Py.before ":" b)) i
         else ret tt);;
        pass1 rest i
  end.

(** The operands of a line, as the second loop splits them. *)
Definition tokens (a : string) : list string :=
  let data :=
    if Py.contains ":" a then Py.re_split (Py.strip (Py.after ":" a)) false
    else Py.re_split a false in
  match data with
  | d0 :: rest => if Py.is_empty d0 then rest else data
  | [] => data
  end.

Fixpoint pass2 (lines : list string) (i : Z) : M unit :=
  match lines with
  | [] => ret tt
  | a :: rest =>
      if Py.is_empty a then ret tt
      else if Py.is_empty (Py.strip a) then pass2 rest i
      else
        let i := i + 1 in
        let data := tokens a in
        print_data data;;
        match data with
        | d0 :: _ => Switch_case d0 data i
        | [] => ret tt
        end;;
        pass2 rest i
  end.

(** The module body: [lines] are the successive results of [readline]. *)
Definition main (lines : list string) : M unit :=
  pass1 lines (-1);;
  pass2 lines (-1);;
  c ← get_check;
  if c =? 0 then print "No Virtual Halt" else ret tt.

Definition env0 : env := Env [] [] 0 ∅.

End Asm.

(** ** The simulator, [Simulator.py] *)
Module Sim.

(** The diagnostics the simulator prints, by kind. *)
Inductive msg :=
  | InvalidLength (lineno n : Z)
  | ProgramTooLarge (lineno : Z)
  | InvalidBinary (lineno : Z)
  | CannotRead
  | PcOutOfRange (pc instr_count : Z)
  | MaxInstructions
  | CannotWrite
  | UnknownRFunct7 (funct7 pc : Z)
  | UnknownSrlFunct7 (funct7 pc : Z)
  | UnknownRFunct3 (funct3 pc : Z)
  | UnknownIFunct3 (funct3 pc : Z)
  | LoadOutOfRange (addr pc : Z)
  | UnsupportedLoad (funct3 pc : Z)
  | JalrOutOfRange (target pc : Z)
  | StoreOutOfRange (addr pc : Z)
  | UnsupportedStore (funct3 pc : Z)
  | UnknownBFunct3 (funct3 pc : Z)
  | UnknownOpcode (opcode pc : Z)
  | Completed.

(** The object of class [RISCVSimulator].  [console] is standard output,
    kept with the object so that each method is a function of one state. *)
Record RISCVSimulator := Self {
  memory : list Z;
  registers : list Z;
  pc : Z;
  halted : bool;
  max_instructions : Z;
  console : list msg
}.

(** [__init__] *)
Definition init : RISCVSimulator :=
  Self (replicate 32 0) (replicate 32 0) 0 false 100000 [].

Definition say (m : msg) (self : RISCVSimulator) : RISCVSimulator :=
  Self (memory self) (registers self) (pc self) (halted self)
       (max_instructions self) (console self ++ [m]).
Definition set_memory (m : list Z) (self : RISCVSimulator) : RISCVSimulator :=
  Self m (registers self) (pc self) (halted self) (max_instructions self)
       (console self).
Definition set_registers (r : list Z) (self : RISCVSimulator) : RISCVSimulator :=
  Self (memory self) r (pc self) (halted self) (max_instructions self)
       (console self).
Definition set_pc (p : Z) (self : RISCVSimulator) : RISCVSimulator :=
  Self (memory self) (registers self) p (halted self) (max_instructions self)
       (console self).
Definition set_halted (h : bool) (self : RISCVSimulator) : RISCVSimulator :=
  Self (memory self) (registers self) (pc self) h (max_instructions self)
       (console self).

(** Position of the Python index [i] in a list of length [n]; [None] is
    IndexError. *)
Definition position (n : nat) (i : Z) : option nat :=
  let j := if i <? 0 then i + Z.of_nat n else i in
  if (0 <=? j) && (j <? Z.of_nat n) then Some (Z.to_nat j) else None.

(** [l[i]] *)
Definition getitem (l : list Z) (i : Z) : option Z :=
  k ← position (length l) i; l !! k.

(** [l[i] = v] *)
Definition setitem (l : list Z) (i : Z) (v : Z) : option (list Z) :=
  k ← position (length l) i; Some (<[k := v]> l).

(** The result of a method that returns a boolean: [None] is an
    exception that nothing catches. *)
Definition outcome : Type := option (bool * RISCVSimulator).

Fixpoint load_lines (self : RISCVSimulator) (lines : list string)
    (lineno i : Z) : outcome :=
  match lines with
  | [] => Some (true, self)
  | line :: rest =>
      let line := Py.strip line in
      if Py.is_empty line then load_lines self rest (lineno + 1) i
      else if negb (Py.len line =? 32) then
        Some (false, say (InvalidLength lineno (Py.len line)) self)
      else if 32 <=? i then
        Some (false, say (ProgramTooLarge lineno) self)
      else
        match Py.int 2 line with
        | None => Some (false, say (InvalidBinary lineno) self)
        | Some val =>
            m ← setitem (memory self) i val;
            load_lines (set_memory m self) rest (lineno + 1) (i + 1)
        end
  end.

(** [bin_file] holds the lines of the file, or [None] when it cannot be
    read (IOError). *)
Definition load_program (self : RISCVSimulator)
    (bin_file : option (list string)) : outcome :=
  match bin_file with
  | Some lines => load_lines self lines 1 0
  | None => Some (false, say CannotRead self)
  end.

Definition imm_i (instruction : Z) : Z :=
  let imm_12 := Z.land (Z.shiftr instruction 20) 0xfff in
  if Z.land imm_12 0x800 =? 0 then imm_12 else Z.lor imm_12 0xfffff000.

Definition imm_b (instruction : Z) : Z :=
  let imm_12 := Z.land (Z.shiftr instruction 31) 0x1 in
  let imm_10_5 := Z.land (Z.shiftr instruction 25) 0x3f in
  let imm_4_1 := Z.land (Z.shiftr instruction 8) 0xf in
  let imm_11 := Z.land (Z.shiftr instruction 7) 0x1 in
  let val := Z.lor (Z.lor (Z.lor (Z.shiftl imm_12 12) (Z.shiftl imm_11 11))
                          (Z.shiftl imm_10_5 5)) (Z.shiftl imm_4_1 1) in
  if Z.land val 0x1000 =? 0 then val else Z.lor val 0xffffe000.

Definition imm_j (instruction : Z) : Z :=
  let imm_20 := Z.land (Z.shiftr instruction 31) 0x1 in
  let imm_19_12 := Z.land (Z.shiftr instruction 12) 0xff in
  let imm_11 := Z.land (Z.shiftr instruction 20) 0x1 in
  let imm_10_1 := Z.land (Z.shiftr instruction 21) 0x3ff in
  let val := Z.lor (Z.lor (Z.lor (Z.shiftl imm_20 20) (Z.shiftl imm_19_12 12))
                          (Z.shiftl imm_11 11)) (Z.shiftl imm_10_1 1) in
  if Z.land val 0x100000 =? 0 then val else Z.lor val 0xffe00000.

(** The S-type immediate, computed in line by the store case. *)
Definition imm_s (instruction : Z) : Z :=
  let imm_11_5 := Z.land (Z.shiftr instruction 25) 0x7f in
  let imm_4_0 := Z.land (Z.shiftr instruction 7) 0x1f in
  let imm := Z.lor (Z.shiftl imm_11_5 5) imm_4_0 in
  if Z.land imm 0x800 =? 0 then imm else Z.lor imm 0xfffff000.

Definition opcode_of (instruction : Z) : Z := Z.land instruction 0x7f.
Definition rd_of (instruction : Z) : Z := Z.land (Z.shiftr instruction 7) 0x1f.
Definition funct3_of (instruction : Z) : Z := Z.land (Z.shiftr instruction 12) 0x7.
Definition rs1_of (instruction : Z) : Z := Z.land (Z.shiftr instruction 15) 0x1f.
Definition rs2_of (instruction : Z) : Z := Z.land (Z.shiftr instruction 20) 0x1f.
Definition funct7_of (instruction : Z) : Z := Z.land (Z.shiftr instruction 25) 0x7f.

(** [(x ^ 0x80000000) - 0x80000000]: a 32-bit pattern read as signed. *)
Definition signed (x : Z) : Z := Z.lxor x 0x80000000 - 0x80000000.

(** [print(...); return False] *)
Definition fatal (m : msg) (self : RISCVSimulator) : outcome :=
  Some (false, say m self).

(** [self.registers[rd] = v] *)
Definition write_reg (self : RISCVSimulator) (rd v : Z) : option RISCVSimulator :=
  r ← setitem (registers self) rd v; Some (set_registers r self).

(** The end of [execute_instruction]: [self.registers[0] = 0; return True]. *)
Definition finish (self : RISCVSimulator) : outcome :=
  self ← write_reg self 0 0; Some (true, self).

(** [self.pc += 1] and the end of the method. *)
Definition next (self : RISCVSimulator) : outcome :=
  finish (set_pc (pc self + 1) self).

Definition execute_instruction (self : RISCVSimulator) (instruction : Z) : outcome :=
  let opcode := opcode_of instruction in
  let rd := rd_of instruction in
  let funct3 := funct3_of instruction in
  let rs1 := rs1_of instruction in
  let rs2 := rs2_of instruction in
  let funct7 := funct7_of instruction in
  let regs := registers self in
  if opcode =? 0x33 then
    if funct3 =? 0x0 then
      if funct7 =? 0x00 then
        a ← getitem regs rs1; b ← getitem regs rs2;
        self ← write_reg self rd (Z.land (a + b) 0xffffffff); next self
      else if funct7 =? 0x20 then
        a ← getitem regs rs1; b ← getitem regs rs2;
        self ← write_reg self rd (Z.land (a - b) 0xffffffff); next self
      else fatal (UnknownRFunct7 funct7 (pc self)) self
    else if funct3 =? 0x2 then
      a ← getitem regs rs1; b ← getitem regs rs2;
      let s1 := signed (Z.land a 0xffffffff) in
      let s2 := signed (Z.land b 0xffffffff) in
      self ← write_reg self rd (if s1 <? s2 then 1 else 0); next self
    else if funct3 =? 0x5 then
      b ← getitem regs rs2;
      let shamt := Z.land b 0x1f in
      if funct7 =? 0x00 then
        a ← getitem regs rs1;
        self ← write_reg self rd (Z.shiftr (Z.land a 0xffffffff) shamt); next self
      else fatal (UnknownSrlFunct7 funct7 (pc self)) self
    else if funct3 =? 0x6 then
      a ← getitem regs rs1; b ← getitem regs rs2;
      self ← write_reg self rd (Z.land (Z.lor a b) 0xffffffff); next self
    else if funct3 =? 0x7 then
      a ← getitem regs rs1; b ← getitem regs rs2;
      self ← write_reg self rd (Z.land (Z.land a b) 0xffffffff); next self
    else fatal (UnknownRFunct3 funct3 (pc self)) self
  else if opcode =? 0x13 then
    let imm := imm_i instruction in
    if funct3 =? 0x0 then
      a ← getitem regs rs1;
      self ← write_reg self rd (Z.land (a + imm) 0xffffffff); next self
    else fatal (UnknownIFunct3 funct3 (pc self)) self
  else if opcode =? 0x03 then
    let imm := imm_i instruction in
    a ← getitem regs rs1;
    let addr := Z.land (a + imm) 0xffffffff in
    if funct3 =? 0x2 then
      let mem_idx := addr / 4 in
      if (mem_idx <? 0) || (32 <=? mem_idx) then
        fatal (LoadOutOfRange addr (pc self)) self
      else
        w ← getitem (memory self) mem_idx;
        self ← write_reg self rd w; next self
    else fatal (UnsupportedLoad funct3 (pc self)) self
  else if opcode =? 0x67 then
    let imm := imm_i instruction in
    a ← getitem regs rs1;
    let target := Z.land (a + imm) 0xfffffffe in
    let ra := pc self + 1 in
    self ← write_reg self rd ra;
    let jump_word := target / 4 in
    if (jump_word <? 0) || (32 <=? jump_word) then
      fatal (JalrOutOfRange target (pc self)) self
    else finish (set_pc jump_word self)
  else if opcode =? 0x23 then
    let imm := imm_s instruction in
    a ← getitem regs rs1;
    let addr := Z.land (a + imm) 0xffffffff in
    if funct3 =? 0x2 then
      let mem_idx := addr / 4 in
      if (mem_idx <? 0) || (32 <=? mem_idx) then
        fatal (StoreOutOfRange addr (pc self)) self
      else
        b ← getitem regs rs2;
        m ← setitem (memory self) mem_idx (Z.land b 0xffffffff);
        next (set_memory m self)
    else fatal (UnsupportedStore funct3 (pc self)) self
  else if opcode =? 0x63 then
    let offset := imm_b instruction in
    if (funct3 =? 0x0) && (rs1 =? 0) && (rs2 =? 0) && (offset =? 0) then
      Some (true, set_halted true self)
    else
      a ← getitem regs rs1; b ← getitem regs rs2;
      if funct3 =? 0x0 then
        if a =? b then finish (set_pc (pc self + offset / 4) self) else next self
      else if funct3 =? 0x1 then
        if negb (a =? b) then finish (set_pc (pc self + offset / 4) self)
        else next self
      else fatal (UnknownBFunct3 funct3 (pc self)) self
  else if opcode =? 0x6f then
    let offset := imm_j instruction in
    let ra := pc self + 1 in
    self ← write_reg self rd ra;
    finish (set_pc (pc self + offset / 4) self)
  else fatal (UnknownOpcode opcode (pc self)) self.

(** The text [write_trace_line] writes. *)
Definition trace_line (self : RISCVSimulator) : string :=
  let pc_bin := Py.format_0b 32 (pc self * 4) in
  let regs_bin :=
    map (fun r => Py.format_0b 32 (Z.land r 0xffffffff)) (registers self) in
  pc_bin +:+ " " +:+ String.concat " " regs_bin +:+ "
".

(** The lines [write_memory_dump] writes. *)
Definition memory_dump (self : RISCVSimulator) : list string :=
  map (fun word => Py.format_0b 32 (Z.land word 0xffffffff) +:+ "
") (memory self).

(** How the [while] loop of [execute_program] ends. *)
Inductive loop_end :=
  | Returned (self : RISCVSimulator) (out : list string)
  | Exited (self : RISCVSimulator) (instr_count : Z) (out : list string)
  | Uncaught
  | NoFuel.

(** The loop; [out] is what was written to the trace file so far.  Every
    iteration adds one to [instr_count], so [max_instructions] iterations
    are all the loop can make: that is the [fuel] [execute_program] gives. *)
Fixpoint loop (fuel : nat) (self : RISCVSimulator) (instr_count : Z)
    (out : list string) : loop_end :=
  if negb (halted self) && (instr_count <? max_instructions self) then
    match fuel with
    | O => NoFuel
    | S fuel =>
        if (pc self <? 0) || (32 <=? pc self) then
          Returned (say (PcOutOfRange (pc self) instr_count) self) out
        else
          match getitem (memory self) (pc self) with
          | None => Uncaught
          | Some w =>
              let instruction := Z.land w 0xffffffff in
              let out := (out ++ [trace_line self])%list in
              match execute_instruction self instruction with
              | None => Uncaught
              | Some (false, self) => Returned self out
              | Some (true, self) => loop fuel self (instr_count + 1) out
              end
          end
    end
  else Exited self instr_count out.

(** The result of [execute_program]: the value returned, the object, and
    the content of the trace file. *)
Inductive run_end :=
  | Run (ok : bool) (self : RISCVSimulator) (out : list string)
  | Crash
  | Diverge.

(** [writable] is false when the trace file cannot be opened (IOError). *)
Definition execute_program (self : RISCVSimulator) (writable : bool) : run_end :=
  if negb writable then Run false (say CannotWrite self) []
  else
    match loop (Z.to_nat (max_instructions self)) self 0 [] with
    | Returned self out => Run false self out
    | Exited self instr_count out =>
        if max_instructions self <=? instr_count then
          Run false (say MaxInstructions self) out
        else Run true self (out ++ memory_dump self)%list
    | Uncaught => Crash
    | NoFuel => Diverge
    end.

(** [main], after the command line was read. *)
Definition main (bin_file : option (list string)) (writable : bool) : run_end :=
  match load_program init bin_file with
  | None => Crash
  | Some (false, sim) => Run false sim []
  | Some (true, sim) =>
      match execute_program sim writable with
      | Run true sim out => Run true (say Completed sim) out
      | r => r
      end
  end.

End Sim.

(** ** Notions used in the statements *)

(** Strings made of the characters 0 and 1 only. *)
Fixpoint is_binary (s : string) : bool :=
  match s with
  | EmptyString => true
  | String c r => ((c =? "0")%char || (c =? "1")%char) && is_binary r
  end.

(** The number a string of binary digits writes, after the digits [acc]. *)
Fixpoint value (s : string) (acc : Z) : Z :=
  match s with
  | EmptyString => acc
  | String c r => value r (2 * acc + (if (c =? "1")%char then 1 else 0))
  end.

(** The decoder in the words of the specification: read as unsigned,
    subtract [2^32] when the sign bit is set. *)
Definition decodeSigned_spec (u : Z) : Z :=
  if Z.testbit u 31 then u - 2 ^ 32 else u.

(** funct3 of the six branch mnemonics, as [b_type] writes it. *)
Definition b_funct3 (mn : string) : option (string * Z) :=
  if (mn =? "beq")%string then Some ("000", 0)
  else if (mn =? "bne")%string then Some ("001", 1)
  else if (mn =? "blt")%string then Some ("100", 4)
  else if (mn =? "bge")%string then Some ("101", 5)
  else if (mn =? "bltu")%string then Some ("110", 6)
  else if (mn =? "bgeu")%string then Some ("111", 7)
  else None.

(** The bit pattern [Binary_convertor] writes for an integer in range. *)
Definition pattern32 (a : Z) : Z := if a <? 0 then Z.shiftl 1 32 + a else a.

(** The value the B and J formats encode for the operand [tok] of line
    [i] under the label table [d]: the integer the token writes, or, for
    a token that is no integer, four times the distance in lines from
    line [i] to the index the table holds for it. *)
Definition resolves (tok : string) (i : Z) (d : gmap string Z) (off : Z) : Prop :=
  Py.int 10 tok = Some off \/
  (Py.int 10 tok = None /\
   exists labelIndex, d !! tok = Some labelIndex /\ off = (labelIndex - i) * 4).

(** The character [s[i]], for an index in range. *)
Definition ch (s : string) (i : Z) : string :=
  match Py.item s i with Some c => String c EmptyString | None => EmptyString end.

(** The two immediate groups of the B format, cut from the 32 digits. *)
Definition b_imm1 (binr : string) : string :=
  Py.slice binr (Some (-5)) (Some (-1)) +:+ ch binr (-12).
Definition b_imm2 (binr : string) : string :=
  ch binr (-13) +:+ Py.slice binr (Some (-11)) (Some (-5)).

(** [imm_b] as a function of the fields [rd] and [funct7] of the word. *)
Definition imm_b_fields (rd funct7 : Z) : Z :=
  let val := Z.lor (Z.lor (Z.lor (Z.shiftl (funct7 / 64) 12) (Z.shiftl (rd mod 2) 11))
                          (Z.shiftl (funct7 mod 64) 5)) (Z.shiftl (rd / 2) 1) in
  if Z.land val 0x1000 =? 0 then val else Z.lor val 0xffffe000.

(** Two states of the assembler that differ at most in the flag [check]. *)
Definition same_files (e e' : Asm.env) : Prop :=
  Asm.stdout e' = Asm.stdout e /\ Asm.output e' = Asm.output e /\
  Asm.label_dict e' = Asm.label_dict e.

(** A boolean test on every integer from [lo] up to [lo + n - 1]. *)
Definition check_range (lo : Z) (n : nat) (P : Z -> bool) : bool :=
  forallb P (map (fun k => lo + Z.of_nat k) (seq 0 n)).

(** What the B format makes of one offset: the two groups are binary
    strings of 5 and 7 digits, and the simulator reads from them the
    offset without its lowest bit, as a 32-bit pattern. *)
Definition b_imm_check (off : Z) : bool :=
  let binr := Py.format_0b 32 (pattern32 off) in
  let imm1 := b_imm1 binr in
  let imm2 := b_imm2 binr in
  is_binary imm1 && (String.length imm1 =? 5)%nat &&
  is_binary imm2 && (String.length imm2 =? 7)%nat &&
  (imm_b_fields (value imm1 0) (value imm2 0) =? pattern32 (off - off mod 2)).

(** The line the B format writes, most significant group first. *)
Definition b_line (f3s : string) (n1 n2 off : Z) : string :=
  let binr := Py.format_0b 32 (pattern32 off) in
  b_imm2 binr +:+ Py.format_0b 5 n2 +:+ Py.format_0b 5 n1 +:+ f3s +:+
  b_imm1 binr +:+ "1100011".

Definition newline : string := String (ascii_of_nat 10) EmptyString.

(** The states a run goes through: the object after [load_program]
    accepted an image, and every state the loop of [execute_program] gets
    from such a state by fetching the word at [pc] and executing it
    successfully. *)
Inductive reachable : Sim.RISCVSimulator -> Prop :=
  | reachable_load bin_file self :
      Sim.load_program Sim.init bin_file = Some (true, self) ->
      reachable self
  | reachable_step self w self' :
      reachable self ->
      Sim.halted self = false ->
      0 <= Sim.pc self < 32 ->
      Sim.getitem (Sim.memory self) (Sim.pc self) = Some w ->
      Sim.execute_instruction self (Z.land w 0xffffffff) = Some (true, self') ->
      reachable self'.

(** A one-instruction image, [addi zero,zero,5], and the state after it. *)
Definition addi_zero_image : list string :=
  ["00000000010100000000000000010011"].

Definition loaded (bin_file : option (list string)) : Sim.RISCVSimulator :=
  match Sim.load_program Sim.init bin_file with
  | Some (_, self) => self
  | None => Sim.init
  end.

Definition stepped (self : Sim.RISCVSimulator) : Sim.RISCVSimulator :=
  match Sim.getitem (Sim.memory self) (Sim.pc self) with
  | Some w =>
      match Sim.execute_instruction self (Z.land w 0xffffffff) with
      | Some (_, self') => self'
      | None => self
      end
  | None => self
  end.

(** A state whose memory word [k] holds [100 + k]. *)
Definition numbered : Sim.RISCVSimulator :=
  Sim.set_memory (map (fun k => 100 + Z.of_nat k) (seq 0 32)) Sim.init.

(** The register file and the memory have their 32 entries. *)
Definition well_shaped (self : Sim.RISCVSimulator) : Prop :=
  length (Sim.registers self) = 32%nat /\ length (Sim.memory self) = 32%nat.

(** The budget [__init__] sets. *)
Definition budget : Z := 100000.

(** The image of [addi a0,zero,5] followed by [beq zero,zero,0]. *)
Definition addi_halt_image : list string :=
  ["00000000010100000000010100010011"; "00000000000000000000000001100011"].

(** The loop without the trace file: the same states, nothing written. *)
Fixpoint loop_states (fuel : nat) (self : Sim.RISCVSimulator) (instr_count : Z)
    : Sim.loop_end :=
  if negb (Sim.halted self) && (instr_count <? Sim.max_instructions self) then
    match fuel with
    | O => Sim.NoFuel
    | S fuel =>
        if (Sim.pc self <? 0) || (32 <=? Sim.pc self) then
          Sim.Returned (Sim.say (Sim.PcOutOfRange (Sim.pc self) instr_count) self) []
        else
          match Sim.getitem (Sim.memory self) (Sim.pc self) with
          | None => Sim.Uncaught
          | Some w =>
              match Sim.execute_instruction self (Z.land w 0xffffffff) with
              | None => Sim.Uncaught
              | Some (false, self) => Sim.Returned self []
              | Some (true, self) => loop_states fuel self (instr_count + 1)
              end
          end
    end
  else Sim.Exited self instr_count [].

Definition forget_trace (r : Sim.loop_end) : Sim.loop_end :=
  match r with
  | Sim.Returned self _ => Sim.Returned self []
  | Sim.Exited self instr_count _ => Sim.Exited self instr_count []
  | r => r
  end.

(** A program that counts to 33333 and then halts: one [lw], then 33332
    rounds of [addi], [beq] not taken and [jalr], a last [addi] and [beq]
    taken, which makes 99999 instructions, and the halt as the 100000th. *)
Definition late_halt_image : list string :=
  ["00000010100000000010000100000011";
   "00000000000100001000000010010011";
   "00000000001000001000010001100011";
   "00000000010000000000000001100111";
   "00000000000000000000000001100011";
   "00000000000000000000000000000000";
   "00000000000000000000000000000000";
   "00000000000000000000000000000000";
   "00000000000000000000000000000000";
   "00000000000000000000000000000000";
   "00000000000000001000001000110101"].

(** An image of one line: a plus sign and 31 binary digits. *)
Definition signed_line_image : list string :=
  ["+0000000000000000000000000000101" +:+ newline].

(** The diagnostic of [reg_add]. *)
Definition invalid_register : Asm.event := Asm.Print "error : invalid register".

(** [m] writes nothing to the output file and leaves the label table
    alone; and when it prints the invalid-register diagnostic and still
    returns, what it returns satisfies [Q]. *)
Definition tracks {A} (m : Asm.M A) (Q : A -> Prop) : Prop :=
  forall e e' r, m e = (e', r) ->
    Asm.output e' = Asm.output e /\ Asm.label_dict e' = Asm.label_dict e /\
    exists evs, Asm.stdout e' = (Asm.stdout e ++ evs)%list /\
      (In invalid_register evs ->
       match r with Asm.Ok a => Q a | Asm.Raise _ => True end).

(** Whatever [m] returns satisfies [Q]. *)
Definition carries {A} (m : Asm.M A) (Q : A -> Prop) : Prop :=
  forall e e' a, m e = (e', Asm.Ok a) -> Q a.

(** [m] never returns after the diagnostic. *)
Definition quiet {A} (m : Asm.M A) : Prop := tracks m (fun _ => False).

(** A list of fields with a [None] in it. *)
Definition tainted (l : list Asm.field) : Prop := In None l.

(** A line that is not blank: [b.strip()] is not empty. *)
Definition nonblank (b : string) : bool := negb (Py.is_empty (Py.strip b)).

(** The number of non-blank lines of [lines]. *)
Definition count_nonblank (lines : list string) : Z :=
  Z.of_nat (length (List.filter nonblank lines)).

(** The zero-based index of line [k] of the source, counting non-blank
    lines only: the number of non-blank lines before it. *)
Definition line_index (lines : list string) (k : nat) : Z :=
  count_nonblank (take k lines).

(** The 21 digits of a jump offset, and their regrouping
    [imm[20] | imm[10:1] | imm[11] | imm[19:12]]. *)
Definition j_imm_21 (offset : Z) : string :=
  if offset <? 0 then Py.format_0b 21 (Z.shiftl 1 21 + offset)
  else Py.format_0b 21 offset.
Definition j_encoded (imm_21 : string) : string :=
  ch imm_21 0 +:+ Py.slice imm_21 (Some 10) (Some 20) +:+ ch imm_21 9 +:+
  Py.slice imm_21 (Some 1) (Some 9).

(** The line the J format writes. *)
Definition j_line (n offset : Z) : string :=
  j_encoded (j_imm_21 offset) +:+ Py.format_0b 5 n +:+ "1101111".

(** What the second pass does with one line that is not blank. *)
Definition encode_line (a : string) (i : Z) : Asm.M unit :=
  Asm.print_data (Asm.tokens a);;
  match Asm.tokens a with
  | d0 :: _ => Asm.Switch_case d0 (Asm.tokens a) i
  | [] => Asm.ret tt
  end.

(** A loop of two instructions after a blank line. *)
Definition loop_source : list string :=
  ["addi a0,zero,5" +:+ newline; newline; "loop: addi a0,a0,-1" +:+ newline;
   "bne a0,zero,loop" +:+ newline; "jal ra,loop" +:+ newline;
   "beq zero,zero,0" +:+ newline].

Definition loop_labels : Asm.env := fst (Asm.pass1 loop_source (-1) Asm.env0).

(** The word of [bne a0,zero,-4], in a state where [a0] is 5. *)
Definition counting : Sim.RISCVSimulator :=
  Sim.set_registers (<[10%nat := 5]> (Sim.registers Sim.init)) Sim.init.

(** A list of 32-bit words. *)
Definition words (l : list Z) : Prop := Forall (fun x => 0 <= x < 2 ^ 32) l.

(** Register 1 holds the pattern of -1 and register 2 holds 1. *)
Definition minus_one_and_one : Sim.RISCVSimulator :=
  Sim.set_registers (<[2%nat := 1]> (<[1%nat := 4294967295]> (Sim.registers Sim.init)))
    Sim.init.

(** The states of a run that starts in [start]: the loop of
    [execute_program] fetches the word at [pc] and executes it. *)
Inductive run_from (start : Sim.RISCVSimulator) : Sim.RISCVSimulator -> Prop :=
  | run_start : run_from start start
  | run_step self w self' :
      run_from start self ->
      Sim.halted self = false ->
      0 <= Sim.pc self < 32 ->
      Sim.getitem (Sim.memory self) (Sim.pc self) = Some w ->
      Sim.execute_instruction self (Z.land w 0xffffffff) = Some (true, self') ->
      run_from start self'.

(** funct3 and funct7 of the nine register mnemonics, as [r_type] writes
    them. *)
Definition r_functs (mn : string) : option (string * string * Z * Z) :=
  if (mn =? "add")%string then Some ("000", "0000000", 0, 0)
  else if (mn =? "sub")%string then Some ("000", "0100000", 0, 32)
  else if (mn =? "sll")%string then Some ("001", "0000000", 1, 0)
  else if (mn =? "slt")%string then Some ("010", "0000000", 2, 0)
  else if (mn =? "sltu")%string then Some ("011", "0000000", 3, 0)
  else if (mn =? "xor")%string then Some ("100", "0000000", 4, 0)
  else if (mn =? "srl")%string then Some ("101", "0000000", 5, 0)
  else if (mn =? "or")%string then Some ("110", "0000000", 6, 0)
  else if (mn =? "and")%string then Some ("111", "0000000", 7, 0)
  else None.

(** Opcode and funct3 of the four mnemonics of [i_type]. *)
Definition i_functs (mn : string) : option (string * string * Z * Z) :=
  if (mn =? "lw")%string then Some ("0000011", "010", 0x03, 2)
  else if (mn =? "addi")%string then Some ("0010011", "000", 0x13, 0)
  else if (mn =? "sltiu")%string then Some ("0010011", "011", 0x13, 3)
  else if (mn =? "jalr")%string then Some ("1100111", "000", 0x67, 0)
  else None.

(** Where the base register and the immediate of an I-format line are:
    [lw rd, imm(rs1)] has them the other way round. *)
Definition i_base (mn : string) : nat := if (mn =? "lw")%string then 3%nat else 2%nat.
Definition i_imm (mn : string) : nat := if (mn =? "lw")%string then 2%nat else 3%nat.

(** Opcode of the two mnemonics of [u_type]. *)
Definition u_ops (mn : string) : option (string * Z) :=
  if (mn =? "lui")%string then Some ("0110111", 0x37)
  else if (mn =? "auipc")%string then Some ("0010111", 0x17)
  else None.

(** A string that holds one of the separators of [re.split]. *)
Fixpoint has_sep (t : string) : bool :=
  match t with
  | EmptyString => false
  | String c r => Py.is_sep c || has_sep r
  end.

(** In a list of tokens, only the last can be empty. *)
Definition empty_last_only (l : list string) : Prop :=
  forall k x, l !! k = Some x -> Py.is_empty x = true -> S k = length l.

(** The tokens [b_type] takes for the virtual halt: the text
    [beq zero,zero,0]. *)
Definition halt_text (data : list string) : Prop :=
  data !! 0%nat = Some "beq" /\ data !! 1%nat = Some "zero" /\
  data !! 2%nat = Some "zero" /\ data !! 3%nat = Some "0".

(** [m] leaves the flag [check] alone. *)
Definition keeps {A} (m : Asm.M A) : Prop :=
  forall e e' r, m e = (e', r) -> Asm.check e' = Asm.check e.

(** [m] leaves the flag [check] alone or sets it to 1, and it sets it
    only when [P] holds. *)
Definition flags {A} (m : Asm.M A) (P : Prop) : Prop :=
  forall e e' r, m e = (e', r) ->
    Asm.check e' = Asm.check e \/ (Asm.check e' = 1 /\ P).

(** A source of two lines, the second one the halt. *)
Definition halting_source : list string :=
  ["addi a0,zero,5" +:+ newline; "beq zero,zero,0" +:+ newline].

(** Whether line [b] declares the label [tok], as the first pass reads
    it: the line is not blank, holds a colon, and the text before its
    first colon, stripped, is [tok]. *)
Definition declares (tok b : string) : bool :=
  nonblank b && Py.contains ":" b && (Py.strip (Py.before ":" b) =? tok)%string.

(** The position in [lines] of the last line that declares [tok]. *)
Fixpoint last_declaration (tok : string) (lines : list string) : option nat :=
  match lines with
  | [] => None
  | b :: rest =>
      match last_declaration tok rest with
      | Some k => Some (S k)
      | None => if declares tok b then Some 0%nat else None
      end
  end.

(** The label [l] is declared on the first and on the third line. *)
Definition twice_declared : list string :=
  ["l: addi a0,zero,1" +:+ newline; "addi a0,a0,1" +:+ newline;
   "l: beq zero,zero,0" +:+ newline].

(** * Verification *)

(** ** The two's-complement codec *)

Lemma binary_char c :
  ((c =? "0")%char || (c =? "1")%char) = true -> c = "0"%char \/ c = "1"%char.
Proof.
  intros H. apply orb_true_iff in H as [H|H]; apply Ascii.eqb_eq in H; auto.
Qed.

Lemma is_binary_app s t : is_binary (s +:+ t) = is_binary s && is_binary t.
Proof.
  induction s as [|c s IH]; simpl; [reflexivity|].
  rewrite IH. apply andb_assoc.
Qed.

Lemma value_app s t acc : value (s +:+ t) acc = value t (value s acc).
Proof.
  revert acc. induction s as [|c s IH]; intros acc; simpl; [reflexivity|].
  apply IH.
Qed.

Lemma length_app s t :
  String.length (s +:+ t) = (String.length s + String.length t)%nat.
Proof. induction s as [|c s IH]; simpl; [reflexivity|]. now rewrite IH. Qed.

Lemma is_binary_zeros n : is_binary (Py.zeros n) = true.
Proof. induction n; simpl; auto. Qed.

Lemma value_zeros n : value (Py.zeros n) 0 = 0.
Proof. induction n; simpl; auto. Qed.

Lemma length_zeros n : String.length (Py.zeros n) = n.
Proof. induction n; simpl; auto. Qed.

Lemma is_binary_digits p : is_binary (Py.digits_pos p) = true.
Proof.
  induction p; simpl; auto; rewrite is_binary_app, IHp; reflexivity.
Qed.

Lemma value_digits p : value (Py.digits_pos p) 0 = Z.pos p.
Proof.
  induction p; simpl; auto; rewrite value_app, IHp; simpl; lia.
Qed.

Lemma length_digits p : String.length (Py.digits_pos p) = Pos.size_nat p.
Proof.
  induction p; simpl; auto; rewrite length_app, IHp; simpl; lia.
Qed.

Lemma size_nat_bound p (n : nat) :
  Z.pos p < 2 ^ Z.of_nat n -> (Pos.size_nat p <= n)%nat.
Proof.
  revert n. induction p; intros n H; simpl.
  - destruct n as [|n]; [simpl in H; lia|].
    apply le_n_S, IHp. rewrite Nat2Z.inj_succ, Z.pow_succ_r in H; lia.
  - destruct n as [|n]; [simpl in H; lia|].
    apply le_n_S, IHp. rewrite Nat2Z.inj_succ, Z.pow_succ_r in H; lia.
  - destruct n as [|n]; [simpl in H; lia|]. lia.
Qed.

Lemma size_nat_upper p : Z.pos p < 2 ^ Z.of_nat (Pos.size_nat p).
Proof.
  induction p; cbn [Pos.size_nat]; rewrite ?Nat2Z.inj_succ, ?Z.pow_succ_r by lia;
    try lia.
Qed.

Lemma substring_all s : substring 0 (String.length s) s = s.
Proof. induction s as [|c s IH]; simpl; [reflexivity|]. now rewrite IH. Qed.

(** A binary string has no white space, so [strip] leaves it alone. *)
Lemma lstrip_binary s : is_binary s = true -> Py.lstrip s = s.
Proof.
  destruct s as [|c s]; simpl; [reflexivity|].
  intros H. apply andb_true_iff in H as [H _].
  destruct (binary_char _ H) as [-> | ->]; reflexivity.
Qed.

Lemma rstrip_binary s : is_binary s = true -> Py.rstrip s = s.
Proof.
  induction s as [|c s IH]; simpl; [reflexivity|].
  intros H. apply andb_true_iff in H as [H Hs]. rewrite (IH Hs).
  destruct (binary_char _ H) as [-> | ->]; reflexivity.
Qed.

Lemma strip_binary s : is_binary s = true -> Py.strip s = s.
Proof.
  intros H. unfold Py.strip. rewrite (lstrip_binary s H). now apply rstrip_binary.
Qed.

Lemma int_digits_binary s : forall acc us,
  is_binary s = true -> s <> EmptyString \/ us = false ->
  Py.int_digits 2 s acc us = Some (value s acc).
Proof.
  induction s as [|c s IH]; intros acc us Hb Hne; simpl.
  - destruct Hne as [Hne | ->]; [congruence | reflexivity].
  - simpl in Hb. apply andb_true_iff in Hb as [Hc Hs].
    destruct (binary_char _ Hc) as [-> | ->]; simpl;
      rewrite (IH _ false Hs (or_intror eq_refl)); f_equal; f_equal; lia.
Qed.

Lemma int_binary s :
  is_binary s = true -> s <> EmptyString -> Py.int 2 s = Some (value s 0).
Proof.
  intros Hb Hne. unfold Py.int. rewrite (strip_binary s Hb).
  destruct s as [|c s]; [congruence|].
  pose proof Hb as Hb'. simpl in Hb'. apply andb_true_iff in Hb' as [Hc Hs].
  assert (Hu : Py.int_unsigned 2 (String c s) = Some (value (String c s) 0)).
  { unfold Py.int_unsigned.
    destruct (binary_char _ Hc) as [-> | ->].
    - destruct s as [|d s]; [reflexivity|].
      simpl in Hs. apply andb_true_iff in Hs as [Hd Hs'].
      destruct (binary_char _ Hd) as [-> | ->]; simpl;
        apply int_digits_binary; auto.
    - apply int_digits_binary; auto. }
  destruct (binary_char _ Hc) as [-> | ->]; exact Hu.
Qed.

Lemma format_b_binary u : 0 <= u -> is_binary (Py.format_b u) = true.
Proof. destruct u; simpl; [auto | intros; apply is_binary_digits | lia]. Qed.

Lemma format_b_value u : 0 <= u -> value (Py.format_b u) 0 = u.
Proof. destruct u; simpl; [auto | intros; apply value_digits | lia]. Qed.

Lemma format_b_nonempty u : Py.format_b u <> EmptyString.
Proof.
  assert (H : forall p, Py.digits_pos p <> EmptyString).
  { intros p Hp. apply (f_equal String.length) in Hp.
    rewrite length_digits in Hp. destruct p; simpl in Hp; lia. }
  destruct u; simpl; [discriminate | apply H | discriminate].
Qed.

Lemma format_b_length u (w : nat) :
  0 <= u < 2 ^ Z.of_nat w -> (0 < w)%nat ->
  (String.length (Py.format_b u) <= w)%nat.
Proof.
  destruct u; simpl; intros H Hw; [lia | | lia].
  rewrite length_digits. apply size_nat_bound. lia.
Qed.

Lemma zfill_binary s w :
  is_binary s = true -> s <> EmptyString ->
  Py.zfill s w = Py.zeros (Z.to_nat (w - Py.len s)) +:+ s.
Proof.
  intros Hb Hne. unfold Py.zfill.
  destruct (Z.leb_spec w (Py.len s)) as [H|H].
  - replace (Z.to_nat (w - Py.len s)) with 0%nat by lia. reflexivity.
  - destruct s as [|c s]; [congruence|].
    simpl in Hb. apply andb_true_iff in Hb as [Hc _].
    destruct (binary_char _ Hc) as [-> | ->]; reflexivity.
Qed.

(** What [format(u, '0<w>b')] is for a [u] that fits in [w] bits. *)
Lemma format_0b_spec u (w : nat) :
  0 <= u < 2 ^ Z.of_nat w -> (0 < w)%nat ->
  let s := Py.format_0b (Z.of_nat w) u in
  is_binary s = true /\ String.length s = w /\ value s 0 = u.
Proof.
  intros Hu Hw s. subst s. unfold Py.format_0b.
  rewrite zfill_binary by (auto using format_b_binary, format_b_nonempty || (apply format_b_binary; lia)).
  pose proof (format_b_length u w Hu Hw) as Hl.
  rewrite is_binary_app, is_binary_zeros, length_app, length_zeros, value_app,
    value_zeros. unfold Py.len.
  repeat split.
  - apply format_b_binary; lia.
  - lia.
  - apply format_b_value; lia.
Qed.

Lemma slice_bin u : 0 <= u -> Py.slice (Py.bin u) (Some 2) None = Py.format_b u.
Proof.
  intros Hu.
  assert (H : forall d, Py.slice (String "0" (String "b" d)) (Some 2) None = d).
  { intros d. unfold Py.slice, Py.clamp, Py.len. cbn [String.length].
    replace (2 <? 0) with false by reflexivity.
    replace (Z.to_nat (Z.min 2 (Z.of_nat (S (S (String.length d)))))) with 2%nat by lia.
    replace (Z.to_nat (Z.of_nat (S (S (String.length d))) -
                       Z.min 2 (Z.of_nat (S (S (String.length d))))))
      with (String.length d) by lia.
    cbn [substring]. apply substring_all. }
  destruct u; simpl; [apply (H "0") | apply H | lia].
Qed.

(** [Binary_convertor] on an integer in range: no output, no exception,
    and the digits of [a] or of [2^b + a]. *)
Ltac run_asm :=
  unfold mbind, mret, fmap, Asm.M_bind, Asm.M_ret, Asm.M_fmap, Asm.bind,
    Asm.ret, Asm.raise, Asm.orelse; cbn beta iota.

Lemma Binary_convertor_int a b e :
  -2147483648 <= a <= 2147483647 ->
  0 <= (if a <? 0 then Z.shiftl 1 b + a else a) ->
  Asm.Binary_convertor (Asm.PInt a) b e =
    (e, Asm.Ok (Py.format_0b b (if a <? 0 then Z.shiftl 1 b + a else a))).
Proof.
  intros Ha Hu. unfold Asm.Binary_convertor, Asm.int_of. run_asm.
  replace ((-2147483648 <=? a) && (a <=? 2147483647)) with true
    by (symmetry; apply andb_true_iff; split; apply Z.leb_le; lia).
  cbn [negb]. unfold Py.format_0b.
  destruct (a <? 0); rewrite slice_bin by lia; reflexivity.
Qed.

Lemma signed_low u : 0 <= u < 2 ^ 31 -> Sim.signed u = u.
Proof.
  intros H. unfold Sim.signed.
  rewrite <- Z.add_nocarry_lxor.
  - change 0x80000000 with (2 ^ 31). lia.
  - change 0x80000000 with (2 ^ 31). apply Z.bits_inj'. intros n Hn.
    rewrite Z.land_spec, Z.bits_0, Z.pow2_bits_eqb by lia.
    destruct (Z.eqb_spec 31 n) as [<-|]; [|apply andb_false_r].
    rewrite andb_true_r. apply Z.bits_above_log2; [lia|].
    destruct (Z.eq_dec u 0) as [->|]; [simpl; lia|].
    apply Z.log2_lt_pow2; lia.
Qed.

Lemma signed_high u : 2 ^ 31 <= u < 2 ^ 32 -> Sim.signed u = u - 2 ^ 32.
Proof.
  intros H. unfold Sim.signed. change 0x80000000 with (2 ^ 31).
  assert (Hl : Z.lxor (u - 2 ^ 31) (2 ^ 31) = u).
  { pose proof (signed_low (u - 2 ^ 31)) as S. unfold Sim.signed in S.
    change 0x80000000 with (2 ^ 31) in S. lia. }
  rewrite <- Hl at 1. rewrite Z.lxor_assoc, Z.lxor_nilpotent, Z.lxor_0_r. lia.
Qed.

(** C1: for every [v] with [-2^31 <= v <= 2^31 - 1], [Binary_convertor(v, 32)]
    returns, without printing or raising, a string of exactly 32
    characters, each 0 or 1; reading that string with [int(s, 2)] and
    decoding it as two's complement, both as the simulator does it and as
    the specification words it, gives [v] back. *)
Theorem Binary_convertor_32_roundtrip (v : Z) (e : Asm.env) :
  - 2 ^ 31 <= v <= 2 ^ 31 - 1 ->
  exists s u,
    Asm.Binary_convertor (Asm.PInt v) 32 e = (e, Asm.Ok s) /\
    String.length s = 32%nat /\ is_binary s = true /\
    Py.int 2 s = Some u /\ Sim.signed u = v /\ decodeSigned_spec u = v.
Proof.
  intros Hv.
  set (u := if v <? 0 then Z.shiftl 1 32 + v else v).
  assert (Hu : 0 <= u < 2 ^ Z.of_nat 32).
  { subst u. change (Z.shiftl 1 32) with (2 ^ 32). change (Z.of_nat 32) with 32.
    destruct (Z.ltb_spec v 0); lia. }
  destruct (format_0b_spec u 32 Hu ltac:(lia)) as (Hb & Hl & Hval).
  exists (Py.format_0b 32 u), u.
  split; [apply Binary_convertor_int; [lia | subst u; lia]|].
  split; [exact Hl|]. split; [exact Hb|].
  split.
  { change 32 with (Z.of_nat 32). rewrite <- Hval at 2. apply int_binary; [exact Hb|].
    intros E. rewrite E in Hl. discriminate. }
  subst u. change (Z.shiftl 1 32) with (2 ^ 32) in *. unfold decodeSigned_spec.
  destruct (Z.ltb_spec v 0).
  - rewrite signed_high by lia. split; [lia|].
    replace (Z.testbit (2 ^ 32 + v) 31) with true; [lia|].
    symmetry. apply Z.testbit_true; [lia|].
    replace ((2 ^ 32 + v) / 2 ^ 31) with 1; [reflexivity|].
    apply Z.div_unique with (r := 2 ^ 31 + v); lia.
  - rewrite signed_low by lia. split; [lia|].
    replace (Z.testbit v 31) with false; [lia|].
    symmetry. apply Z.testbit_false; [lia|]. rewrite Z.div_small by lia. reflexivity.
Qed.

Lemma Binary_convertor_32_roundtrip_witness :
  - 2 ^ 31 <= -30 <= 2 ^ 31 - 1 /\
  exists s u,
    Asm.Binary_convertor (Asm.PInt (-30)) 32 Asm.env0 = (Asm.env0, Asm.Ok s) /\
    String.length s = 32%nat /\ is_binary s = true /\
    Py.int 2 s = Some u /\ Sim.signed u = -30 /\ decodeSigned_spec u = -30.
Proof.
  split; [lia | apply (Binary_convertor_32_roundtrip (-30) Asm.env0); lia].
Defined.

(** ** The B format, from the assembler to the decoder *)

Section Monad.
Context {A B : Type}.

Lemma bind_ok (m : Asm.M A) (k : A -> Asm.M B) e e' a :
  m e = (e', Asm.Ok a) -> (m ≫= k) e = k a e'.
Proof. intros H. unfold mbind, Asm.M_bind, Asm.bind. now rewrite H. Qed.

Lemma bind_raise (m : Asm.M A) (k : A -> Asm.M B) e e' x :
  m e = (e', Asm.Raise x) -> (m ≫= k) e = (e', Asm.Raise x).
Proof. intros H. unfold mbind, Asm.M_bind, Asm.bind. now rewrite H. Qed.

Lemma fmap_ok (m : Asm.M A) (f : A -> B) e e' a :
  m e = (e', Asm.Ok a) -> (f <$> m) e = (e', Asm.Ok (f a)).
Proof. intros H. unfold fmap, Asm.M_fmap, Asm.bind. now rewrite H. Qed.
End Monad.

Lemma at_ok data k d e : data !! k = Some d -> Asm.at_ data k e = (e, Asm.Ok d).
Proof. intros H. unfold Asm.at_. now rewrite H. Qed.

Lemma block_skip data mn body ans d0 e :
  data !! 0%nat = Some d0 -> (d0 =? mn)%string = false ->
  Asm.block data mn body ans e = (e, Asm.Ok ans).
Proof.
  intros H0 Hn. unfold Asm.block. rewrite (bind_ok _ _ _ _ _ (at_ok _ _ _ _ H0)).
  now rewrite Hn.
Qed.

Lemma block_hit data mn body ans d0 e e' fs :
  data !! 0%nat = Some d0 -> (d0 =? mn)%string = true ->
  body e = (e', Asm.Ok fs) ->
  Asm.block data mn body ans e = (e', Asm.Ok (ans ++ fs)%list).
Proof.
  intros H0 Hy Hb. unfold Asm.block.
  rewrite (bind_ok _ _ _ _ _ (at_ok _ _ _ _ H0)), Hy.
  now rewrite (bind_ok _ _ _ _ _ Hb).
Qed.

Lemma block_raise data mn body ans d0 e e' x :
  data !! 0%nat = Some d0 -> (d0 =? mn)%string = true ->
  body e = (e', Asm.Raise x) ->
  Asm.block data mn body ans e = (e', Asm.Raise x).
Proof.
  intros H0 Hy Hb. unfold Asm.block.
  rewrite (bind_ok _ _ _ _ _ (at_ok _ _ _ _ H0)), Hy.
  now rewrite (bind_raise _ _ _ _ _ Hb).
Qed.

(** A register the table knows: [reg_add] writes its five bits. *)
Lemma reg_add_known r n e :
  Asm.reg_index r = Some n ->
  Asm.reg_add r e = (e, Asm.Ok (Some (Py.format_0b 5 n))) /\ 0 <= n < 32.
Proof.
  unfold Asm.reg_index, Asm.reg_table, Asm.lookup_name, Asm.reg_add.
  repeat (destruct (String.eqb r _);
          [intros [= <-]; split; [reflexivity | lia] |]); cbn [orb].
  discriminate.
Qed.

Lemma Binary_convertor_ok a z b e :
  Asm.int_of a e = (e, Asm.Ok z) ->
  -2147483648 <= z <= 2147483647 ->
  0 <= (if z <? 0 then Z.shiftl 1 b + z else z) ->
  Asm.Binary_convertor a b e =
    (e, Asm.Ok (Py.format_0b b (if z <? 0 then Z.shiftl 1 b + z else z))).
Proof.
  intros Hi Hz Hu. unfold Asm.Binary_convertor.
  rewrite (bind_ok _ _ _ _ _ Hi).
  replace ((-2147483648 <=? z) && (z <=? 2147483647)) with true
    by (symmetry; apply andb_true_iff; split; apply Z.leb_le; lia).
  cbn [negb]. unfold Py.format_0b, Asm.ret.
  destruct (z <? 0); rewrite slice_bin by lia; reflexivity.
Qed.

Lemma int_of_str tok z e :
  Py.int 10 tok = Some z -> Asm.int_of (Asm.PStr tok) e = (e, Asm.Ok z).
Proof. intros H. unfold Asm.int_of. now rewrite H. Qed.

Lemma target_literal tok z i e :
  Py.int 10 tok = Some z -> Asm.target tok i e = (e, Asm.Ok (Asm.PStr tok)).
Proof. intros H. unfold Asm.target. now rewrite H. Qed.

(** A token that is no integer is looked up in the table. *)
Lemma target_label tok i e labelIndex :
  Py.int 10 tok = None -> Asm.label_dict e !! tok = Some labelIndex ->
  Asm.target tok i e = (e, Asm.Ok (Asm.PInt ((labelIndex - i) * 4))).
Proof.
  intros Hn Hl. unfold Asm.target. rewrite Hn.
  unfold mbind, Asm.M_bind, Asm.bind, Asm.get_label. rewrite Hl. reflexivity.
Qed.

Lemma target_resolves tok i e off :
  resolves tok i (Asm.label_dict e) off ->
  exists t, Asm.target tok i e = (e, Asm.Ok t) /\ Asm.int_of t e = (e, Asm.Ok off).
Proof.
  intros [Ht | (Hn & labelIndex & Hl & ->)].
  - exists (Asm.PStr tok). split; [eapply target_literal; eassumption|].
    now apply int_of_str.
  - exists (Asm.PInt ((labelIndex - i) * 4)). split; [now apply target_label|].
    reflexivity.
Qed.

Lemma get_some s : forall n, (n < String.length s)%nat -> exists c, String.get n s = Some c.
Proof.
  induction s as [|c s IH]; intros n Hn; simpl in Hn; [lia|].
  destruct n as [|n]; simpl; [eauto | apply IH; lia].
Qed.

Lemma char_at_ok s i e :
  - Py.len s <= i < Py.len s -> Asm.char_at s i e = (e, Asm.Ok (ch s i)).
Proof.
  intros Hi. unfold Asm.char_at, ch.
  assert (H : exists c, Py.item s i = Some c).
  { unfold Py.item. unfold Py.len in *.
    destruct (Z.ltb_spec i 0).
    - replace ((0 <=? i + Z.of_nat (String.length s)) &&
               (i + Z.of_nat (String.length s) <? Z.of_nat (String.length s)))
        with true by (symmetry; apply andb_true_iff; split; [apply Z.leb_le | apply Z.ltb_lt]; lia).
      apply get_some. lia.
    - replace ((0 <=? i) && (i <? Z.of_nat (String.length s)))
        with true by (symmetry; apply andb_true_iff; split; [apply Z.leb_le | apply Z.ltb_lt]; lia).
      apply get_some. lia. }
  destruct H as [c Hc]. rewrite Hc. reflexivity.
Qed.

Lemma pattern32_range a :
  -2147483648 <= a <= 2147483647 -> 0 <= pattern32 a < 2 ^ Z.of_nat 32.
Proof.
  intros H. unfold pattern32. change (Z.shiftl 1 32) with (2 ^ 32).
  change (Z.of_nat 32) with 32. destruct (Z.ltb_spec a 0); lia.
Qed.

Lemma b_body_ok data i funct3 r1 r2 tok n1 n2 off e :
  data !! 1%nat = Some r1 -> data !! 2%nat = Some r2 -> data !! 3%nat = Some tok ->
  Asm.reg_index r1 = Some n1 -> Asm.reg_index r2 = Some n2 ->
  resolves tok i (Asm.label_dict e) off -> -2147483648 <= off <= 2147483647 ->
  let binr := Py.format_0b 32 (pattern32 off) in
  Asm.b_body data i funct3 e =
    (e, Asm.Ok [Some "1100011"; Some (b_imm1 binr); Some funct3;
                Some (Py.format_0b 5 n1); Some (Py.format_0b 5 n2);
                Some (b_imm2 binr)]).
Proof.
  intros H1 H2 H3 Hr1 Hr2 Ht Hoff binr. unfold Asm.b_body.
  destruct (format_0b_spec _ 32 (pattern32_range off Hoff) ltac:(lia)) as (_ & Hl & _).
  change (Z.of_nat 32) with 32 in Hl. fold binr in Hl.
  rewrite (bind_ok _ _ _ _ _ (at_ok _ _ _ _ H3)).
  destruct (target_resolves _ _ _ _ Ht) as (t & Htgt & Hint).
  rewrite (bind_ok _ _ _ _ _ Htgt).
  rewrite (bind_ok _ _ _ _ _
             (Binary_convertor_ok _ _ 32 _ Hint Hoff
                (proj1 (pattern32_range off Hoff)))).
  fold (pattern32 off). fold binr.
  rewrite (bind_ok _ _ _ _ _ (char_at_ok binr (-12) e ltac:(unfold Py.len; lia))).
  rewrite (bind_ok _ _ _ _ _ (at_ok _ _ _ _ H1)).
  rewrite (bind_ok _ _ _ _ _ (proj1 (reg_add_known _ _ e Hr1))).
  rewrite (bind_ok _ _ _ _ _ (at_ok _ _ _ _ H2)).
  rewrite (bind_ok _ _ _ _ _ (proj1 (reg_add_known _ _ e Hr2))).
  rewrite (bind_ok _ _ _ _ _ (char_at_ok binr (-13) e ltac:(unfold Py.len; lia))).
  reflexivity.
Qed.

Lemma halt_pattern_ok data d0 d1 d2 d3 e :
  data !! 0%nat = Some d0 -> data !! 1%nat = Some d1 ->
  data !! 2%nat = Some d2 -> data !! 3%nat = Some d3 ->
  exists h, Asm.halt_pattern data e = (e, Asm.Ok h).
Proof.
  intros H0 H1 H2 H3. unfold Asm.halt_pattern.
  rewrite (bind_ok _ _ _ _ _ (at_ok _ _ _ _ H0)).
  destruct (negb (d0 =? "beq")%string); [eexists; reflexivity|].
  rewrite (bind_ok _ _ _ _ _ (at_ok _ _ _ _ H1)).
  destruct (negb (d1 =? "zero")%string); [eexists; reflexivity|].
  rewrite (bind_ok _ _ _ _ _ (at_ok _ _ _ _ H2)).
  destruct (negb (d2 =? "zero")%string); [eexists; reflexivity|].
  rewrite (bind_ok _ _ _ _ _ (at_ok _ _ _ _ H3)).
  eexists; reflexivity.
Qed.

Lemma b_funct3_cases mn f3s f3 :
  b_funct3 mn = Some (f3s, f3) ->
  (mn = "beq" /\ f3s = "000" /\ f3 = 0) \/ (mn = "bne" /\ f3s = "001" /\ f3 = 1) \/
  (mn = "blt" /\ f3s = "100" /\ f3 = 4) \/ (mn = "bge" /\ f3s = "101" /\ f3 = 5) \/
  (mn = "bltu" /\ f3s = "110" /\ f3 = 6) \/ (mn = "bgeu" /\ f3s = "111" /\ f3 = 7).
Proof.
  unfold b_funct3.
  repeat (destruct (String.eqb mn _) eqn:E;
          [apply String.eqb_eq in E; subst mn; intros [= <- <-]; tauto | clear E]).
  discriminate.
Qed.

Ltac run_block :=
  first
    [ eapply block_hit; [eassumption | reflexivity | eapply b_body_ok; eassumption]
    | eapply block_skip; [eassumption | reflexivity] ].

Lemma b_type_ok data i mn f3s f3 r1 r2 tok n1 n2 off e :
  data !! 0%nat = Some mn -> data !! 1%nat = Some r1 ->
  data !! 2%nat = Some r2 -> data !! 3%nat = Some tok ->
  b_funct3 mn = Some (f3s, f3) ->
  Asm.reg_index r1 = Some n1 -> Asm.reg_index r2 = Some n2 ->
  resolves tok i (Asm.label_dict e) off -> -2147483648 <= off <= 2147483647 ->
  let binr := Py.format_0b 32 (pattern32 off) in
  exists e', same_files e e' /\
    Asm.b_type data i e =
      (e', Asm.Ok [Some "1100011"; Some (b_imm1 binr); Some f3s;
                   Some (Py.format_0b 5 n1); Some (Py.format_0b 5 n2);
                   Some (b_imm2 binr)]).
Proof.
  intros H0 H1 H2 H3 Hf Hr1 Hr2 Ht Hoff binr.
  destruct (halt_pattern_ok data _ _ _ _ e H0 H1 H2 H3) as [h Hh].
  unfold Asm.b_type. rewrite (bind_ok _ _ _ _ _ Hh).
  set (e' := if h then Asm.Env (Asm.stdout e) (Asm.output e) 1 (Asm.label_dict e) else e).
  assert (Hc : (if h then Asm.set_check 1 else Asm.ret ()) e = (e', Asm.Ok ()))
    by (subst e'; destruct h; reflexivity).
  rewrite (bind_ok _ _ _ _ _ Hc).
  assert (Ht' : resolves tok i (Asm.label_dict e') off)
    by (subst e'; destruct h; exact Ht).
  clear Ht.
  exists e'. split; [subst e'; destruct h; repeat split|].
  destruct (b_funct3_cases _ _ _ Hf) as
    [(-> & -> & ->)|[(-> & -> & ->)|[(-> & -> & ->)|[(-> & -> & ->)|
     [(-> & -> & ->)|(-> & -> & ->)]]]]];
    do 5 (erewrite bind_ok by run_block); cbn [app];
    (etransitivity; [run_block | reflexivity]).
Qed.

Lemma value_acc t : forall acc,
  value t acc = acc * 2 ^ Z.of_nat (String.length t) + value t 0.
Proof.
  induction t as [|c t IH]; intros acc; cbn [value String.length]; [simpl; lia|].
  rewrite IH, (IH (2 * 0 + _)), Nat2Z.inj_succ, Z.pow_succ_r by lia. lia.
Qed.

Lemma value_app_pow s t :
  value (s +:+ t) 0 = value s 0 * 2 ^ Z.of_nat (String.length t) + value t 0.
Proof. rewrite value_app. apply value_acc. Qed.

Lemma app_assoc_s (s t u : string) : (s +:+ t) +:+ u = s +:+ (t +:+ u).
Proof.
  induction s as [|c s IH]; [reflexivity|].
  change (String c ((s +:+ t) +:+ u) = String c (s +:+ (t +:+ u))).
  f_equal. exact IH.
Qed.

Ltac pow2_consts :=
  repeat match goal with
         | |- context [2 ^ ?n] =>
             let v := eval cbv in (2 ^ n) in change (2 ^ n) with v
         end.

(** Masks and shifts of the decoder as remainders and quotients. *)
Lemma land_1 x : Z.land x 0x1 = x mod 2.
Proof. exact (Z.land_ones x 1 ltac:(lia)). Qed.
Lemma land_7 x : Z.land x 0x7 = x mod 8.
Proof. exact (Z.land_ones x 3 ltac:(lia)). Qed.
Lemma land_f x : Z.land x 0xf = x mod 16.
Proof. exact (Z.land_ones x 4 ltac:(lia)). Qed.
Lemma land_1f x : Z.land x 0x1f = x mod 32.
Proof. exact (Z.land_ones x 5 ltac:(lia)). Qed.
Lemma land_3f x : Z.land x 0x3f = x mod 64.
Proof. exact (Z.land_ones x 6 ltac:(lia)). Qed.
Lemma land_7f x : Z.land x 0x7f = x mod 128.
Proof. exact (Z.land_ones x 7 ltac:(lia)). Qed.
Lemma land_fff x : Z.land x 0xfff = x mod 4096.
Proof. exact (Z.land_ones x 12 ltac:(lia)). Qed.
Lemma land_ffffffff x : Z.land x 0xffffffff = x mod 4294967296.
Proof. exact (Z.land_ones x 32 ltac:(lia)). Qed.

Ltac to_div_mod :=
  rewrite ?land_1, ?land_7, ?land_f, ?land_1f, ?land_3f, ?land_7f, ?land_fff,
    ?land_ffffffff, ?Z.shiftr_div_pow2 by lia;
  pow2_consts.

(** The fields of a word laid out as funct7, rs2, rs1, funct3, rd, opcode. *)
Lemma word_fields f7 r2 r1 f3 rd op :
  0 <= f7 < 128 -> 0 <= r2 < 32 -> 0 <= r1 < 32 -> 0 <= f3 < 8 ->
  0 <= rd < 32 -> 0 <= op < 128 ->
  let w := ((((f7 * 2 ^ 5 + r2) * 2 ^ 5 + r1) * 2 ^ 3 + f3) * 2 ^ 5 + rd) * 2 ^ 7 + op in
  Sim.opcode_of w = op /\ Sim.rd_of w = rd /\ Sim.funct3_of w = f3 /\
  Sim.rs1_of w = r1 /\ Sim.rs2_of w = r2 /\ Sim.funct7_of w = f7.
Proof.
  intros H7 H2 H1 H3 Hd Ho w.
  unfold Sim.opcode_of, Sim.rd_of, Sim.funct3_of, Sim.rs1_of, Sim.rs2_of, Sim.funct7_of.
  to_div_mod. subst w. pow2_consts.
  repeat split; Z.div_mod_to_equations; lia.
Qed.

Lemma imm_b_by_fields w : Sim.imm_b w = imm_b_fields (Sim.rd_of w) (Sim.funct7_of w).
Proof.
  unfold Sim.imm_b, imm_b_fields, Sim.rd_of, Sim.funct7_of.
  to_div_mod.
  replace ((w / 2147483648) mod 2) with (((w / 33554432) mod 128) / 64)
    by (Z.div_mod_to_equations; lia).
  replace ((w / 128) mod 2) with (((w / 128) mod 32) mod 2)
    by (Z.div_mod_to_equations; lia).
  replace ((w / 33554432) mod 64) with (((w / 33554432) mod 128) mod 64)
    by (Z.div_mod_to_equations; lia).
  replace ((w / 256) mod 16) with (((w / 128) mod 32) / 2)
    by (Z.div_mod_to_equations; lia).
  reflexivity.
Qed.

Lemma check_range_sound lo n P :
  check_range lo n P = true -> forall z, lo <= z < lo + Z.of_nat n -> P z = true.
Proof.
  unfold check_range. rewrite forallb_forall. intros H z Hz.
  apply H. apply in_map_iff. exists (Z.to_nat (z - lo)). split; [lia|].
  apply in_seq. lia.
Qed.

Lemma b_imm_checked : check_range (-4096) (Z.to_nat 8192) b_imm_check = true.
Proof. vm_compute. reflexivity. Qed.

Lemma b_imm_spec off :
  -4096 <= off <= 4095 ->
  let binr := Py.format_0b 32 (pattern32 off) in
  is_binary (b_imm1 binr) = true /\ String.length (b_imm1 binr) = 5%nat /\
  is_binary (b_imm2 binr) = true /\ String.length (b_imm2 binr) = 7%nat /\
  imm_b_fields (value (b_imm1 binr) 0) (value (b_imm2 binr) 0) =
    pattern32 (off - off mod 2).
Proof.
  intros H binr.
  pose proof (check_range_sound _ _ _ b_imm_checked off ltac:(lia)) as C.
  unfold b_imm_check in C. fold binr in C.
  repeat (apply andb_true_iff in C as [C ?]).
  repeat split; auto; try (apply Nat.eqb_eq; assumption). now apply Z.eqb_eq.
Qed.

Lemma get_format_b mn f3s f3 :
  b_funct3 mn = Some (f3s, f3) -> Asm.get_format mn Asm.switch_dict = Some Asm.BType.
Proof.
  intros H.
  destruct (b_funct3_cases _ _ _ H) as
    [(-> & _)|[(-> & _)|[(-> & _)|[(-> & _)|[(-> & _)|(-> & _)]]]]]; reflexivity.
Qed.

Lemma Switch_case_b data i mn f3s f3 r1 r2 tok n1 n2 off e :
  data !! 0%nat = Some mn -> data !! 1%nat = Some r1 ->
  data !! 2%nat = Some r2 -> data !! 3%nat = Some tok ->
  b_funct3 mn = Some (f3s, f3) ->
  Asm.reg_index r1 = Some n1 -> Asm.reg_index r2 = Some n2 ->
  resolves tok i (Asm.label_dict e) off -> -2147483648 <= off <= 2147483647 ->
  exists e',
    Asm.Switch_case mn data i e = (e', Asm.Ok tt) /\
    Asm.stdout e' = Asm.stdout e /\
    Asm.output e' = (Asm.output e ++ [b_line f3s n1 n2 off +:+ newline])%list.
Proof.
  intros H0 H1 H2 H3 Hf Hr1 Hr2 Ht Hoff.
  destruct (b_type_ok data i mn f3s f3 r1 r2 tok n1 n2 off e
              H0 H1 H2 H3 Hf Hr1 Hr2 Ht Hoff) as (e1 & (Hs & Ho & _) & Hb).
  unfold Asm.Switch_case. rewrite (get_format_b _ _ _ Hf).
  cbn [Asm.run_format].
  rewrite (bind_ok _ _ _ _ _ (fmap_ok _ Some _ _ _ Hb)).
  cbn [rev app Asm.pop_all].
  unfold Asm.ret at 1. unfold mbind, Asm.M_bind, Asm.bind, Asm.write.
  eexists. split; [reflexivity|]. cbn [Asm.stdout Asm.output].
  split; [exact Hs|]. rewrite Ho. f_equal. f_equal.
  unfold b_line, newline. cbn [String.append]. rewrite !app_assoc_s. reflexivity.
Qed.

Lemma value_bound s :
  is_binary s = true -> 0 <= value s 0 < 2 ^ Z.of_nat (String.length s).
Proof.
  induction s as [|c s IH]; intros H; [simpl; lia|].
  simpl in H. apply andb_true_iff in H as [Hc Hs].
  cbn [value String.length]. rewrite value_acc, Nat2Z.inj_succ, Z.pow_succ_r by lia.
  specialize (IH Hs).
  destruct (binary_char _ Hc) as [-> | ->]; cbn [Ascii.eqb Bool.eqb]; lia.
Qed.

Lemma lstrip_line s :
  is_binary s = true -> s <> EmptyString -> Py.lstrip (s +:+ newline) = s +:+ newline.
Proof.
  destruct s as [|c s]; intros H Hne; [congruence|]. simpl in H.
  apply andb_true_iff in H as [H _].
  destruct (binary_char _ H) as [-> | ->]; reflexivity.
Qed.

Lemma rstrip_line s : is_binary s = true -> Py.rstrip (s +:+ newline) = s.
Proof.
  induction s as [|c s IH]; [reflexivity|]. intros H. simpl in H.
  apply andb_true_iff in H as [H Hs].
  change (Py.rstrip (String c (s +:+ newline)) = String c s).
  cbn [Py.rstrip]. rewrite (IH Hs).
  destruct (binary_char _ H) as [-> | ->]; reflexivity.
Qed.

(** The loader strips the line feed from a line of binary digits. *)
Lemma strip_line s : is_binary s = true -> Py.strip (s +:+ newline) = s.
Proof.
  intros H. destruct s as [|c s]; [reflexivity|].
  unfold Py.strip. rewrite (lstrip_line _ H) by discriminate. now apply rstrip_line.
Qed.

Lemma format_0b_5 n :
  0 <= n < 32 ->
  is_binary (Py.format_0b 5 n) = true /\ String.length (Py.format_0b 5 n) = 5%nat /\
  value (Py.format_0b 5 n) 0 = n.
Proof. intros H. apply (format_0b_spec n 5); [simpl; lia | lia]. Qed.

(** The word the simulator loads from a line of the B format, and what it
    decodes from it. *)
Lemma b_line_decode f3s f3 mn n1 n2 off :
  b_funct3 mn = Some (f3s, f3) -> 0 <= n1 < 32 -> 0 <= n2 < 32 ->
  -4096 <= off <= 4095 ->
  let line := b_line f3s n1 n2 off in
  is_binary line = true /\ String.length line = 32%nat /\
  exists w, Py.int 2 line = Some w /\
    Sim.opcode_of w = 0x63 /\ Sim.funct3_of w = f3 /\
    Sim.rs1_of w = n1 /\ Sim.rs2_of w = n2 /\
    Sim.imm_b w = pattern32 (off - off mod 2).
Proof.
  intros Hf Hn1 Hn2 Hoff line.
  destruct (b_imm_spec off Hoff) as (B1 & L1 & B2 & L2 & Himm).
  destruct (format_0b_5 n1 Hn1) as (Bn1 & Ln1 & Vn1).
  destruct (format_0b_5 n2 Hn2) as (Bn2 & Ln2 & Vn2).
  assert (F3 : is_binary f3s = true /\ String.length f3s = 3%nat /\
               value f3s 0 = f3 /\ 0 <= f3 < 8).
  { destruct (b_funct3_cases _ _ _ Hf) as
      [(_ & -> & ->)|[(_ & -> & ->)|[(_ & -> & ->)|[(_ & -> & ->)|
       [(_ & -> & ->)|(_ & -> & ->)]]]]]; repeat split; lia. }
  destruct F3 as (B3 & L3 & V3 & R3).
  assert (Hb : is_binary line = true).
  { subst line. unfold b_line. rewrite !is_binary_app, B1, B2, Bn1, Bn2, B3.
    reflexivity. }
  assert (Hl : String.length line = 32%nat).
  { subst line. unfold b_line. rewrite !length_app, L1, L2, Ln1, Ln2, L3.
    reflexivity. }
  split; [exact Hb|]. split; [exact Hl|].
  exists (value line 0). split.
  { apply int_binary; [exact Hb|]. intros E. rewrite E in Hl. discriminate. }
  assert (V1 : 0 <= value (b_imm1 (Py.format_0b 32 (pattern32 off))) 0 < 32).
  { pose proof (value_bound (b_imm1 (Py.format_0b 32 (pattern32 off))) B1) as Hv.
    rewrite L1 in Hv. simpl in Hv. lia. }
  assert (V2 : 0 <= value (b_imm2 (Py.format_0b 32 (pattern32 off))) 0 < 128).
  { pose proof (value_bound (b_imm2 (Py.format_0b 32 (pattern32 off))) B2) as Hv.
    rewrite L2 in Hv. simpl in Hv. lia. }
  assert (Hw : value line 0 =
    ((((value (b_imm2 (Py.format_0b 32 (pattern32 off))) 0 * 2 ^ 5 + n2) * 2 ^ 5 + n1)
        * 2 ^ 3 + f3) * 2 ^ 5 + value (b_imm1 (Py.format_0b 32 (pattern32 off))) 0)
      * 2 ^ 7 + 0x63).
  { subst line. unfold b_line. rewrite <- !app_assoc_s.
    rewrite !value_app_pow, L1, Ln1, Ln2, L3, Vn1, Vn2, V3. reflexivity. }
  rewrite Hw.
  destruct (word_fields _ n2 n1 f3 _ 0x63 V2 Hn2 Hn1 R3 V1 ltac:(lia))
    as (Eo & Ed & E3 & E1 & E2 & E7).
  repeat split; try assumption.
  rewrite imm_b_by_fields, Ed, E7. exact Himm.
Qed.

(** C2, as amended: for each of the six branch mnemonics, every pair of
    register names of the table and every literal offset in -2048..2047,
    [Switch_case] appends one line; the simulator reads it as a word whose
    opcode is 0x63 and whose funct3, rs1 and rs2 are those of the
    instruction; and when the offset is even and not negative, [imm_b] of
    that word is the offset. *)
Theorem b_format_roundtrip data i mn f3s f3 r1 r2 tok n1 n2 off e :
  data !! 0%nat = Some mn -> data !! 1%nat = Some r1 ->
  data !! 2%nat = Some r2 -> data !! 3%nat = Some tok ->
  b_funct3 mn = Some (f3s, f3) ->
  Asm.reg_index r1 = Some n1 -> Asm.reg_index r2 = Some n2 ->
  Py.int 10 tok = Some off -> -2048 <= off <= 2047 ->
  exists e' line w,
    Asm.Switch_case mn data i e = (e', Asm.Ok tt) /\
    Asm.output e' = (Asm.output e ++ [line])%list /\
    Py.len (Py.strip line) = 32 /\
    Py.int 2 (Py.strip line) = Some w /\
    Sim.opcode_of w = 0x63 /\ Sim.funct3_of w = f3 /\
    Sim.rs1_of w = n1 /\ Sim.rs2_of w = n2 /\
    (0 <= off -> Z.even off = true -> Sim.imm_b w = off).
Proof.
  intros H0 H1 H2 H3 Hf Hr1 Hr2 Ht Hoff.
  destruct (Switch_case_b data i mn f3s f3 r1 r2 tok n1 n2 off e
              H0 H1 H2 H3 Hf Hr1 Hr2 (or_introl Ht) ltac:(lia)) as (e' & Hrun & _ & Hout).
  destruct (b_line_decode f3s f3 mn n1 n2 off Hf
              (proj2 (reg_add_known _ _ e Hr1)) (proj2 (reg_add_known _ _ e Hr2))
              ltac:(lia)) as (Hb & Hl & w & Hw & Eo & E3 & E1 & E2 & Ei).
  exists e', (b_line f3s n1 n2 off +:+ newline), w.
  rewrite (strip_line _ Hb). unfold Py.len. rewrite Hl.
  repeat split; try assumption.
  intros Hpos Hev. rewrite Ei.
  apply Z.even_spec in Hev. destruct Hev as [k ->].
  replace (2 * k - (2 * k) mod 2) with (2 * k)
    by (rewrite Z.mul_comm, Z.mod_mul; lia).
  unfold pattern32. destruct (Z.ltb_spec (2 * k) 0); lia.
Qed.

Lemma b_format_roundtrip_witness :
  exists e' line w,
    Asm.Switch_case "bne" ["bne"; "a0"; "s1"; "12"] 3 Asm.env0 = (e', Asm.Ok tt) /\
    Asm.output e' = (Asm.output Asm.env0 ++ [line])%list /\
    Py.len (Py.strip line) = 32 /\
    Py.int 2 (Py.strip line) = Some w /\
    Sim.opcode_of w = 0x63 /\ Sim.funct3_of w = 1 /\
    Sim.rs1_of w = 10 /\ Sim.rs2_of w = 9 /\ Sim.imm_b w = 12.
Proof.
  destruct (b_format_roundtrip ["bne"; "a0"; "s1"; "12"] 3 "bne" "001" 1 "a0" "s1"
              "12" 10 9 12 Asm.env0 eq_refl eq_refl eq_refl eq_refl eq_refl eq_refl
              eq_refl eq_refl ltac:(lia))
    as (e' & line & w & H1 & H2 & H3 & H4 & H5 & H6 & H7 & H8 & H9).
  exists e', line, w. repeat split; try assumption.
  apply H9; [lia | reflexivity].
Defined.

(** C2 as stated fails at an odd offset: [beq a0,a1,1] is assembled, the
    word is read back, and [imm_b] gives 0. *)
Lemma b_format_odd_offset :
  exists e' line w,
    Asm.Switch_case "beq" ["beq"; "a0"; "a1"; "1"] 0 Asm.env0 = (e', Asm.Ok tt) /\
    Asm.output e' = [line] /\
    Py.int 2 (Py.strip line) = Some w /\
    Sim.imm_b w = 0 /\ Sim.imm_b w <> 1.
Proof.
  eexists _, _, _. split; [vm_compute; reflexivity|].
  split; [reflexivity|]. split; [vm_compute; reflexivity|].
  split; [vm_compute; reflexivity | vm_compute; discriminate].
Qed.

(** The other way C2 fails: for a negative offset [imm_b] returns the
    32-bit pattern, not the negative number. *)
Lemma b_format_negative_offset :
  exists e' line w,
    Asm.Switch_case "beq" ["beq"; "a0"; "a1"; "-4"] 0 Asm.env0 = (e', Asm.Ok tt) /\
    Asm.output e' = [line] /\
    Py.int 2 (Py.strip line) = Some w /\
    Sim.imm_b w = 2 ^ 32 - 4.
Proof.
  eexists _, _, _. split; [vm_compute; reflexivity|].
  split; [reflexivity|]. split; vm_compute; reflexivity.
Qed.

(** ** Register 0 along a run *)

Lemma setitem_length l i v l' : Sim.setitem l i v = Some l' -> length l' = length l.
Proof.
  unfold Sim.setitem. destruct (Sim.position (length l) i); [|discriminate].
  intros [= <-]. apply length_insert.
Qed.

Lemma position_range n i k : Sim.position n i = Some k -> (k < n)%nat.
Proof.
  unfold Sim.position.
  destruct (Z.ltb_spec i 0);
    match goal with |- context [if ?c then _ else _] => destruct c eqn:E end;
    try discriminate; intros [= <-];
    apply andb_true_iff in E as [E1 E2]; apply Z.leb_le in E1; apply Z.ltb_lt in E2; lia.
Qed.

Lemma write_reg_spec self rd v self' :
  Sim.write_reg self rd v = Some self' ->
  exists r, Sim.setitem (Sim.registers self) rd v = Some r /\
            self' = Sim.set_registers r self.
Proof.
  unfold Sim.write_reg. destruct (Sim.setitem _ rd v) as [r|]; [|discriminate].
  intros [= <-]. eauto.
Qed.

Lemma finish_spec self b self' :
  Sim.finish self = Some (b, self') ->
  b = true /\ Sim.registers self' !! 0%nat = Some 0 /\
  length (Sim.registers self') = length (Sim.registers self) /\
  Sim.memory self' = Sim.memory self /\ Sim.pc self' = Sim.pc self /\
  Sim.halted self' = Sim.halted self.
Proof.
  unfold Sim.finish. destruct (Sim.write_reg self 0 0) as [s1|] eqn:E; [|discriminate].
  intros [= <- <-]. apply write_reg_spec in E as (r & Hr & ->).
  cbn. split; [reflexivity|].
  pose proof (setitem_length _ _ _ _ Hr) as Hl.
  unfold Sim.setitem in Hr.
  destruct (Sim.position _ 0) as [k|] eqn:Ek; [|discriminate].
  injection Hr as <-.
  assert (k = 0%nat) as ->.
  { unfold Sim.position in Ek. cbn in Ek.
    destruct (0 <? Z.of_nat (length (Sim.registers self))); [|discriminate].
    now injection Ek as <-. }
  pose proof (position_range _ _ _ Ek).
  split; [apply list_lookup_insert_eq; lia|]. rewrite length_insert. auto.
Qed.

Ltac split_exec H :=
  repeat match type of H with
         | context [if ?c then _ else _] => destruct c eqn:?
         | context [mbind _ ?o] =>
             destruct o eqn:?; cbn [mbind option_bind] in H
         | None = Some _ => discriminate H
         | Sim.fatal _ _ = Some (true, _) => discriminate H
         end.

(** A successful instruction either is the halt, which changes the flag
    only, or ends in [finish]. *)
Lemma execute_shape self w self' :
  Sim.execute_instruction self w = Some (true, self') ->
  (self' = Sim.set_halted true self) \/
  exists s1, length (Sim.registers s1) = length (Sim.registers self) /\
             Sim.finish s1 = Some (true, self').
Proof.
  intros H. unfold Sim.execute_instruction in H. cbv zeta in H.
  split_exec H.
  all: try (left; congruence).
  all: right.
  all: unfold Sim.next in H.
  all: repeat match goal with
         | E : Sim.write_reg _ _ _ = Some _ |- _ =>
             apply write_reg_spec in E as (? & ?%setitem_length & ->)
         end.
  all: eexists; split; [|exact H]; cbn; try congruence.
Qed.

Lemma execute_memory_length self w b self' :
  Sim.execute_instruction self w = Some (b, self') ->
  length (Sim.memory self') = length (Sim.memory self).
Proof.
  intros H. unfold Sim.execute_instruction in H. cbv zeta in H.
  unfold Sim.next, Sim.finish, Sim.fatal in H.
  repeat match type of H with
         | context [if ?c then _ else _] => destruct c eqn:?
         | context [mbind _ ?o] =>
             destruct o eqn:?; cbn [mbind option_bind] in H
         | None = Some _ => discriminate H
         end.
  all: injection H as <- <-.
  all: repeat match goal with
         | E : Sim.write_reg _ _ _ = Some _ |- _ =>
             apply write_reg_spec in E as (? & _ & ->)
         | E : Sim.setitem (Sim.memory _) _ _ = Some _ |- _ =>
             apply setitem_length in E
         end.
  all: cbn; congruence.
Qed.

Lemma load_lines_registers lines : forall self lineno i b self',
  Sim.load_lines self lines lineno i = Some (b, self') ->
  Sim.registers self' = Sim.registers self /\ Sim.pc self' = Sim.pc self /\
  Sim.halted self' = Sim.halted self /\
  Sim.max_instructions self' = Sim.max_instructions self /\
  length (Sim.memory self') = length (Sim.memory self).
Proof.
  induction lines as [|line rest IH]; intros self lineno i b self' H; cbn in H.
  - injection H as <- <-. auto.
  - destruct (Py.is_empty (Py.strip line)); [eauto|].
    destruct (negb (Py.len (Py.strip line) =? 32)); [injection H as <- <-; cbn; auto|].
    destruct (32 <=? i); [injection H as <- <-; cbn; auto|].
    destruct (Py.int 2 (Py.strip line)); [|injection H as <- <-; cbn; auto].
    destruct (Sim.setitem (Sim.memory self) i z) as [m|] eqn:Em; [|discriminate].
    cbn in H. apply IH in H. cbn in H.
    rewrite (setitem_length _ _ _ _ Em) in H. exact H.
Qed.

Lemma load_program_registers bin_file self b self' :
  Sim.load_program self bin_file = Some (b, self') ->
  Sim.registers self' = Sim.registers self /\ Sim.pc self' = Sim.pc self /\
  Sim.halted self' = Sim.halted self /\
  Sim.max_instructions self' = Sim.max_instructions self /\
  length (Sim.memory self') = length (Sim.memory self).
Proof.
  destruct bin_file as [lines|]; cbn.
  - apply load_lines_registers.
  - intros [= <- <-]. cbn. auto.
Qed.

(** The shape of the register file and of the memory never changes. *)
Lemma reachable_shape self :
  reachable self ->
  length (Sim.registers self) = 32%nat /\ length (Sim.memory self) = 32%nat /\
  Sim.registers self !! 0%nat = Some 0.
Proof.
  induction 1 as [bin_file self Hl | self w self' Hr IH Hh Hpc Hw Hx].
  - apply load_program_registers in Hl as (-> & _ & _ & _ & ->). cbn. auto.
  - destruct IH as (Lr & Lm & R0).
    assert (Hm : length (Sim.memory self') = length (Sim.memory self)).
    { apply execute_memory_length in Hx. exact Hx. }
    destruct (execute_shape _ _ _ Hx) as [-> | (s1 & Hl1 & Hf)].
    + cbn. auto.
    + apply finish_spec in Hf as (_ & H0 & Hl' & _). rewrite Hl', Hl1, Hm. auto.
Qed.

(** C4: register 0 is zero in every state of a run: after the image is
    loaded, and after each instruction that executes successfully,
    whatever its destination register is. *)
Theorem register_zero_invariant self :
  reachable self -> Sim.registers self !! 0%nat = Some 0.
Proof. intros H. apply (reachable_shape self H). Qed.

Lemma register_zero_invariant_witness :
  Sim.registers (stepped (loaded (Some addi_zero_image))) !! 0%nat = Some 0.
Proof.
  apply (register_zero_invariant (stepped (loaded (Some addi_zero_image)))).
  eapply (reachable_step (loaded (Some addi_zero_image)) 5242899);
    [apply (reachable_load (Some addi_zero_image)) | | | | ];
    try reflexivity.
  change (0 <= 0 < 32). lia.
Defined.

Lemma field_range w :
  0 <= Sim.rd_of w < 32 /\ 0 <= Sim.rs1_of w < 32 /\ 0 <= Sim.rs2_of w < 32.
Proof.
  unfold Sim.rd_of, Sim.rs1_of, Sim.rs2_of. rewrite !land_1f.
  repeat split; apply Z.mod_pos_bound; lia.
Qed.

Lemma position_ok (n : nat) i :
  0 <= i < Z.of_nat n -> Sim.position n i = Some (Z.to_nat i).
Proof.
  intros H. unfold Sim.position.
  destruct (Z.ltb_spec i 0); [lia|].
  replace ((0 <=? i) && (i <? Z.of_nat n)) with true; [reflexivity|].
  symmetry. apply andb_true_iff. split; [apply Z.leb_le | apply Z.ltb_lt]; lia.
Qed.

Lemma getitem_ok l i :
  0 <= i < Z.of_nat (length l) -> Sim.getitem l i = l !! Z.to_nat i.
Proof. intros H. unfold Sim.getitem. now rewrite position_ok. Qed.

Lemma setitem_ok l i v :
  0 <= i < Z.of_nat (length l) -> Sim.setitem l i v = Some (<[Z.to_nat i := v]> l).
Proof. intros H. unfold Sim.setitem. now rewrite position_ok. Qed.

Lemma lookup_ok (l : list Z) (k : nat) : (k < length l)%nat -> exists v, l !! k = Some v.
Proof. intros H. apply lookup_lt_is_Some_2 in H. destruct H; eauto. Qed.

(** ** Loads, stores and the failing jalr *)

Ltac decide_opcode :=
  cbn [Z.eqb Pos.eqb andb orb negb].

(** C10: a [jalr] whose target word is outside the memory returns False
    after it wrote [pc + 1] to [rd]: the failed call leaves a state whose
    register file holds the link value, register 0 included when [rd] is
    0, and differs from the state before whenever [rd] did not already
    hold [pc + 1]. *)
Theorem jalr_error_writes_rd self w a :
  length (Sim.registers self) = 32%nat ->
  Sim.opcode_of w = 0x67 ->
  Sim.getitem (Sim.registers self) (Sim.rs1_of w) = Some a ->
  32 <= Z.land (a + Sim.imm_i w) 0xfffffffe / 4 ->
  let regs' := <[Z.to_nat (Sim.rd_of w) := Sim.pc self + 1]> (Sim.registers self) in
  let self' := Sim.say (Sim.JalrOutOfRange (Z.land (a + Sim.imm_i w) 0xfffffffe)
                          (Sim.pc self)) (Sim.set_registers regs' self) in
  Sim.execute_instruction self w = Some (false, self') /\
  Sim.registers self' !! Z.to_nat (Sim.rd_of w) = Some (Sim.pc self + 1) /\
  (Sim.registers self !! Z.to_nat (Sim.rd_of w) <> Some (Sim.pc self + 1) ->
   Sim.registers self' <> Sim.registers self).
Proof.
  intros Hl Hop Ha Ht regs' self'.
  destruct (field_range w) as (Hrd & _ & _).
  assert (Hget : Sim.registers self' !! Z.to_nat (Sim.rd_of w) = Some (Sim.pc self + 1)).
  { subst self' regs'. cbn. apply list_lookup_insert_eq. lia. }
  split; [|split; [exact Hget|]].
  - unfold Sim.execute_instruction. cbv zeta. rewrite Hop. decide_opcode.
    rewrite Ha. cbn [mbind option_bind].
    unfold Sim.write_reg. rewrite setitem_ok by lia. cbn [mbind option_bind].
    replace ((Z.land (a + Sim.imm_i w) 0xfffffffe / 4 <? 0) ||
             (32 <=? Z.land (a + Sim.imm_i w) 0xfffffffe / 4)) with true.
    + reflexivity.
    + symmetry. apply orb_true_iff. right. apply Z.leb_le. exact Ht.
  - intros Hne E. rewrite E in Hget. contradiction.
Qed.

(** [jalr ra,zero,128] in the initial state. *)
Lemma jalr_error_writes_rd_witness :
  let w := 134217959 in
  let regs' := <[Z.to_nat (Sim.rd_of w) := Sim.pc Sim.init + 1]> (Sim.registers Sim.init) in
  let self' := Sim.say (Sim.JalrOutOfRange (Z.land (0 + Sim.imm_i w) 0xfffffffe)
                          (Sim.pc Sim.init)) (Sim.set_registers regs' Sim.init) in
  Sim.execute_instruction Sim.init w = Some (false, self') /\
  Sim.registers self' !! Z.to_nat (Sim.rd_of w) = Some (Sim.pc Sim.init + 1) /\
  (Sim.registers Sim.init !! Z.to_nat (Sim.rd_of w) <> Some (Sim.pc Sim.init + 1) ->
   Sim.registers self' <> Sim.registers Sim.init).
Proof.
  apply (jalr_error_writes_rd Sim.init 134217959 0); reflexivity.
Defined.

(** C5, as amended.  For [lw] and [sw] with funct3 = 2 the address is
    [rs1 + imm12] wrapped to 32 bits and the word index is its quotient by
    4, rounded down; alignment is not examined.  An index of 32 or more is
    fatal and changes nothing but standard output.  Otherwise [lw] sets
    [rd] to the word at that index and [sw] sets the word at that index to
    [rs2]; both then clear register 0 and advance [pc]. *)
Theorem lw_sw_access self w a :
  length (Sim.registers self) = 32%nat -> length (Sim.memory self) = 32%nat ->
  Sim.getitem (Sim.registers self) (Sim.rs1_of w) = Some a ->
  Sim.funct3_of w = 2 ->
  (Sim.opcode_of w = 0x03 ->
   let addr := Z.land (a + Sim.imm_i w) 0xffffffff in
   if 32 <=? addr / 4 then
     Sim.execute_instruction self w =
       Some (false, Sim.say (Sim.LoadOutOfRange addr (Sim.pc self)) self)
   else
     exists v, Sim.memory self !! Z.to_nat (addr / 4) = Some v /\
       Sim.execute_instruction self w =
         Some (true,
               Sim.set_registers
                 (<[0%nat := 0]> (<[Z.to_nat (Sim.rd_of w) := v]> (Sim.registers self)))
                 (Sim.set_pc (Sim.pc self + 1) self))) /\
  (Sim.opcode_of w = 0x23 ->
   let addr := Z.land (a + Sim.imm_s w) 0xffffffff in
   if 32 <=? addr / 4 then
     Sim.execute_instruction self w =
       Some (false, Sim.say (Sim.StoreOutOfRange addr (Sim.pc self)) self)
   else
     exists b, Sim.registers self !! Z.to_nat (Sim.rs2_of w) = Some b /\
       Sim.execute_instruction self w =
         Some (true,
               Sim.set_registers (<[0%nat := 0]> (Sim.registers self))
                 (Sim.set_pc (Sim.pc self + 1)
                    (Sim.set_memory
                       (<[Z.to_nat (addr / 4) := Z.land b 0xffffffff]> (Sim.memory self))
                       self)))).
Proof.
  intros Hlr Hlm Ha Hf3.
  destruct (field_range w) as (Hrd & _ & Hrs2).
  split; intros Hop addr.
  - assert (Haddr : 0 <= addr / 4).
    { subst addr. rewrite land_ffffffff. apply Z.div_pos; [|lia].
      apply Z.mod_pos_bound. lia. }
    unfold Sim.execute_instruction. cbv zeta. rewrite Hop, Hf3. decide_opcode.
    rewrite Ha. cbn [mbind option_bind]. fold addr.
    destruct (Z.leb_spec 32 (addr / 4)) as [Hb|Hb].
    + replace (addr / 4 <? 0) with false by (symmetry; apply Z.ltb_ge; lia).
      reflexivity.
    + replace (addr / 4 <? 0) with false by (symmetry; apply Z.ltb_ge; lia).
      cbn [orb]. rewrite getitem_ok by lia.
      destruct (lookup_ok (Sim.memory self) (Z.to_nat (addr / 4)) ltac:(lia)) as [v Hv].
      exists v. split; [exact Hv|]. rewrite Hv. cbn [mbind option_bind].
      unfold Sim.write_reg. rewrite setitem_ok by lia. cbn [mbind option_bind].
      unfold Sim.next, Sim.finish, Sim.write_reg. cbn [Sim.registers Sim.set_pc Sim.set_registers].
      rewrite setitem_ok by (rewrite length_insert; lia). reflexivity.
  - assert (Haddr : 0 <= addr / 4).
    { subst addr. rewrite land_ffffffff. apply Z.div_pos; [|lia].
      apply Z.mod_pos_bound. lia. }
    unfold Sim.execute_instruction. cbv zeta. rewrite Hop, Hf3. decide_opcode.
    rewrite Ha. cbn [mbind option_bind]. fold addr.
    destruct (Z.leb_spec 32 (addr / 4)) as [Hb|Hb].
    + replace (addr / 4 <? 0) with false by (symmetry; apply Z.ltb_ge; lia).
      reflexivity.
    + replace (addr / 4 <? 0) with false by (symmetry; apply Z.ltb_ge; lia).
      cbn [orb]. rewrite getitem_ok by lia.
      destruct (lookup_ok (Sim.registers self) (Z.to_nat (Sim.rs2_of w)) ltac:(lia)) as [b Hv].
      exists b. split; [exact Hv|]. rewrite Hv. cbn [mbind option_bind].
      rewrite setitem_ok by lia. cbn [mbind option_bind].
      unfold Sim.next, Sim.finish, Sim.write_reg.
      cbn [Sim.registers Sim.set_pc Sim.set_registers Sim.set_memory].
      rewrite setitem_ok by lia. reflexivity.
Qed.

(** [lw ra,8(zero)] and [sw ra,12(zero)] in that state. *)
Lemma lw_sw_access_witness :
  (exists v, Sim.memory numbered !! Z.to_nat (Z.land (0 + Sim.imm_i 8396931) 0xffffffff / 4) = Some v /\
     Sim.execute_instruction numbered 8396931 =
       Some (true,
             Sim.set_registers
               (<[0%nat := 0]> (<[Z.to_nat (Sim.rd_of 8396931) := v]> (Sim.registers numbered)))
               (Sim.set_pc (Sim.pc numbered + 1) numbered))) /\
  (exists b, Sim.registers numbered !! Z.to_nat (Sim.rs2_of 1058339) = Some b /\
     Sim.execute_instruction numbered 1058339 =
       Some (true,
             Sim.set_registers (<[0%nat := 0]> (Sim.registers numbered))
               (Sim.set_pc (Sim.pc numbered + 1)
                  (Sim.set_memory
                     (<[Z.to_nat (Z.land (0 + Sim.imm_s 1058339) 0xffffffff / 4) :=
                          Z.land b 0xffffffff]> (Sim.memory numbered))
                     numbered)))).
Proof.
  split.
  - exact (proj1 (lw_sw_access numbered 8396931 0 eq_refl eq_refl eq_refl eq_refl) eq_refl).
  - exact (proj2 (lw_sw_access numbered 1058339 0 eq_refl eq_refl eq_refl eq_refl) eq_refl).
Defined.

(** C5 as stated fails on a misaligned address: [lw ra,5(zero)] is not
    fatal; it loads word 1. *)
Lemma lw_misaligned_not_fatal :
  let w := 5251203 in
  Sim.opcode_of w = 0x03 /\ Sim.funct3_of w = 2 /\
  Z.land (0 + Sim.imm_i w) 0xffffffff = 5 /\
  exists self',
    Sim.execute_instruction numbered w = Some (true, self') /\
    Sim.registers self' !! 1%nat = Some 101.
Proof.
  cbv zeta. repeat split. eexists. split; reflexivity.
Qed.

(** ** The execution loop ends *)

Ltac split_all H :=
  repeat match type of H with
         | context [if ?c then _ else _] => destruct c eqn:?
         | context [mbind _ ?o] =>
             destruct o eqn:?; cbn [mbind option_bind] in H
         | None = Some _ => discriminate H
         end.

(** What one instruction keeps: the shape of the state and the budget;
    standard output grows by one message, which is not the one of the
    budget, exactly when the instruction fails. *)
Lemma execute_keeps self w b self' :
  Sim.execute_instruction self w = Some (b, self') ->
  length (Sim.registers self') = length (Sim.registers self) /\
  length (Sim.memory self') = length (Sim.memory self) /\
  Sim.max_instructions self' = Sim.max_instructions self /\
  (b = true -> Sim.console self' = Sim.console self) /\
  (b = false -> exists m, Sim.console self' = (Sim.console self ++ [m])%list /\
                          m <> Sim.MaxInstructions).
Proof.
  intros H. unfold Sim.execute_instruction in H. cbv zeta in H.
  unfold Sim.next, Sim.finish, Sim.fatal in H.
  split_all H.
  all: injection H as <- <-.
  all: repeat match goal with
         | E : Sim.write_reg _ _ _ = Some _ |- _ =>
             apply write_reg_spec in E as (? & ?%setitem_length & ->)
         | E : Sim.setitem (Sim.memory _) _ _ = Some _ |- _ =>
             apply setitem_length in E
         end.
  all: cbn in *; repeat split; try congruence; try discriminate.
  all: intros _; eexists; split; [reflexivity | discriminate].
Qed.

(** With 32 registers and 32 words no instruction raises. *)
Lemma execute_total self w :
  well_shaped self -> exists r, Sim.execute_instruction self w = Some r.
Proof.
  intros [Hr Hm].
  destruct (field_range w) as (Hrd & Hrs1 & Hrs2).
  assert (G : forall i, 0 <= i < 32 -> exists v, Sim.getitem (Sim.registers self) i = Some v).
  { intros i Hi. rewrite getitem_ok by lia. apply lookup_ok. lia. }
  destruct (G _ Hrs1) as [a Ha]. destruct (G _ Hrs2) as [b Hb].
  assert (W : forall s v i, length (Sim.registers s) = 32%nat -> 0 <= i < 32 ->
            Sim.write_reg s i v =
              Some (Sim.set_registers (<[Z.to_nat i := v]> (Sim.registers s)) s)).
  { intros s v i Hs Hi. unfold Sim.write_reg. rewrite setitem_ok by lia. reflexivity. }
  assert (F : forall s, length (Sim.registers s) = 32%nat -> exists r, Sim.finish s = Some r).
  { intros s Hs. unfold Sim.finish. rewrite W by (auto; lia). cbn. eauto. }
  unfold Sim.execute_instruction. cbv zeta. rewrite Ha, Hb. cbn [mbind option_bind].
  unfold Sim.next, Sim.fatal.
  repeat match goal with
         | |- context [if ?c then _ else _] => destruct c eqn:?
         end.
  all: rewrite ?W by (auto; lia); cbn [mbind option_bind].
  all: try (eexists; reflexivity).
  all: try (apply F; cbn; rewrite ?length_insert; assumption).
  - (* lw *)
    match goal with
    | E : (_ <? 0) || (32 <=? _) = false |- _ =>
        apply orb_false_iff in E as [E1 E2]; apply Z.ltb_ge in E1; apply Z.leb_gt in E2
    end.
    rewrite getitem_ok by lia.
    match goal with
    | |- context [Sim.memory self !! ?k] =>
        destruct (lookup_ok (Sim.memory self) k ltac:(lia)) as [v ->]
    end.
    cbn [mbind option_bind]. rewrite W by (auto; lia). cbn [mbind option_bind].
    apply F. cbn. rewrite length_insert. assumption.
  - (* sw *)
    match goal with
    | E : (_ <? 0) || (32 <=? _) = false |- _ =>
        apply orb_false_iff in E as [E1 E2]; apply Z.ltb_ge in E1; apply Z.leb_gt in E2
    end.
    rewrite setitem_ok by lia. cbn [mbind option_bind].
    apply F. cbn. assumption.
Qed.

(** What the loop does from a well-shaped state when the fuel covers the
    budget that is left: it never raises and never runs out of fuel; it
    writes one trace line per state it goes through; it returns with a
    fatal message, or it exits with the halt flag set or the budget used
    up exactly. *)
Lemma loop_spec fuel : forall self instr_count out,
  well_shaped self ->
  Sim.max_instructions self - instr_count <= Z.of_nat fuel ->
  exists pre,
    match Sim.loop fuel self instr_count out with
    | Sim.Returned self' out' =>
        out' = (out ++ map Sim.trace_line pre)%list /\
        (instr_count <= Sim.max_instructions self ->
         instr_count + Z.of_nat (length pre) <= Sim.max_instructions self) /\
        exists c m, Sim.console self' = (c ++ [m])%list /\ m <> Sim.MaxInstructions
    | Sim.Exited self' instr_count' out' =>
        out' = (out ++ map Sim.trace_line pre)%list /\
        instr_count' = instr_count + Z.of_nat (length pre) /\
        Sim.max_instructions self' = Sim.max_instructions self /\
        Sim.console self' = Sim.console self /\
        (instr_count <= Sim.max_instructions self ->
         instr_count' <= Sim.max_instructions self) /\
        (Sim.halted self' = false -> Sim.max_instructions self <= instr_count')
    | Sim.Uncaught | Sim.NoFuel => False
    end.
Proof.
  induction fuel as [|fuel IH]; intros self c out Hwf Hfuel.
  - exists []. cbn [Sim.loop].
    destruct (Sim.halted self) eqn:Hh; cbn [negb andb].
    + rewrite app_nil_r. cbn. repeat split; auto; try lia; try congruence.
    + destruct (Z.ltb_spec c (Sim.max_instructions self)); [lia|].
      rewrite app_nil_r. cbn. repeat split; auto; lia.
  - cbn [Sim.loop].
    destruct (Sim.halted self) eqn:Hh; cbn [negb andb].
    { exists []. rewrite app_nil_r. cbn. repeat split; auto; try lia; try congruence. }
    destruct (Z.ltb_spec c (Sim.max_instructions self)) as [Hc|Hc].
    2:{ exists []. rewrite app_nil_r. cbn. repeat split; auto; lia. }
    destruct ((Sim.pc self <? 0) || (32 <=? Sim.pc self)) eqn:Hpc.
    { exists []. rewrite app_nil_r. split; [reflexivity|]. split; [cbn; lia|].
      eexists _, _. split; [reflexivity | discriminate]. }
    apply orb_false_iff in Hpc as [Hp1 Hp2].
    apply Z.ltb_ge in Hp1. apply Z.leb_gt in Hp2.
    destruct Hwf as [Hr Hm].
    rewrite getitem_ok by lia.
    destruct (lookup_ok (Sim.memory self) (Z.to_nat (Sim.pc self)) ltac:(lia)) as [w ->].
    destruct (execute_total self (Z.land w 0xffffffff) (conj Hr Hm)) as [[b self'] Hx].
    rewrite Hx.
    destruct (execute_keeps _ _ _ _ Hx) as (Kr & Km & Kmax & Kt & Kf).
    destruct b.
    + destruct (IH self' (c + 1) (out ++ [Sim.trace_line self])%list) as [pre Hpre].
      { split; congruence. }
      { rewrite Kmax. lia. }
      exists (self :: pre).
      destruct (Sim.loop fuel self' (c + 1) (out ++ [Sim.trace_line self])%list)
        as [s1 o1 | s1 c1 o1 | | ]; try contradiction.
      * destruct Hpre as (-> & Hn & Hmsg). rewrite Kmax in Hn.
        split; [rewrite <- app_assoc; reflexivity|].
        split; [cbn [length]; lia | exact Hmsg].
      * destruct Hpre as (-> & -> & E1 & E2 & E3 & E4).
        rewrite Kmax in *. rewrite (Kt eq_refl) in E2.
        repeat split; auto; try lia.
        -- rewrite <- app_assoc. reflexivity.
        -- cbn [length]. lia.
    + exists [self]. split; [reflexivity|]. split; [cbn; lia|].
      destruct (Kf eq_refl) as (m & Hm' & Hne). eauto.
Qed.

(** C7: [execute_program] ends for every loaded program.  It returns;
    and either the halt flag is set at the end, or a fatal message other
    than the one of the budget was printed and False returned from inside
    the loop, or exactly 100000 instructions were executed without the
    halt flag being set, the budget message is the last one printed, False
    is returned and the trace file holds the 100000 trace lines and no
    memory dump. *)
Theorem execute_program_ends bin_file self :
  Sim.load_program Sim.init bin_file = Some (true, self) ->
  exists ok self' out pre,
    Sim.execute_program self true = Sim.Run ok self' out /\
    (Z.of_nat (length pre) <= budget) /\
    ((Sim.halted self' = true /\
      out = (map Sim.trace_line pre ++ (if ok then Sim.memory_dump self' else []))%list)
     \/
     (ok = false /\ out = map Sim.trace_line pre /\
      exists c m, Sim.console self' = (c ++ [m])%list /\ m <> Sim.MaxInstructions)
     \/
     (ok = false /\ Sim.halted self' = false /\
      Z.of_nat (length pre) = budget /\ out = map Sim.trace_line pre /\
      Sim.console self' = (Sim.console self ++ [Sim.MaxInstructions])%list)).
Proof.
  intros Hload.
  destruct (load_program_registers _ _ _ _ Hload) as (Hr & Hpc & Hh & Hmax & Hm).
  assert (Hwf : well_shaped self) by (split; [rewrite Hr | rewrite Hm]; reflexivity).
  change (Sim.max_instructions Sim.init) with budget in Hmax.
  unfold Sim.execute_program. cbn [negb].
  destruct (loop_spec (Z.to_nat (Sim.max_instructions self)) self 0 [] Hwf ltac:(lia))
    as [pre Hpre].
  destruct (Sim.loop (Z.to_nat (Sim.max_instructions self)) self 0 [])
    as [s1 o1 | s1 c1 o1 | | ]; try contradiction.
  - destruct Hpre as (-> & Hn & Hmsg). rewrite Hmax in Hn.
    exists false, s1, (map Sim.trace_line pre), pre.
    split; [reflexivity|]. split; [unfold budget in *; lia | right; left; auto].
  - destruct Hpre as (-> & -> & E1 & E2 & E3 & E4). rewrite Hmax in *.
    unfold budget in *. cbn [app].
    destruct (Z.leb_spec (Sim.max_instructions s1) (0 + Z.of_nat (length pre))) as [Hb|Hb];
      rewrite E1 in Hb.
    + exists false, (Sim.say Sim.MaxInstructions s1), (map Sim.trace_line pre), pre.
      split; [reflexivity|]. split; [lia|].
      destruct (Sim.halted s1) eqn:Hs1.
      * left. cbn. rewrite app_nil_r. auto.
      * right; right. cbn. rewrite E2. repeat split; auto. lia.
    + exists true, s1, (map Sim.trace_line pre ++ Sim.memory_dump s1)%list, pre.
      split; [reflexivity|]. split; [lia|]. left.
      destruct (Sim.halted s1) eqn:Hs1; [auto|]. specialize (E4 eq_refl). lia.
Qed.

Lemma execute_program_ends_witness :
  exists ok self' out pre,
    Sim.execute_program (loaded (Some addi_halt_image)) true = Sim.Run ok self' out /\
    (Z.of_nat (length pre) <= budget) /\
    ((Sim.halted self' = true /\
      out = (map Sim.trace_line pre ++ (if ok then Sim.memory_dump self' else []))%list)
     \/
     (ok = false /\ out = map Sim.trace_line pre /\
      exists c m, Sim.console self' = (c ++ [m])%list /\ m <> Sim.MaxInstructions)
     \/
     (ok = false /\ Sim.halted self' = false /\
      Z.of_nat (length pre) = budget /\ out = map Sim.trace_line pre /\
      Sim.console self' =
        (Sim.console (loaded (Some addi_halt_image)) ++ [Sim.MaxInstructions])%list)).
Proof.
  apply (execute_program_ends (Some addi_halt_image) (loaded (Some addi_halt_image))).
  reflexivity.
Defined.

(** ** A halt on the last instruction of the budget *)

Lemma loop_forget fuel : forall self instr_count out,
  forget_trace (Sim.loop fuel self instr_count out) = loop_states fuel self instr_count.
Proof.
  induction fuel as [|fuel IH]; intros self c out; cbn [Sim.loop loop_states].
  - destruct (negb (Sim.halted self) && (c <? Sim.max_instructions self)); reflexivity.
  - destruct (negb (Sim.halted self) && (c <? Sim.max_instructions self)); [|reflexivity].
    destruct ((Sim.pc self <? 0) || (32 <=? Sim.pc self)); [reflexivity|].
    destruct (Sim.getitem (Sim.memory self) (Sim.pc self)); [|reflexivity].
    destruct (Sim.execute_instruction self _) as [[[] s1]|]; [apply IH | reflexivity..].
Qed.

Lemma late_halt_states :
  exists self',
    loop_states (Z.to_nat 100000) (loaded (Some late_halt_image)) 0 =
      Sim.Exited self' 100000 [] /\
    Sim.halted self' = true /\ Sim.pc self' = 4 /\ Sim.console self' = [].
Proof. eexists. split; [vm_compute; reflexivity|]. repeat split. Qed.

(** The part of C3 that holds in every state: the halt pattern sets the
    flag and changes nothing else, the program counter included. *)
Lemma halt_sets_flag self w :
  Sim.opcode_of w = 0x63 -> Sim.funct3_of w = 0 ->
  Sim.rs1_of w = 0 -> Sim.rs2_of w = 0 -> Sim.imm_b w = 0 ->
  Sim.execute_instruction self w = Some (true, Sim.set_halted true self).
Proof.
  intros Ho H3 H1 H2 Hi. unfold Sim.execute_instruction. cbv zeta.
  rewrite Ho, H3, H1, H2, Hi. reflexivity.
Qed.

(** C3 at its failing input.  The image [late_halt_image] is loaded and
    run: the halt is the 100000th instruction executed; it sets the flag
    and leaves the program counter at 4; but [execute_program] then
    prints the budget message and returns False, and the trace file holds
    the 100000 trace lines and no memory dump. *)
Theorem late_halt_reported_as_loop :
  exists self' pre,
    Sim.main (Some late_halt_image) true =
      Sim.Run false self' (map Sim.trace_line pre) /\
    length pre = Z.to_nat 100000 /\
    Sim.halted self' = true /\ Sim.pc self' = 4 /\
    Sim.console self' = [Sim.MaxInstructions].
Proof.
  set (st := loaded (Some late_halt_image)).
  assert (Hload : Sim.load_program Sim.init (Some late_halt_image) = Some (true, st))
    by (vm_compute; reflexivity).
  assert (Hmax : Sim.max_instructions st = 100000) by reflexivity.
  destruct late_halt_states as (s1 & Hs & Hh & Hpc & Hcon). fold st in Hs.
  assert (Hwf : well_shaped st) by (split; reflexivity).
  destruct (loop_spec (Z.to_nat 100000) st 0 [] Hwf ltac:(lia)) as [pre Hpre].
  pose proof (loop_forget (Z.to_nat 100000) st 0 []) as Hf. rewrite Hs in Hf.
  unfold Sim.main. rewrite Hload. unfold Sim.execute_program. cbn [negb].
  rewrite Hmax.
  destruct (Sim.loop (Z.to_nat 100000) st 0 []) as [s2 o2 | s2 c2 o2 | | ];
    try discriminate Hf.
  cbn in Hf. injection Hf as -> ->.
  destruct Hpre as (-> & Hlen & Emax & _). rewrite Emax, Hmax.
  exists (Sim.say Sim.MaxInstructions s1), pre. cbn [app].
  split; [reflexivity|]. split; [lia|]. cbn. rewrite Hcon. auto.
Qed.

(** ** Loading a binary image *)

(** C8 at its failing input.  The only line of [signed_line_image] has 32
    characters and the first is not a binary digit; [load_program]
    returns True all the same, prints nothing, and stores 5 in word 0. *)
Theorem load_accepts_signed_line :
  exists line self,
    signed_line_image = [line] /\
    Py.len (Py.strip line) = 32 /\ is_binary (Py.strip line) = false /\
    Sim.load_program Sim.init (Some signed_line_image) = Some (true, self) /\
    Sim.memory self !! 0%nat = Some 5 /\ Sim.console self = [].
Proof.
  eexists _, _. split; [reflexivity|]. split; [reflexivity|].
  split; [reflexivity|]. split; [vm_compute; reflexivity|]. split; reflexivity.
Qed.

(** Other lines of 32 characters that [int(line, 2)] reads: a minus sign,
    the prefix [0b], an underscore between digits. *)
Lemma int_2_lenient :
  Py.int 2 "-0000000000000000000000000000101" = Some (-5) /\
  Py.int 2 "0b000000000000000000000000000101" = Some 5 /\
  Py.int 2 "0000000000000000000000000000_101" = Some 5.
Proof. repeat split. Qed.

(** What C8 says of well-formed images holds: lines of 32 binary digits
    are read as the numbers they write, in order, from word 0 on. *)
Lemma load_lines_binary lines : forall self lineno i,
  Forall (fun l => is_binary l = true /\ String.length l = 32%nat) lines ->
  0 <= i -> i + Z.of_nat (length lines) <= Z.of_nat (length (Sim.memory self)) ->
  i + Z.of_nat (length lines) <= 32 ->
  exists self',
    Sim.load_lines self (map (fun l => l +:+ newline) lines) lineno i = Some (true, self') /\
    Sim.console self' = Sim.console self /\
    (forall j, (j < Z.to_nat i)%nat -> Sim.memory self' !! j = Sim.memory self !! j) /\
    forall k l, lines !! k = Some l ->
      Sim.memory self' !! (Z.to_nat i + k)%nat = Some (value l 0).
Proof.
  induction lines as [|l lines IH]; intros self lineno i Hall Hi Hlen H32.
  - exists self. cbn. repeat split. intros k l Hk. rewrite lookup_nil in Hk. discriminate.
  - inversion Hall as [|? ? [Hb Hl] Hall']; subst.
    cbn [map Sim.load_lines]. rewrite (strip_line l Hb).
    assert (Hne : l <> EmptyString) by (intros ->; discriminate).
    destruct l as [|c l'] eqn:El; [congruence|]. rewrite <- El in *.
    replace (Py.is_empty l) with false by (rewrite El; reflexivity).
    unfold Py.len. rewrite Hl. cbn [Z.of_nat Z.eqb Pos.eqb negb Pos.of_succ_nat Pos.succ].
    cbn [length] in Hlen, H32.
    destruct (Z.leb_spec 32 i); [lia|].
    rewrite (int_binary l Hb Hne).
    rewrite setitem_ok by lia. cbn [mbind option_bind].
    destruct (IH (Sim.set_memory (<[Z.to_nat i := value l 0]> (Sim.memory self)) self)
                (lineno + 1) (i + 1) Hall' ltac:(lia)
                ltac:(cbn; rewrite length_insert; lia) ltac:(lia))
      as (self' & Hrun & Hcon & Hlow & Hmem).
    cbn [Sim.memory Sim.set_memory] in Hlow.
    exists self'. split; [exact Hrun|]. split; [exact Hcon|]. split.
    { intros j Hj. rewrite Hlow by lia. apply list_lookup_insert_ne. lia. }
    intros k l0 Hk. destruct k as [|k]; cbn in Hk.
    + injection Hk as <-. rewrite Nat.add_0_r, Hlow by lia.
      apply list_lookup_insert_eq. lia.
    + replace (Z.to_nat i + S k)%nat with (Z.to_nat (i + 1) + k)%nat by lia.
      apply Hmem. exact Hk.
Qed.

(** A non-blank line that has not 32 characters is a fatal load error. *)
Lemma load_rejects_length self line rest lineno i :
  Py.is_empty (Py.strip line) = false -> Py.len (Py.strip line) <> 32 ->
  Sim.load_lines self (line :: rest) lineno i =
    Some (false, Sim.say (Sim.InvalidLength lineno (Py.len (Py.strip line))) self).
Proof.
  intros Hne Hlen. cbn [Sim.load_lines]. rewrite Hne.
  destruct (Z.eqb_spec (Py.len (Py.strip line)) 32); [contradiction | reflexivity].
Qed.

(** A 33rd line of 32 characters is a fatal load error. *)
Lemma load_rejects_33rd self line rest lineno i :
  Py.len (Py.strip line) = 32 -> 32 <= i ->
  Sim.load_lines self (line :: rest) lineno i =
    Some (false, Sim.say (Sim.ProgramTooLarge lineno) self).
Proof.
  intros Hlen Hi. cbn [Sim.load_lines].
  destruct (Py.strip line) as [|c s] eqn:E; [discriminate Hlen|].
  cbn [Py.is_empty]. rewrite Hlen. cbn [Z.eqb Pos.eqb negb].
  destruct (Z.leb_spec 32 i); [reflexivity | lia].
Qed.

(** ** Names reg_add does not know *)

Lemma reg_add_unknown r e :
  Asm.reg_index r = None ->
  Asm.reg_add r e =
    (Asm.Env (Asm.stdout e ++ [invalid_register]) (Asm.output e) (Asm.check e)
             (Asm.label_dict e), Asm.Ok None).
Proof.
  unfold Asm.reg_index, Asm.reg_table, Asm.lookup_name, Asm.reg_add.
  repeat (destruct (String.eqb r _); [discriminate|]); cbn [orb].
  reflexivity.
Qed.

Section Rules.
Context {A B : Type}.

Lemma tracks_ret (a : A) Q : tracks (Asm.ret a) Q.
Proof.
  intros e e' r [= <- <-]. repeat split. exists []. rewrite app_nil_r.
  split; [reflexivity | intros []].
Qed.

Lemma tracks_raise x (Q : A -> Prop) : tracks (Asm.raise x) Q.
Proof.
  intros e e' r [= <- <-]. repeat split. exists []. rewrite app_nil_r.
  split; [reflexivity | intros []].
Qed.

Lemma tracks_weaken (m : Asm.M A) (Q Q' : A -> Prop) :
  tracks m Q -> (forall a, Q a -> Q' a) -> tracks m Q'.
Proof.
  intros H HQ e e' r Hm. destruct (H e e' r Hm) as (Ho & Hl & evs & Hs & Hb).
  repeat split; auto. exists evs. split; [exact Hs|].
  intros Hin. specialize (Hb Hin). destruct r; auto.
Qed.

Lemma tracks_bind (m : Asm.M A) (k : A -> Asm.M B) Q1 Q2 :
  tracks m Q1 -> (forall a, tracks (k a) Q2) ->
  (forall a, Q1 a -> carries (k a) Q2) ->
  tracks (m ≫= k) Q2.
Proof.
  intros Hm Hk Hc e e' r Hrun.
  unfold mbind, Asm.M_bind, Asm.bind in Hrun.
  destruct (m e) as [e1 [a|x]] eqn:Em.
  - destruct (Hm e e1 _ Em) as (Ho & Hl & evs1 & Hs1 & Hb1).
    destruct (Hk a e1 e' r Hrun) as (Ho2 & Hl2 & evs2 & Hs2 & Hb2).
    split; [congruence|]. split; [congruence|].
    exists (evs1 ++ evs2)%list. split; [rewrite Hs2, Hs1, app_assoc; reflexivity|].
    intros Hin. apply in_app_or in Hin as [Hin|Hin].
    + destruct r as [b|]; [|exact I]. exact (Hc a (Hb1 Hin) e1 e' b Hrun).
    + exact (Hb2 Hin).
  - injection Hrun as <- <-. destruct (Hm e e1 _ Em) as (Ho & Hl & evs1 & Hs1 & _).
    repeat split; auto. exists evs1. split; [exact Hs1 | intros _; exact I].
Qed.

Lemma quiet_bind (m : Asm.M A) (k : A -> Asm.M B) Q :
  quiet m -> (forall a, tracks (k a) Q) -> tracks (m ≫= k) Q.
Proof. intros Hm Hk. apply (tracks_bind m k (fun _ => False) Q); [auto..|intros a []]. Qed.

Lemma carries_ret (a : A) (Q : A -> Prop) : Q a -> carries (Asm.ret a) Q.
Proof. intros H e e' a' [= <- <-]. exact H. Qed.

Lemma carries_bind (m : Asm.M A) (k : A -> Asm.M B) Q1 (Q : B -> Prop) :
  carries m Q1 -> (forall a, Q1 a -> carries (k a) Q) -> carries (m ≫= k) Q.
Proof.
  intros Hm Hk e e' b Hrun. unfold mbind, Asm.M_bind, Asm.bind in Hrun.
  destruct (m e) as [e1 [a|x]] eqn:Em; [|discriminate].
  exact (Hk a (Hm _ _ _ Em) e1 e' b Hrun).
Qed.

Lemma carries_any (m : Asm.M A) : carries m (fun _ => True).
Proof. intros e e' a _. exact I. Qed.
End Rules.

Lemma quiet_at data k : quiet (Asm.at_ data k).
Proof. unfold Asm.at_, Asm.orelse. destruct (data !! k); [apply tracks_ret | apply tracks_raise]. Qed.

Lemma quiet_orelse {A} x (o : option A) : quiet (Asm.orelse x o).
Proof. destruct o; [apply tracks_ret | apply tracks_raise]. Qed.

Lemma quiet_print msg : Asm.Print msg <> invalid_register -> quiet (Asm.print msg).
Proof.
  intros Hne e e' r [= <- <-]. cbn. repeat split. exists [Asm.Print msg].
  split; [reflexivity|]. intros [E|[]]. contradiction.
Qed.

Lemma quiet_print_data data : quiet (Asm.print_data data).
Proof.
  intros e e' r [= <- <-]. cbn. repeat split. exists [Asm.PrintData data].
  split; [reflexivity|]. intros [E|[]]. discriminate.
Qed.

Lemma quiet_set_check v : quiet (Asm.set_check v).
Proof.
  intros e e' r [= <- <-]. cbn. repeat split. exists []. rewrite app_nil_r.
  split; [reflexivity | intros []].
Qed.

Lemma quiet_get_label tok : quiet (Asm.get_label tok).
Proof.
  intros e e' r [= <- <-]. repeat split. exists []. rewrite app_nil_r.
  split; [reflexivity | intros []].
Qed.

Lemma quiet_get_check : quiet Asm.get_check.
Proof.
  intros e e' r [= <- <-]. repeat split. exists []. rewrite app_nil_r.
  split; [reflexivity | intros []].
Qed.

Lemma quiet_fmap {A B} (f : A -> B) (m : Asm.M A) : quiet m -> quiet (f <$> m).
Proof.
  intros H. unfold fmap, Asm.M_fmap. apply (quiet_bind m); [exact H|].
  intros a. apply tracks_ret.
Qed.

Lemma quiet_int_of a : quiet (Asm.int_of a).
Proof. destruct a; [apply quiet_orelse | apply tracks_ret]. Qed.

Lemma quiet_char_at s i : quiet (Asm.char_at s i).
Proof. unfold Asm.char_at. apply quiet_fmap, quiet_orelse. Qed.

Lemma quiet_Binary_convertor a b : quiet (Asm.Binary_convertor a b).
Proof.
  unfold Asm.Binary_convertor. apply quiet_bind; [apply quiet_int_of|]. intros z.
  destruct (negb _); [|apply tracks_ret].
  apply quiet_bind; [apply quiet_print; discriminate|]. intros _. apply tracks_raise.
Qed.

Lemma quiet_target tok i : quiet (Asm.target tok i).
Proof.
  unfold Asm.target. destruct (Py.int 10 tok); [apply tracks_ret|].
  apply quiet_bind; [apply quiet_get_label|]. intros l.
  apply quiet_bind; [apply quiet_orelse|]. intros li. apply tracks_ret.
Qed.

Lemma tracks_reg_add r : tracks (Asm.reg_add r) (fun f => f = None).
Proof.
  intros e e' res Hrun. destruct (Asm.reg_index r) as [n|] eqn:Er.
  - rewrite (proj1 (reg_add_known r n e Er)) in Hrun. injection Hrun as <- <-.
    repeat split. exists []. rewrite app_nil_r. split; [reflexivity | intros []].
  - rewrite (reg_add_unknown r e Er) in Hrun. injection Hrun as <- <-.
    cbn. repeat split. exists [invalid_register]. split; [reflexivity | auto].
Qed.

Ltac quiet_leaf :=
  first [ apply quiet_at | apply quiet_Binary_convertor | apply quiet_char_at
        | apply quiet_target | apply quiet_int_of | apply quiet_set_check
        | apply quiet_get_label | apply quiet_get_check | apply quiet_print_data ].

(** After a [None] came back from [reg_add], the list a body returns
    holds it. *)
Ltac carry :=
  repeat (eapply carries_bind; [apply carries_any | intros ? _]);
  apply carries_ret; unfold tainted; simpl; tauto.

(** One body: every step is quiet or a [reg_add]. *)
Ltac track_body :=
  repeat first
    [ apply tracks_ret
    | eapply (tracks_bind (Asm.reg_add _) _ (fun f => f = None));
      [apply tracks_reg_add | intros ? | intros ? ->; carry]
    | eapply quiet_bind; [quiet_leaf | intros ?] ].

Lemma tracks_r_body data funct3 funct7 : tracks (Asm.r_body data funct3 funct7) tainted.
Proof. unfold Asm.r_body. track_body. Qed.

Lemma tracks_lw_body data : tracks (Asm.lw_body data) tainted.
Proof. unfold Asm.lw_body. track_body. Qed.

Lemma tracks_i_body data opcode funct3 : tracks (Asm.i_body data opcode funct3) tainted.
Proof. unfold Asm.i_body. track_body. Qed.

Lemma tracks_sw_body data : tracks (Asm.sw_body data) tainted.
Proof. unfold Asm.sw_body. track_body. Qed.

Lemma tracks_b_body data i funct3 : tracks (Asm.b_body data i funct3) tainted.
Proof. unfold Asm.b_body. track_body. Qed.

Lemma tracks_u_body data opcode : tracks (Asm.u_body data opcode) tainted.
Proof. unfold Asm.u_body. track_body. Qed.

Lemma tracks_jal_body data i : tracks (Asm.jal_body data i) tainted.
Proof. unfold Asm.jal_body. track_body. Qed.

Lemma tracks_block data mn body ans :
  tracks body tainted -> tracks (Asm.block data mn body ans) tainted.
Proof.
  intros Hb. unfold Asm.block. apply quiet_bind; [apply quiet_at|]. intros d0.
  destruct (d0 =? mn)%string; [|apply tracks_ret].
  apply (tracks_bind body _ tainted); [exact Hb | intros fs; apply tracks_ret|].
  intros fs Hfs. apply carries_ret. unfold tainted in *. apply in_or_app. auto.
Qed.

Lemma carries_block data mn body ans :
  tainted ans -> carries (Asm.block data mn body ans) tainted.
Proof.
  intros Ha. unfold Asm.block.
  eapply carries_bind; [apply carries_any | intros d0 _].
  destruct (d0 =? mn)%string; [|apply carries_ret; exact Ha].
  eapply carries_bind; [apply carries_any | intros fs _].
  apply carries_ret. unfold tainted in *. apply in_or_app. auto.
Qed.

(** A format function: a chain of blocks. *)
Ltac carry_blocks :=
  repeat (eapply carries_bind; [apply carries_block; assumption | intros ? ?]);
  apply carries_block; assumption.

Ltac track_blocks body_lemma :=
  repeat first
    [ apply tracks_block; apply body_lemma
    | eapply (tracks_bind (Asm.block _ _ _ _) _ tainted);
      [apply tracks_block; apply body_lemma | intros ? | intros ? ?; carry_blocks] ].

Lemma tracks_r_type data i : tracks (Asm.r_type data i) tainted.
Proof. unfold Asm.r_type. track_blocks tracks_r_body. Qed.

Lemma tracks_i_type data i : tracks (Asm.i_type data i) tainted.
Proof.
  unfold Asm.i_type.
  eapply (tracks_bind (Asm.block _ _ _ _) _ tainted);
    [apply tracks_block; apply tracks_lw_body | intros ? | intros ? ?; carry_blocks].
  track_blocks tracks_i_body.
Qed.

Lemma tracks_s_type data i : tracks (Asm.s_type data i) tainted.
Proof. unfold Asm.s_type. apply tracks_block, tracks_sw_body. Qed.

Lemma quiet_halt_pattern data : quiet (Asm.halt_pattern data).
Proof.
  unfold Asm.halt_pattern.
  repeat first
    [ apply tracks_ret
    | eapply quiet_bind; [apply quiet_at | intros ?]
    | match goal with |- tracks (if ?c then _ else _) _ => destruct c end ].
Qed.

Lemma tracks_b_type data i : tracks (Asm.b_type data i) tainted.
Proof.
  unfold Asm.b_type.
  eapply quiet_bind; [apply quiet_halt_pattern | intros h].
  eapply quiet_bind; [destruct h; [apply quiet_set_check | apply tracks_ret] | intros _].
  track_blocks tracks_b_body.
Qed.

Lemma tracks_u_type data i : tracks (Asm.u_type data i) tainted.
Proof. unfold Asm.u_type. track_blocks tracks_u_body. Qed.

Lemma tracks_j_type data i : tracks (Asm.j_type data i) tainted.
Proof. unfold Asm.j_type. apply tracks_block, tracks_jal_body. Qed.

Lemma tracks_run_format f data i : tracks (Asm.run_format f data i) tainted.
Proof.
  destruct f; cbn [Asm.run_format];
    auto using tracks_r_type, tracks_i_type, tracks_s_type, tracks_b_type,
      tracks_u_type, tracks_j_type.
Qed.

Lemma quiet_default_case data i : quiet (Asm.default_case data i).
Proof.
  unfold Asm.default_case. apply quiet_bind; [apply quiet_at | intros d0].
  apply quiet_bind; [|intros _; apply tracks_ret].
  apply quiet_print. unfold invalid_register. intros [=].
Qed.

(** [pop_all] touches nothing; it raises on a list with a [None]. *)
Lemma pop_all_env l : forall s e, fst (Asm.pop_all l s e) = e.
Proof.
  induction l as [|[f|] l IH]; intros s e; cbn [Asm.pop_all]; auto.
Qed.

Lemma pop_all_tainted l : forall s e,
  In None l -> Asm.pop_all l s e = (e, Asm.Raise Asm.TypeError).
Proof.
  induction l as [|[f|] l IH]; intros s e Hin; cbn [Asm.pop_all].
  - destruct Hin.
  - destruct Hin as [Hin|Hin]; [discriminate | auto].
  - reflexivity.
Qed.

(** C9: a name outside the table makes [reg_add] print the
    invalid-register diagnostic and return [None]; and whenever that
    diagnostic is printed while [Switch_case] encodes an instruction, no
    line is written for the instruction and the call ends in an exception
    that nothing catches. *)
Theorem invalid_register_not_encoded register e0 case_value data i e e' r evs :
  Asm.reg_index register = None ->
  Asm.Switch_case case_value data i e = (e', r) ->
  Asm.stdout e' = (Asm.stdout e ++ evs)%list -> In invalid_register evs ->
  Asm.reg_add register e0 =
    (Asm.Env (Asm.stdout e0 ++ [invalid_register]) (Asm.output e0) (Asm.check e0)
             (Asm.label_dict e0), Asm.Ok None) /\
  Asm.output e' = Asm.output e /\ exists x, r = Asm.Raise x.
Proof.
  intros Hreg Hrun Hout Hin. split; [apply reg_add_unknown; exact Hreg|].
  unfold Asm.Switch_case in Hrun.
  set (first := match Asm.get_format case_value Asm.switch_dict with
                | Some f => Some <$> Asm.run_format f data i
                | None => Asm.default_case data i
                end) in Hrun.
  assert (Hfirst : tracks first (fun l => exists l', l = Some l' /\ tainted l')).
  { subst first. destruct (Asm.get_format case_value Asm.switch_dict) as [f|].
    - unfold fmap, Asm.M_fmap.
      apply (tracks_bind (Asm.run_format f data i) _ tainted);
        [apply tracks_run_format | intros l; apply tracks_ret|].
      intros l Hl. apply carries_ret. eauto.
    - eapply tracks_weaken; [apply quiet_default_case | intros ? []]. }
  unfold mbind, Asm.M_bind, Asm.bind in Hrun.
  destruct (first e) as [e1 [l|x]] eqn:E1.
  - destruct (Hfirst e e1 _ E1) as (Ho & _ & evs1 & Hs1 & Hb1).
    set (second := match l with
                   | Some l0 => Asm.pop_all (rev l0) ""
                   | None => Asm.ret ""
                   end) in Hrun.
    assert (Hsecond : fst (second e1) = e1).
    { subst second. destruct l; [apply pop_all_env | reflexivity]. }
    destruct (second e1) as [e2 [s|x]] eqn:E2; cbn in Hsecond; subst e2.
    + unfold Asm.write in Hrun. injection Hrun as <- <-. cbn in Hout.
      rewrite Hs1 in Hout. apply app_inv_head in Hout. subst evs1.
      destruct (Hb1 Hin) as (l' & -> & Hl').
      subst second. rewrite pop_all_tainted in E2; [discriminate|].
      apply in_rev. rewrite rev_involutive. exact Hl'.
    + injection Hrun as <- <-. split; [exact Ho | eauto].
  - injection Hrun as <- <-.
    destruct (Hfirst e e1 _ E1) as (Ho & _). split; [exact Ho | eauto].
Qed.

(** [add a0,x5,a1]: [x5] is not a name of the table. *)
Lemma invalid_register_not_encoded_witness :
  Asm.reg_add "x5" Asm.env0 =
    (Asm.Env (Asm.stdout Asm.env0 ++ [invalid_register]) (Asm.output Asm.env0)
             (Asm.check Asm.env0) (Asm.label_dict Asm.env0), Asm.Ok None) /\
  Asm.output (fst (Asm.Switch_case "add" ["add"; "a0"; "x5"; "a1"] 0 Asm.env0)) =
    Asm.output Asm.env0 /\
  exists x, snd (Asm.Switch_case "add" ["add"; "a0"; "x5"; "a1"] 0 Asm.env0) = Asm.Raise x.
Proof.
  apply (invalid_register_not_encoded "x5" Asm.env0 "add" ["add"; "a0"; "x5"; "a1"] 0
           Asm.env0 _ _ [invalid_register]).
  - reflexivity.
  - apply surjective_pairing.
  - reflexivity.
  - left. reflexivity.
Defined.

(** ** Labels: the two passes and the encoded distance *)

Lemma zfill_len s w : w <= Py.len (Py.zfill s w).
Proof.
  unfold Py.zfill. destruct (Z.leb_spec w (Py.len s)) as [H|H]; [exact H|].
  unfold Py.len in *.
  destruct s as [|c r].
  - rewrite length_zeros. cbn [String.length] in *. lia.
  - destruct (Py.is_sign c); cbn [String.length] in *.
    + rewrite length_app, length_zeros. lia.
    + rewrite length_app, length_zeros. cbn [String.length]. lia.
Qed.

Lemma j_imm_21_len offset : 21 <= Py.len (j_imm_21 offset).
Proof. unfold j_imm_21, Py.format_0b. destruct (offset <? 0); apply zfill_len. Qed.

Lemma jal_body_ok data i r tok n offset e :
  data !! 1%nat = Some r -> data !! 2%nat = Some tok ->
  Asm.reg_index r = Some n -> resolves tok i (Asm.label_dict e) offset ->
  Asm.jal_body data i e =
    (e, Asm.Ok [Some "1101111"; Some (Py.format_0b 5 n);
                Some (j_encoded (j_imm_21 offset))]).
Proof.
  intros H1 H2 Hr Ht. unfold Asm.jal_body.
  pose proof (j_imm_21_len offset) as Hl.
  destruct (target_resolves _ _ _ _ Ht) as (t & Htgt & Hint).
  rewrite (bind_ok _ _ _ _ _ (at_ok _ _ _ _ H2)).
  rewrite (bind_ok _ _ _ _ _ Htgt).
  rewrite (bind_ok _ _ _ _ _ Hint).
  fold (j_imm_21 offset).
  rewrite (bind_ok _ _ _ _ _ (char_at_ok (j_imm_21 offset) 0 e ltac:(lia))).
  rewrite (bind_ok _ _ _ _ _ (char_at_ok (j_imm_21 offset) 9 e ltac:(lia))).
  rewrite (bind_ok _ _ _ _ _ (at_ok _ _ _ _ H1)).
  rewrite (bind_ok _ _ _ _ _ (proj1 (reg_add_known _ _ e Hr))).
  reflexivity.
Qed.

Lemma Switch_case_j data i r tok n offset e :
  data !! 0%nat = Some "jal" -> data !! 1%nat = Some r -> data !! 2%nat = Some tok ->
  Asm.reg_index r = Some n -> resolves tok i (Asm.label_dict e) offset ->
  Asm.Switch_case "jal" data i e =
    (Asm.Env (Asm.stdout e) (Asm.output e ++ [j_line n offset +:+ newline])
             (Asm.check e) (Asm.label_dict e), Asm.Ok tt).
Proof.
  intros H0 H1 H2 Hr Ht. unfold Asm.Switch_case.
  change (Asm.get_format "jal" Asm.switch_dict) with (Some Asm.JType).
  cbn [Asm.run_format]. unfold Asm.j_type.
  rewrite (bind_ok _ _ _ _ _
             (fmap_ok _ Some _ _ _
                (block_hit _ "jal" _ [] _ _ _ _ H0 eq_refl
                   (jal_body_ok data i r tok n offset e H1 H2 Hr Ht)))).
  cbn [rev app Asm.pop_all].
  unfold Asm.ret at 1. unfold mbind, Asm.M_bind, Asm.bind, Asm.write.
  f_equal. f_equal. f_equal. f_equal.
  unfold j_line, newline. cbn [String.append]. rewrite !app_assoc_s. reflexivity.
Qed.

Lemma count_nonblank_cons b lines :
  count_nonblank (b :: lines) = (if nonblank b then 1 else 0) + count_nonblank lines.
Proof.
  unfold count_nonblank. cbn [List.filter]. destruct (nonblank b); cbn [length]; lia.
Qed.

(** The first pass never fails, prints nothing and writes nothing; an
    entry of the table it leaves was there before, or is the index of a
    non-blank line with a colon whose text before the colon, stripped, is
    the label. *)
Lemma pass1_labels lines : forall i e,
  Forall (fun b => Py.is_empty b = false) lines ->
  exists e',
    Asm.pass1 lines i e = (e', Asm.Ok tt) /\
    Asm.stdout e' = Asm.stdout e /\ Asm.output e' = Asm.output e /\
    forall tok labelIndex,
      Asm.label_dict e' !! tok = Some labelIndex ->
      Asm.label_dict e !! tok = Some labelIndex \/
      exists k b,
        lines !! k = Some b /\ nonblank b = true /\ Py.contains ":" b = true /\
        Py.strip (Py.before ":" b) = tok /\
        labelIndex = i + 1 + count_nonblank (take k lines).
Proof.
  induction lines as [|b rest IH]; intros i e Hne.
  - exists e. cbn. repeat split. auto.
  - inversion Hne as [|? ? Hb Hrest]; subst. cbn [Asm.pass1]. rewrite Hb.
    destruct (Py.is_empty (Py.strip b)) eqn:Eb.
    + destruct (IH i e Hrest) as (e' & Hrun & Hs & Ho & Hl).
      exists e'. repeat split; auto.
      intros tok li Hli. destruct (Hl tok li Hli) as [?|(k & b' & Hk & Hnb & Hc & Ht & ->)];
        [left; assumption|].
      right. exists (S k), b'. repeat split; auto.
      cbn [take]. rewrite count_nonblank_cons. unfold nonblank at 1. rewrite Eb. cbn. lia.
    + set (e1 := if Py.contains ":" b
                 then Asm.Env (Asm.stdout e) (Asm.output e) (Asm.check e)
                        (<[Py.strip (Py.before ":" b) := i + 1]> (Asm.label_dict e))
                 else e).
      assert (H1 : (if Py.contains ":" b
                    then Asm.set_label (Py.strip (Py.before ":" b)) (i + 1)
                    else Asm.ret tt) e = (e1, Asm.Ok tt))
        by (subst e1; destruct (Py.contains ":" b); reflexivity).
      rewrite (bind_ok _ _ _ _ _ H1).
      destruct (IH (i + 1) e1 Hrest) as (e' & Hrun & Hs & Ho & Hl).
      exists e'. split; [exact Hrun|].
      split; [rewrite Hs; subst e1; destruct (Py.contains ":" b); reflexivity|].
      split; [rewrite Ho; subst e1; destruct (Py.contains ":" b); reflexivity|].
      intros tok li Hli.
      destruct (Hl tok li Hli) as [Hin|(k & b' & Hk & Hnb & Hc & Ht & ->)].
      * subst e1. destruct (Py.contains ":" b) eqn:Ec; [|left; exact Hin].
        cbn [Asm.label_dict] in Hin.
        destruct (decide (Py.strip (Py.before ":" b) = tok)) as [Heq|Hneq].
        -- rewrite Heq, lookup_insert_eq in Hin. injection Hin as <-.
           right. exists 0%nat, b. repeat split; auto.
           ++ unfold nonblank. rewrite Eb. reflexivity.
           ++ cbn. unfold count_nonblank. cbn. lia.
        -- rewrite lookup_insert_ne in Hin by exact Hneq. left. exact Hin.
      * right. exists (S k), b'. repeat split; auto.
        cbn [take]. rewrite count_nonblank_cons. unfold nonblank at 1. rewrite Eb. cbn. lia.
Qed.

Section MonadLaws.
Context {A B C : Type}.

Lemma bind_assoc (m : Asm.M A) (k : A -> Asm.M B) (h : B -> Asm.M C) e :
  ((m ≫= k) ≫= h) e = (m ≫= fun a => k a ≫= h) e.
Proof.
  unfold mbind, Asm.M_bind, Asm.bind. destruct (m e) as [e1 [a|x]]; reflexivity.
Qed.

Lemma bind_ext (m : Asm.M A) (k k' : A -> Asm.M B) e :
  (forall a e1, k a e1 = k' a e1) -> (m ≫= k) e = (m ≫= k') e.
Proof.
  intros H. unfold mbind, Asm.M_bind, Asm.bind.
  destruct (m e) as [e1 [a|x]]; [apply H | reflexivity].
Qed.
End MonadLaws.

(** The second pass over [l1 ++ l2] is the second pass over [l1], then
    the second pass over [l2] with the counter moved by the non-blank
    lines of [l1]. *)
Lemma pass2_app l1 l2 : forall i e,
  Forall (fun b => Py.is_empty b = false) l1 ->
  Asm.pass2 (l1 ++ l2) i e =
    (Asm.pass2 l1 i ≫= fun _ => Asm.pass2 l2 (i + count_nonblank l1)) e.
Proof.
  induction l1 as [|a l1 IH]; intros i e Hne.
  - cbn [app Asm.pass2]. unfold count_nonblank. cbn [List.filter length].
    change (Z.of_nat 0) with 0. rewrite Z.add_0_r. reflexivity.
  - inversion Hne as [|? ? Ha Hrest]; subst.
    rewrite count_nonblank_cons. unfold nonblank.
    cbn [app Asm.pass2]. rewrite Ha.
    destruct (Py.is_empty (Py.strip a)); cbn [negb].
    + rewrite IH by exact Hrest. replace (i + (0 + count_nonblank l1))
        with (i + count_nonblank l1) by lia. reflexivity.
    + rewrite !bind_assoc. apply bind_ext. intros _ e1.
      rewrite !bind_assoc. apply bind_ext. intros _ e2.
      rewrite IH by exact Hrest.
      replace (i + 1 + count_nonblank l1) with (i + (1 + count_nonblank l1)) by lia.
      reflexivity.
Qed.

Lemma pass2_cons a rest i e :
  Py.is_empty a = false -> nonblank a = true ->
  Asm.pass2 (a :: rest) i e =
    (encode_line a (i + 1) ≫= fun _ => Asm.pass2 rest (i + 1)) e.
Proof.
  intros Ha Hn. unfold nonblank in Hn. apply negb_true_iff in Hn.
  cbn [Asm.pass2]. rewrite Ha, Hn. unfold encode_line.
  rewrite !bind_assoc. reflexivity.
Qed.

(** [Switch_case] and the second pass leave the label table as the first
    pass made it. *)
Lemma Switch_case_labels case_value data i e e' r :
  Asm.Switch_case case_value data i e = (e', r) ->
  Asm.label_dict e' = Asm.label_dict e.
Proof.
  intros Hrun. unfold Asm.Switch_case in Hrun.
  set (first := match Asm.get_format case_value Asm.switch_dict with
                | Some f => Some <$> Asm.run_format f data i
                | None => Asm.default_case data i
                end) in Hrun.
  assert (Hfirst : tracks first (fun _ => True)).
  { subst first. destruct (Asm.get_format case_value Asm.switch_dict) as [f|].
    - unfold fmap, Asm.M_fmap.
      apply (tracks_bind (Asm.run_format f data i) _ tainted);
        [apply tracks_run_format | intros l; apply tracks_ret|].
      intros l Hl. apply carries_any.
    - eapply tracks_weaken; [apply quiet_default_case | intros ? []]. }
  unfold mbind, Asm.M_bind, Asm.bind in Hrun.
  destruct (first e) as [e1 [l|x]] eqn:E1;
    destruct (Hfirst e e1 _ E1) as (_ & Hl & _).
  - set (second := match l with
                   | Some l0 => Asm.pop_all (rev l0) ""
                   | None => Asm.ret ""
                   end) in Hrun.
    assert (Hsecond : fst (second e1) = e1).
    { subst second. destruct l; [apply pop_all_env | reflexivity]. }
    destruct (second e1) as [e2 [s|x]] eqn:E2; cbn in Hsecond; subst e2.
    + unfold Asm.write in Hrun. injection Hrun as <- <-. exact Hl.
    + injection Hrun as <- <-. exact Hl.
  - injection Hrun as <- <-. exact Hl.
Qed.

Lemma pass2_labels lines : forall i e e' r,
  Asm.pass2 lines i e = (e', r) -> Asm.label_dict e' = Asm.label_dict e.
Proof.
  induction lines as [|a rest IH]; intros i e e' r Hrun; cbn [Asm.pass2] in Hrun.
  - injection Hrun as <- <-. reflexivity.
  - destruct (Py.is_empty a); [injection Hrun as <- <-; reflexivity|].
    destruct (Py.is_empty (Py.strip a)); [eauto|].
    unfold mbind, Asm.M_bind, Asm.bind, Asm.print_data in Hrun.
    set (e1 := Asm.Env _ _ _ _) in Hrun.
    set (call := match Asm.tokens a with
                 | d0 :: _ => Asm.Switch_case d0 (Asm.tokens a) (i + 1)
                 | [] => Asm.ret tt
                 end) in Hrun.
    assert (Hcall : forall e2 r2, call e1 = (e2, r2) -> Asm.label_dict e2 = Asm.label_dict e).
    { intros e2 r2 Hc. subst call. destruct (Asm.tokens a) as [|d0 ds].
      - injection Hc as <- <-. reflexivity.
      - apply Switch_case_labels in Hc. rewrite Hc. reflexivity. }
    destruct (call e1) as [e2 [[]|x]] eqn:Ec.
    + apply IH in Hrun. rewrite Hrun. eapply Hcall. reflexivity.
    + injection Hrun as <- <-. eapply Hcall. reflexivity.
Qed.

(** C6.  In a source of non-empty lines, take a non-blank line [a], the
    table left by the first pass, and an operand [tok] that is no integer
    and that the table holds.  The index recorded for [tok] is the index,
    among non-blank lines, of a line that declares it; the second pass
    encodes [a] with the index of [a] among non-blank lines, under the
    table of the first pass; the value computed for [tok] there is
    [(labelIndex - i) * 4]; and the B format and the J format write the
    line that encodes this value. *)
Theorem label_offset lines l1 a l2 e0 e1 tok labelIndex :
  lines = (l1 ++ a :: l2)%list ->
  Forall (fun b => Py.is_empty b = false) lines ->
  nonblank a = true ->
  Asm.label_dict e0 = ∅ ->
  Asm.pass1 lines (-1) e0 = (e1, Asm.Ok tt) ->
  Py.int 10 tok = None ->
  Asm.label_dict e1 !! tok = Some labelIndex ->
  let i := line_index lines (length l1) in
  let offset := (labelIndex - i) * 4 in
  (exists k b,
     lines !! k = Some b /\ nonblank b = true /\ Py.contains ":" b = true /\
     Py.strip (Py.before ":" b) = tok /\ labelIndex = line_index lines k) /\
  (forall e,
     Asm.pass2 lines (-1) e =
       (Asm.pass2 l1 (-1) ≫= fun _ => encode_line a i ≫= fun _ => Asm.pass2 l2 i) e) /\
  (forall e e2 r,
     Asm.label_dict e = Asm.label_dict e1 -> Asm.pass2 l1 (-1) e = (e2, r) ->
     Asm.label_dict e2 = Asm.label_dict e1) /\
  (forall e,
     Asm.label_dict e = Asm.label_dict e1 ->
     Asm.target tok i e = (e, Asm.Ok (Asm.PInt offset))) /\
  (forall e mn f3s f3 r1 r2 n1 n2,
     Asm.label_dict e = Asm.label_dict e1 ->
     Asm.tokens a !! 0%nat = Some mn -> Asm.tokens a !! 1%nat = Some r1 ->
     Asm.tokens a !! 2%nat = Some r2 -> Asm.tokens a !! 3%nat = Some tok ->
     b_funct3 mn = Some (f3s, f3) ->
     Asm.reg_index r1 = Some n1 -> Asm.reg_index r2 = Some n2 ->
     -2147483648 <= offset <= 2147483647 ->
     exists e',
       Asm.Switch_case mn (Asm.tokens a) i e = (e', Asm.Ok tt) /\
       Asm.output e' = (Asm.output e ++ [b_line f3s n1 n2 offset +:+ newline])%list) /\
  (forall e r n,
     Asm.label_dict e = Asm.label_dict e1 ->
     Asm.tokens a !! 0%nat = Some "jal" -> Asm.tokens a !! 1%nat = Some r ->
     Asm.tokens a !! 2%nat = Some tok -> Asm.reg_index r = Some n ->
     exists e',
       Asm.Switch_case "jal" (Asm.tokens a) i e = (e', Asm.Ok tt) /\
       Asm.output e' = (Asm.output e ++ [j_line n offset +:+ newline])%list).
Proof.
  intros Hlines Hne Ha He0 Hp1 Hint Hlab i offset.
  assert (Hi : i = count_nonblank l1).
  { subst i lines. unfold line_index. rewrite take_app_length. reflexivity. }
  assert (Hne1 : Forall (fun b => Py.is_empty b = false) l1 /\ Py.is_empty a = false).
  { subst lines. apply Forall_app in Hne as [H1 H2]. inversion H2; auto. }
  destruct Hne1 as [Hne1 Hnea].
  split.
  { destruct (pass1_labels lines (-1) e0 Hne) as (e' & Hrun & _ & _ & Hl).
    rewrite Hp1 in Hrun. injection Hrun as <-.
    destruct (Hl tok labelIndex Hlab) as [Hin|(k & b & Hk & Hnb & Hc & Ht & Hli)].
    - rewrite He0, lookup_empty in Hin. discriminate.
    - exists k, b. repeat split; auto. }
  split.
  { intros e. subst lines. rewrite pass2_app by exact Hne1.
    apply bind_ext. intros _ e2. rewrite pass2_cons by assumption.
    replace (-1 + count_nonblank l1 + 1) with i by lia. reflexivity. }
  split.
  { intros e e2 r He Hrun. apply pass2_labels in Hrun. congruence. }
  assert (Hres : forall e, Asm.label_dict e = Asm.label_dict e1 ->
                 resolves tok i (Asm.label_dict e) offset).
  { intros e He. right. split; [exact Hint|]. exists labelIndex.
    rewrite He. auto. }
  split.
  { intros e He. apply target_label; [exact Hint | rewrite He; exact Hlab]. }
  split.
  { intros e mn f3s f3 r1 r2 n1 n2 He H0 H1 H2 H3 Hf Hr1 Hr2 Hrange.
    destruct (Switch_case_b (Asm.tokens a) i mn f3s f3 r1 r2 tok n1 n2 offset e
                H0 H1 H2 H3 Hf Hr1 Hr2 (Hres e He) Hrange) as (e' & Hrun & _ & Hout).
    eauto. }
  intros e r n He H0 H1 H2 Hr.
  eexists. split; [apply (Switch_case_j _ i r tok n offset e H0 H1 H2 Hr (Hres e He))|].
  reflexivity.
Qed.

(** In [loop_source] the label [loop] has index 1, the [bne] is line 2,
    and the value encoded is -4. *)
Lemma label_offset_witness :
  (exists k b,
     loop_source !! k = Some b /\ nonblank b = true /\ Py.contains ":" b = true /\
     Py.strip (Py.before ":" b) = "loop" /\ 1 = line_index loop_source k) /\
  Asm.target "loop" 2 loop_labels = (loop_labels, Asm.Ok (Asm.PInt (-4))) /\
  exists e',
    Asm.Switch_case "bne" (Asm.tokens ("bne a0,zero,loop" +:+ newline)) 2 loop_labels =
      (e', Asm.Ok tt) /\
    Asm.output e' = (Asm.output loop_labels ++ [b_line "001" 10 0 (-4) +:+ newline])%list.
Proof.
  destruct (label_offset loop_source
              ["addi a0,zero,5" +:+ newline; newline; "loop: addi a0,a0,-1" +:+ newline]
              ("bne a0,zero,loop" +:+ newline)
              ["jal ra,loop" +:+ newline; "beq zero,zero,0" +:+ newline]
              Asm.env0 loop_labels "loop" 1
              eq_refl ltac:(repeat constructor) eq_refl eq_refl eq_refl eq_refl eq_refl)
    as (H1 & _ & _ & H4 & H5 & _).
  split; [exact H1|]. split; [exact (H4 loop_labels eq_refl)|].
  exact (H5 loop_labels "bne" "001" 1 "a0" "zero" 10 0 eq_refl eq_refl eq_refl eq_refl
           eq_refl eq_refl eq_refl eq_refl ltac:(vm_compute; split; discriminate)).
Defined.

(** ** The simulator: what an instruction leaves alone, loading, dumping and the trace *)

(** X1.  An instruction that fails changes nothing but standard output,
    unless it is a [jalr]: memory, program counter, halt flag and budget
    are those of before, and so is the register file when the opcode is
    not 0x67. *)
Theorem failed_instruction_state self w self' :
  Sim.execute_instruction self w = Some (false, self') ->
  Sim.memory self' = Sim.memory self /\ Sim.pc self' = Sim.pc self /\
  Sim.halted self' = Sim.halted self /\
  Sim.max_instructions self' = Sim.max_instructions self /\
  (Sim.opcode_of w <> 0x67 -> Sim.registers self' = Sim.registers self).
Proof.
  intros H. unfold Sim.execute_instruction in H. cbv zeta in H.
  unfold Sim.next, Sim.finish, Sim.fatal in H.
  split_all H.
  all: try discriminate H.
  all: injection H as <-.
  all: repeat match goal with
         | E : Sim.write_reg _ _ _ = Some _ |- _ =>
             apply write_reg_spec in E as (? & _ & ->)
         end.
  all: cbn; repeat split; try reflexivity.
  all: intros Hne;
    repeat match goal with
           | E : (Sim.opcode_of _ =? _) = true |- _ => apply Z.eqb_eq in E
           end; congruence.
Qed.

Lemma failed_instruction_state_witness :
  let self := Sim.init in
  let w := 0 in
  exists self',
    Sim.execute_instruction self w = Some (false, self') /\
    Sim.memory self' = Sim.memory self /\ Sim.pc self' = Sim.pc self /\
    Sim.halted self' = Sim.halted self /\
    Sim.max_instructions self' = Sim.max_instructions self /\
    (Sim.opcode_of w <> 0x67 -> Sim.registers self' = Sim.registers self).
Proof.
  cbv zeta. eexists. split; [reflexivity|].
  exact (failed_instruction_state Sim.init 0 _ eq_refl).
Defined.

Lemma imm_b_nonneg w : 0 <= Sim.imm_b w.
Proof.
  unfold Sim.imm_b.
  assert (H : 0 <= Z.lor (Z.lor (Z.lor (Z.shiftl (Z.land (Z.shiftr w 31) 0x1) 12)
                                        (Z.shiftl (Z.land (Z.shiftr w 7) 0x1) 11))
                                 (Z.shiftl (Z.land (Z.shiftr w 25) 0x3f) 5))
                          (Z.shiftl (Z.land (Z.shiftr w 8) 0xf) 1)).
  { rewrite !Z.lor_nonneg, !Z.shiftl_nonneg, !Z.land_nonneg. lia. }
  destruct (_ =? 0); [exact H|]. apply Z.lor_nonneg. lia.
Qed.

Lemma imm_j_nonneg w : 0 <= Sim.imm_j w.
Proof.
  unfold Sim.imm_j.
  assert (H : 0 <= Z.lor (Z.lor (Z.lor (Z.shiftl (Z.land (Z.shiftr w 31) 0x1) 20)
                                        (Z.shiftl (Z.land (Z.shiftr w 12) 0xff) 12))
                                 (Z.shiftl (Z.land (Z.shiftr w 20) 0x1) 11))
                          (Z.shiftl (Z.land (Z.shiftr w 21) 0x3ff) 1)).
  { rewrite !Z.lor_nonneg, !Z.shiftl_nonneg, !Z.land_nonneg. lia. }
  destruct (_ =? 0); [exact H|]. apply Z.lor_nonneg. lia.
Qed.

(** X2.  Only [jalr] moves the program counter backwards: after any other
    instruction that succeeds the program counter is where it was (the
    halt) or further.  The offsets [imm_b] and [imm_j] decode are never
    negative. *)
Theorem pc_never_decreases self w self' :
  Sim.execute_instruction self w = Some (true, self') ->
  Sim.opcode_of w <> 0x67 ->
  Sim.pc self <= Sim.pc self'.
Proof.
  intros H Hne. unfold Sim.execute_instruction in H. cbv zeta in H.
  unfold Sim.next, Sim.finish, Sim.fatal in H.
  pose proof (imm_b_nonneg w) as Hb. pose proof (imm_j_nonneg w) as Hj.
  split_all H.
  all: try discriminate H.
  all: injection H as <-.
  all: repeat match goal with
         | E : Sim.write_reg _ _ _ = Some _ |- _ =>
             apply write_reg_spec in E as (? & _ & ->)
         | E : (Sim.opcode_of _ =? 103) = true |- _ => apply Z.eqb_eq in E
         end.
  all: cbn; try contradiction; try lia.
  all: match goal with
       | |- _ <= _ + ?x / 4 => assert (0 <= x / 4) by (apply Z.div_pos; lia); lia
       end.
Qed.

Lemma pc_never_decreases_witness :
  exists self',
    Sim.execute_instruction numbered 8396931 = Some (true, self') /\
    Sim.pc numbered <= Sim.pc self'.
Proof.
  eexists. split; [reflexivity|].
  apply (pc_never_decreases numbered 8396931 _ eq_refl). discriminate.
Defined.

Lemma bit31_lower x : 0 <= x -> Z.testbit x 31 = true -> 2 ^ 31 <= x.
Proof.
  intros Hx Hb. apply Z.testbit_true in Hb; [|lia].
  assert (0 < x / 2 ^ 31).
  { destruct (Z.eq_dec (x / 2 ^ 31) 0) as [E|E]; [rewrite E in Hb; discriminate|].
    pose proof (Z.div_pos x (2 ^ 31) Hx ltac:(lia)). lia. }
  pose proof (Z.mul_div_le x (2 ^ 31) ltac:(lia)). lia.
Qed.

Lemma sign_extended val sign :
  Z.testbit val sign = true -> 0 <= sign -> Z.land val (2 ^ sign) <> 0.
Proof.
  intros Hb Hs E. apply (f_equal (fun z => Z.testbit z sign)) in E.
  rewrite Z.land_spec, Hb, Z.pow2_bits_true, Z.bits_0 in E by lia. discriminate.
Qed.

Lemma imm_b_negative w : Z.testbit w 31 = true -> 2 ^ 31 <= Sim.imm_b w.
Proof.
  intros Hw. apply bit31_lower; [apply imm_b_nonneg|].
  unfold Sim.imm_b.
  set (val := Z.lor _ _).
  assert (Hv : Z.testbit val 12 = true).
  { subst val. rewrite !Z.lor_spec, !Z.shiftl_spec, !Z.land_spec, !Z.shiftr_spec by lia.
    replace (12 - 12 + 31) with 31 by lia. rewrite Hw. reflexivity. }
  assert (Hn : 0 <= val).
  { subst val. rewrite !Z.lor_nonneg, !Z.shiftl_nonneg, !Z.land_nonneg. lia. }
  destruct (Z.eqb_spec (Z.land val 0x1000) 0) as [E|E].
  - exfalso. exact (sign_extended val 12 Hv ltac:(lia) E).
  - rewrite Z.lor_spec. apply orb_true_iff. right. reflexivity.
Qed.

Lemma imm_j_negative w : Z.testbit w 31 = true -> 2 ^ 31 <= Sim.imm_j w.
Proof.
  intros Hw. apply bit31_lower; [apply imm_j_nonneg|].
  unfold Sim.imm_j.
  set (val := Z.lor _ _).
  assert (Hv : Z.testbit val 20 = true).
  { subst val. rewrite !Z.lor_spec, !Z.shiftl_spec, !Z.land_spec, !Z.shiftr_spec by lia.
    replace (20 - 20 + 31) with 31 by lia. rewrite Hw. reflexivity. }
  assert (Hn : 0 <= val).
  { subst val. rewrite !Z.lor_nonneg, !Z.shiftl_nonneg, !Z.land_nonneg. lia. }
  destruct (Z.eqb_spec (Z.land val 0x100000) 0) as [E|E].
  - exfalso. exact (sign_extended val 20 Hv ltac:(lia) E).
  - rewrite Z.lor_spec. apply orb_true_iff. right. reflexivity.
Qed.

(** X3.  A branch or a [jal] whose immediate has its sign bit set (bit 31
    of the word) never goes backwards: the decoded offset is at least
    [2^31], so a branch that is taken, and every such [jal], leaves the
    program counter at 32 or more, outside the memory. *)
Theorem negative_offset_leaves_memory self w self' :
  Sim.execute_instruction self w = Some (true, self') ->
  Sim.opcode_of w = 0x63 \/ Sim.opcode_of w = 0x6f ->
  Z.testbit w 31 = true -> 0 <= Sim.pc self ->
  (Sim.opcode_of w = 0x63 /\ Sim.pc self' = Sim.pc self + 1) \/ 32 <= Sim.pc self'.
Proof.
  intros H Hop Hw Hpc. unfold Sim.execute_instruction in H. cbv zeta in H.
  unfold Sim.next, Sim.finish, Sim.fatal in H.
  pose proof (imm_b_negative w Hw) as Hb. pose proof (imm_j_negative w Hw) as Hj.
  assert (Hb4 : 2 ^ 29 <= Sim.imm_b w / 4).
  { apply Z.div_le_lower_bound; lia. }
  assert (Hj4 : 2 ^ 29 <= Sim.imm_j w / 4).
  { apply Z.div_le_lower_bound; lia. }
  split_all H.
  all: try discriminate H.
  all: repeat match goal with
         | E : (Sim.opcode_of _ =? _) = true |- _ => apply Z.eqb_eq in E
         | E : (Sim.opcode_of _ =? _) = false |- _ => apply Z.eqb_neq in E
         end.
  all: try (destruct Hop; congruence).
  all: injection H as <-.
  all: repeat match goal with
         | E : Sim.write_reg _ _ _ = Some _ |- _ =>
             apply write_reg_spec in E as (? & _ & ->)
         end.
  all: cbn.
  all: try (right; lia).
  all: left; split; [assumption | reflexivity].
Qed.

Lemma negative_offset_leaves_memory_witness :
  exists self',
    Sim.execute_instruction counting 4261748451 = Some (true, self') /\
    ((Sim.opcode_of 4261748451 = 0x63 /\ Sim.pc self' = Sim.pc counting + 1) \/
     32 <= Sim.pc self').
Proof.
  eexists. split; [reflexivity|].
  apply (negative_offset_leaves_memory counting 4261748451 _ eq_refl);
    [left; reflexivity | reflexivity | discriminate].
Defined.

(** X4.  Memory is written by the store only: an instruction whose opcode
    is not 0x23 leaves the memory as it was, whether it succeeds or not. *)
Theorem only_store_writes_memory self w b self' :
  Sim.execute_instruction self w = Some (b, self') ->
  Sim.opcode_of w <> 0x23 -> Sim.memory self' = Sim.memory self.
Proof.
  intros H Hne. unfold Sim.execute_instruction in H. cbv zeta in H.
  unfold Sim.next, Sim.finish, Sim.fatal in H.
  split_all H.
  all: injection H as <- <-.
  all: repeat match goal with
         | E : Sim.write_reg _ _ _ = Some _ |- _ =>
             apply write_reg_spec in E as (? & _ & ->)
         | E : (Sim.opcode_of _ =? 35) = true |- _ => apply Z.eqb_eq in E
         end.
  all: cbn; try reflexivity; contradiction.
Qed.

Lemma only_store_writes_memory_witness :
  exists b self',
    Sim.execute_instruction numbered 8396931 = Some (b, self') /\
    Sim.memory self' = Sim.memory numbered.
Proof.
  eexists _, _. split; [reflexivity|].
  apply (only_store_writes_memory numbered 8396931 _ _ eq_refl). discriminate.
Defined.

(** X5.  The halt flag is never cleared, and it is set by the halt
    pattern only: a [beq] of register 0 with itself whose decoded offset
    is 0. *)
Theorem halted_only_by_pattern self w b self' :
  Sim.execute_instruction self w = Some (b, self') ->
  Sim.halted self' = Sim.halted self \/
  (Sim.halted self' = true /\ b = true /\
   Sim.opcode_of w = 0x63 /\ Sim.funct3_of w = 0 /\
   Sim.rs1_of w = 0 /\ Sim.rs2_of w = 0 /\ Sim.imm_b w = 0).
Proof.
  intros H. unfold Sim.execute_instruction in H. cbv zeta in H.
  unfold Sim.next, Sim.finish, Sim.fatal in H.
  split_all H.
  all: injection H as <- <-.
  all: repeat match goal with
         | E : Sim.write_reg _ _ _ = Some _ |- _ =>
             apply write_reg_spec in E as (? & _ & ->)
         end.
  all: cbn; try (left; reflexivity).
  right. repeat split; lia.
Qed.

Lemma halted_only_by_pattern_witness :
  exists b self',
    Sim.execute_instruction Sim.init 99 = Some (b, self') /\
    (Sim.halted self' = Sim.halted Sim.init \/
     (Sim.halted self' = true /\ b = true /\
      Sim.opcode_of 99 = 0x63 /\ Sim.funct3_of 99 = 0 /\
      Sim.rs1_of 99 = 0 /\ Sim.rs2_of 99 = 0 /\ Sim.imm_b 99 = 0)).
Proof.
  eexists _, _. split; [reflexivity|].
  exact (halted_only_by_pattern Sim.init 99 _ _ eq_refl).
Defined.

Lemma setitem_words l i v l' :
  Sim.setitem l i v = Some l' -> words l -> 0 <= v < 2 ^ 32 -> words l'.
Proof.
  unfold Sim.setitem. destruct (Sim.position _ i) as [k|]; [|discriminate].
  intros [= <-] Hl Hv. unfold words in *.
  destruct (decide (k < length l)%nat) as [Hk|Hk].
  - apply Forall_insert; assumption.
  - rewrite list_insert_ge by lia. exact Hl.
Qed.

Lemma getitem_words l i v :
  Sim.getitem l i = Some v -> words l -> 0 <= v < 2 ^ 32.
Proof.
  unfold Sim.getitem. destruct (Sim.position _ i) as [k|]; [|discriminate].
  cbn. intros Hk Hl. unfold words in Hl. rewrite Forall_lookup in Hl. eauto.
Qed.

Lemma masked_word x : 0 <= Z.land x 0xffffffff < 2 ^ 32.
Proof. rewrite land_ffffffff. apply Z.mod_pos_bound. lia. Qed.

Lemma shifted_word x n : 0 <= x < 2 ^ 32 -> 0 <= n -> 0 <= Z.shiftr x n < 2 ^ 32.
Proof.
  intros Hx Hn. rewrite Z.shiftr_div_pow2 by lia. split.
  - apply Z.div_pos; [lia | apply Z.pow_pos_nonneg; lia].
  - apply Z.le_lt_trans with x; [|lia].
    apply Z.div_le_upper_bound; [apply Z.pow_pos_nonneg; lia|].
    assert (1 <= 2 ^ n) by (apply (Z.pow_le_mono_r 2 0 n); lia). nia.
Qed.

(** An instruction, failing ones included, leads from 32-bit words in
    registers and memory to 32-bit words. *)
Lemma execute_words self w b self' :
  words (Sim.registers self) -> words (Sim.memory self) ->
  0 <= Sim.pc self < 32 ->
  Sim.execute_instruction self w = Some (b, self') ->
  words (Sim.registers self') /\ words (Sim.memory self').
Proof.
  intros Hr Hm Hpc H. unfold Sim.execute_instruction in H. cbv zeta in H.
  unfold Sim.next, Sim.finish, Sim.fatal in H.
  split_all H.
  all: injection H as <- <-.
  all: repeat match goal with
         | E : Sim.write_reg _ _ _ = Some _ |- _ =>
             apply write_reg_spec in E as (? & ? & ->)
         end.
  all: cbn [Sim.registers Sim.memory Sim.set_pc Sim.set_registers Sim.set_memory
            Sim.set_halted Sim.say] in *.
  all: repeat match goal with
         | E : Sim.getitem _ _ = Some _ |- _ =>
             apply getitem_words in E; [|assumption]
         end.
  all: split; try assumption.
  all: repeat match goal with
         | E : Sim.setitem ?l _ _ = Some ?l' |- words ?l' =>
             apply (setitem_words _ _ _ _ E); clear E
         end.
  all: try assumption; try lia.
  all: try apply masked_word.
  all: try (destruct (_ <? _); lia).
  apply shifted_word; [apply masked_word | apply Z.land_nonneg; lia].
Qed.

(** X7.  [slt] compares as signed numbers: when the two source registers
    hold the 32-bit patterns of [v1] and [v2], the destination gets 1 if
    [v1 < v2] and 0 otherwise, register 0 is cleared and the program
    counter moves to the next word. *)
Theorem slt_compares_signed self w v1 v2 :
  length (Sim.registers self) = 32%nat ->
  Sim.opcode_of w = 0x33 -> Sim.funct3_of w = 0x2 ->
  - 2 ^ 31 <= v1 < 2 ^ 31 -> - 2 ^ 31 <= v2 < 2 ^ 31 ->
  Sim.registers self !! Z.to_nat (Sim.rs1_of w) = Some (pattern32 v1) ->
  Sim.registers self !! Z.to_nat (Sim.rs2_of w) = Some (pattern32 v2) ->
  exists self',
    Sim.execute_instruction self w = Some (true, self') /\
    Sim.registers self' =
      <[0%nat := 0]> (<[Z.to_nat (Sim.rd_of w) := if v1 <? v2 then 1 else 0]>
                        (Sim.registers self)) /\
    Sim.pc self' = Sim.pc self + 1 /\ Sim.memory self' = Sim.memory self.
Proof.
  intros Hl Hop Hf3 Hv1 Hv2 H1 H2.
  destruct (field_range w) as (Hrd & Hrs1 & Hrs2).
  assert (Hs : forall v, - 2 ^ 31 <= v < 2 ^ 31 ->
                 Sim.signed (Z.land (pattern32 v) 0xffffffff) = v).
  { intros v Hv. rewrite land_ffffffff. unfold pattern32.
    change (Z.shiftl 1 32) with (2 ^ 32).
    destruct (Z.ltb_spec v 0).
    - rewrite Z.mod_small by lia. rewrite signed_high by lia. lia.
    - rewrite Z.mod_small by lia. apply signed_low. lia. }
  unfold Sim.execute_instruction. cbv zeta. rewrite Hop, Hf3.
  cbn [Z.eqb Pos.eqb].
  rewrite !getitem_ok by lia. rewrite H1, H2. cbn [mbind option_bind].
  rewrite !Hs by assumption.
  unfold Sim.write_reg, Sim.next, Sim.finish, Sim.write_reg.
  rewrite setitem_ok by lia. cbn [mbind option_bind].
  cbn [Sim.registers Sim.set_registers Sim.set_pc].
  rewrite setitem_ok by (rewrite length_insert; lia). cbn [mbind option_bind].
  eexists. split; [reflexivity|]. cbn. repeat split.
Qed.

Lemma slt_compares_signed_witness :
  exists self',
    Sim.execute_instruction minus_one_and_one 2138547 = Some (true, self') /\
    Sim.registers self' =
      <[0%nat := 0]> (<[Z.to_nat (Sim.rd_of 2138547) := if -1 <? 1 then 1 else 0]>
                        (Sim.registers minus_one_and_one)) /\
    Sim.pc self' = Sim.pc minus_one_and_one + 1 /\
    Sim.memory self' = Sim.memory minus_one_and_one.
Proof.
  apply (slt_compares_signed minus_one_and_one 2138547 (-1) 1);
    try reflexivity; lia.
Defined.

Lemma set_memory_twice m1 m2 self :
  Sim.set_memory m2 (Sim.set_memory m1 self) = Sim.set_memory m2 self.
Proof. reflexivity. Qed.

(** Lines of 32 binary digits are stored in order from word [i] on, and
    nothing else of the object changes. *)
Lemma load_lines_exact lines : forall self lineno i,
  Forall (fun l => is_binary l = true /\ String.length l = 32%nat) lines ->
  0 <= i -> i + Z.of_nat (length lines) <= Z.of_nat (length (Sim.memory self)) ->
  i + Z.of_nat (length lines) <= 32 ->
  Sim.load_lines self (map (fun l => l +:+ newline) lines) lineno i =
    Some (true,
          Sim.set_memory
            (take (Z.to_nat i) (Sim.memory self) ++ map (fun l => value l 0) lines ++
             drop (Z.to_nat i + length lines) (Sim.memory self))%list self).
Proof.
  induction lines as [|l lines IH]; intros self lineno i Hall Hi Hlen H32.
  - cbn [map Sim.load_lines length app]. rewrite Nat.add_0_r, take_drop.
    destruct self; reflexivity.
  - inversion Hall as [|? ? [Hb Hl] Hall']; subst.
    cbn [map Sim.load_lines]. rewrite (strip_line l Hb).
    assert (Hne : l <> EmptyString) by (intros ->; discriminate).
    destruct l as [|c l'] eqn:El; [congruence|]. rewrite <- El in *.
    replace (Py.is_empty l) with false by (rewrite El; reflexivity).
    unfold Py.len. rewrite Hl. cbn [Z.of_nat Z.eqb Pos.eqb negb Pos.of_succ_nat Pos.succ].
    cbn [length] in Hlen, H32.
    destruct (Z.leb_spec 32 i); [lia|].
    rewrite (int_binary l Hb Hne).
    rewrite setitem_ok by lia. cbn [mbind option_bind].
    rewrite IH; [|assumption|lia|cbn; rewrite length_insert; lia|lia].
    rewrite set_memory_twice. cbn [Sim.memory Sim.set_memory].
    do 3 f_equal.
    replace (Z.to_nat (i + 1)) with (S (Z.to_nat i)) by lia.
    rewrite (take_S_r _ _ (value l 0)) by (apply list_lookup_insert_eq; lia).
    rewrite take_insert_ge by lia.
    rewrite drop_insert_lt by lia.
    cbn [map length]. rewrite <- app_assoc. cbn [app].
    replace (S (Z.to_nat i) + length lines)%nat
      with (Z.to_nat i + S (length lines))%nat by lia.
    reflexivity.
Qed.

(** X8.  An image of at most 32 lines of 32 binary digits loads without
    a message into a memory that holds the numbers the lines write, in
    order, followed by zeros; nothing else of the fresh simulator changes. *)
Theorem load_program_image lines :
  Forall (fun l => is_binary l = true /\ String.length l = 32%nat) lines ->
  (length lines <= 32)%nat ->
  Sim.load_program Sim.init (Some (map (fun l => l +:+ newline) lines)) =
    Some (true,
          Sim.set_memory
            (map (fun l => value l 0) lines ++ replicate (32 - length lines) 0)%list
            Sim.init).
Proof.
  intros Hall Hlen. unfold Sim.load_program.
  rewrite load_lines_exact; [|assumption|lia|cbn; lia|lia].
  cbn [Z.to_nat take app Nat.add Sim.memory Sim.init].
  rewrite drop_replicate. reflexivity.
Qed.

Lemma load_program_image_witness :
  Sim.load_program Sim.init
    (Some (map (fun l => l +:+ newline) ["00000000000000000000000001100011"])) =
  Some (true,
        Sim.set_memory
          (map (fun l => value l 0) ["00000000000000000000000001100011"] ++
           replicate (32 - length ["00000000000000000000000001100011"]) 0)%list
          Sim.init).
Proof.
  apply (load_program_image ["00000000000000000000000001100011"]).
  - repeat constructor.
  - cbn. lia.
Defined.

Lemma dump_line_binary u :
  let s := Py.format_0b 32 (Z.land u 0xffffffff) in
  is_binary s = true /\ String.length s = 32%nat /\ value s 0 = Z.land u 0xffffffff.
Proof.
  apply (format_0b_spec (Z.land u 0xffffffff) 32); [|lia].
  rewrite land_ffffffff. apply Z.mod_pos_bound. lia.
Qed.

(** X9.  The memory dump reads back: the 32 lines [write_memory_dump]
    writes are an image that [load_program] accepts, and the memory it
    loads holds every dumped word reduced to 32 bits. *)
Theorem memory_dump_reloads self :
  length (Sim.memory self) = 32%nat ->
  Sim.load_program Sim.init (Some (Sim.memory_dump self)) =
    Some (true,
          Sim.set_memory (map (fun word => Z.land word 0xffffffff) (Sim.memory self))
            Sim.init).
Proof.
  intros Hlen. unfold Sim.memory_dump, Sim.load_program.
  rewrite <- (map_map (fun word => Py.format_0b 32 (Z.land word 0xffffffff))
                (fun l => l +:+ newline)).
  rewrite load_lines_exact.
  - cbn [Z.to_nat take app Nat.add Sim.memory Sim.init].
    rewrite length_map, Hlen, drop_replicate. cbn [Nat.sub replicate].
    rewrite app_nil_r, map_map. do 2 f_equal. change (take (Z.to_nat 0) ?l) with (@nil Z).
    cbn [app]. f_equal. apply map_ext. intros u. apply dump_line_binary.
  - apply Forall_map, Forall_forall. intros u _.
    pose proof (dump_line_binary u) as (? & ? & _). auto.
  - lia.
  - rewrite length_map, Hlen. cbn. lia.
  - rewrite length_map, Hlen. lia.
Qed.

Lemma memory_dump_reloads_witness :
  Sim.load_program Sim.init (Some (Sim.memory_dump numbered)) =
    Some (true,
          Sim.set_memory (map (fun word => Z.land word 0xffffffff) (Sim.memory numbered))
            Sim.init).
Proof. apply (memory_dump_reloads numbered). reflexivity. Defined.

(** X10.  A trace line is 33 fields of 32 binary digits joined by single
    spaces and ended by a newline: the byte address [4 * pc], then every
    register reduced to 32 bits, in order.  It holds whenever the byte
    address fits 32 bits, as it does for every word index the loop
    fetches from. *)
Theorem trace_line_fields self :
  0 <= Sim.pc self < 2 ^ 30 -> Sim.registers self <> [] ->
  let numbers :=
    Sim.pc self * 4 :: map (fun r => Z.land r 0xffffffff) (Sim.registers self) in
  let fields := map (Py.format_0b 32) numbers in
  Sim.trace_line self = String.concat " " fields +:+ newline /\
  Forall (fun f => is_binary f = true /\ String.length f = 32%nat) fields /\
  map (fun f => value f 0) fields = numbers.
Proof.
  intros Hpc Hne numbers fields. subst fields numbers. split; [|split].
  - unfold Sim.trace_line. destruct (Sim.registers self) as [|r rs]; [congruence|].
    rewrite <- (map_map (fun r => Z.land r 0xffffffff) (Py.format_0b 32)).
    cbn [map String.concat].
    rewrite !app_assoc_s. reflexivity.
  - apply Forall_map, Forall_cons. split.
    + pose proof (format_0b_spec (Sim.pc self * 4) 32 ltac:(lia) ltac:(lia)) as (? & ? & _).
      auto.
    + apply Forall_map, Forall_forall. intros u _.
      pose proof (dump_line_binary u) as (? & ? & _). auto.
  - cbn [map]. f_equal.
    + apply (format_0b_spec (Sim.pc self * 4) 32); lia.
    + rewrite !map_map. apply map_ext. intros u. apply dump_line_binary.
Qed.

Lemma trace_line_fields_witness :
  let numbers :=
    Sim.pc Sim.init * 4 :: map (fun r => Z.land r 0xffffffff) (Sim.registers Sim.init) in
  let fields := map (Py.format_0b 32) numbers in
  Sim.trace_line Sim.init = String.concat " " fields +:+ newline /\
  Forall (fun f => is_binary f = true /\ String.length f = 32%nat) fields /\
  map (fun f => value f 0) fields = numbers.
Proof.
  apply (trace_line_fields Sim.init).
  - cbn. lia.
  - discriminate.
Defined.

(** X6.  Registers and memory stay 32-bit words along every run of an
    image of at most 32 lines of 32 binary digits: in each state the
    loop goes through, all 32 registers and all 32 memory words are
    numbers from 0 to [2^32 - 1]. *)
Theorem words_stay_words lines start self :
  Forall (fun l => is_binary l = true /\ String.length l = 32%nat) lines ->
  (length lines <= 32)%nat ->
  Sim.load_program Sim.init (Some (map (fun l => l +:+ newline) lines)) =
    Some (true, start) ->
  run_from start self ->
  words (Sim.registers self) /\ words (Sim.memory self).
Proof.
  intros Hall Hlen Hload Hrun.
  unfold Sim.load_program in Hload.
  rewrite load_lines_exact in Hload; [|assumption|lia|cbn; lia|lia].
  injection Hload as <-.
  induction Hrun as [|self w self' Hrun IH Hh Hpc Hw He].
  - assert (W0 : words (replicate 32 0)) by (apply Forall_replicate; lia).
    split; [exact W0|].
    change (words (map (fun l => value l 0) lines ++
                   drop (0 + length lines) (replicate 32 0))).
    apply Forall_app. split.
    + apply Forall_map. eapply Forall_impl; [exact Hall|].
      intros l [Hb Hl]. cbn. pose proof (value_bound l Hb) as Hv.
      rewrite Hl in Hv. exact Hv.
    + apply Forall_drop, W0.
  - destruct IH as [Hr Hm]. exact (execute_words _ _ _ _ Hr Hm Hpc He).
Qed.

Lemma words_stay_words_witness :
  exists start self,
    Sim.load_program Sim.init
      (Some (map (fun l => l +:+ newline) ["00000000010100000000000000010011"])) =
      Some (true, start) /\
    run_from start self /\ Sim.pc self = 1 /\
    words (Sim.registers self) /\ words (Sim.memory self).
Proof.
  eexists _, _. split; [reflexivity|].
  assert (R : run_from (loaded (Some addi_zero_image))
                (stepped (loaded (Some addi_zero_image)))).
  { eapply (run_step _ (loaded (Some addi_zero_image)) 5242899);
      [apply run_start | reflexivity | | reflexivity | reflexivity].
    change (0 <= 0 < 32). lia. }
  split; [exact R|]. split; [reflexivity|].
  refine (words_stay_words ["00000000010100000000000000010011"] _ _ _ _ eq_refl R).
  - repeat constructor.
  - cbn. lia.
Defined.

(** ** From the source line to the executed word *)

Lemma substring_prefix (n : nat) : forall s : string,
  (n <= String.length s)%nat ->
  exists q, s = substring 0 n s +:+ q /\ String.length (substring 0 n s) = n.
Proof.
  induction n as [|n IHn]; intros s H.
  - exists s. destruct s; auto.
  - destruct s as [|c s]; [cbn in H; lia|].
    destruct (IHn s ltac:(cbn in H; lia)) as (q & Hq & Hl).
    exists q. cbn [substring String.length].
    change (String c (substring 0 n s) +:+ q) with (String c (substring 0 n s +:+ q)).
    rewrite <- Hq, Hl. auto.
Qed.

(** A piece of a string, with what is before and after it. *)
Lemma substring_parts (a : nat) : forall (n : nat) (s : string),
  (a + n <= String.length s)%nat ->
  exists p q, s = p +:+ substring a n s +:+ q /\
              String.length p = a /\ String.length (substring a n s) = n.
Proof.
  induction a as [|a IH]; intros n s H.
  - destruct (substring_prefix n s H) as (q & Hq & Hl).
    exists EmptyString, q. auto.
  - destruct s as [|c s]; [cbn in H; lia|].
    destruct (IH n s ltac:(cbn in H; lia)) as (p & q & Hs & Hp & Hl).
    exists (String c p), q. cbn [substring String.length].
    change (String c p +:+ substring a n s +:+ q)
      with (String c (p +:+ substring a n s +:+ q)).
    rewrite <- Hs, Hp. auto.
Qed.

(** The digits [a] to [a + n - 1] of a binary string, as a number. *)
Lemma substring_value (a n : nat) (s : string) :
  is_binary s = true -> (a + n <= String.length s)%nat ->
  let t := substring a n s in
  is_binary t = true /\ String.length t = n /\
  value t 0 = (value s 0 / 2 ^ Z.of_nat (String.length s - a - n)) mod 2 ^ Z.of_nat n.
Proof.
  intros Hb Hlen t. subst t.
  destruct (substring_parts a n s Hlen) as (p & q & Hs & Hp & Hl).
  remember (substring a n s) as t eqn:Et. clear Et. subst s.
  rewrite !is_binary_app in Hb.
  apply andb_true_iff in Hb as [Bp Hb]. apply andb_true_iff in Hb as [Bt Bq].
  split; [exact Bt|]. split; [exact Hl|].
  rewrite !length_app, Hp, Hl.
  replace (a + (n + String.length q) - a - n)%nat with (String.length q) by lia.
  rewrite !value_app_pow, length_app, Hl.
  pose proof (value_bound _ Bp) as Vp. pose proof (value_bound _ Bt) as Vt.
  pose proof (value_bound _ Bq) as Vq. rewrite Hl in Vt.
  rewrite Nat2Z.inj_add, Z.pow_add_r by lia.
  set (Q := 2 ^ Z.of_nat (String.length q)) in *.
  set (N := 2 ^ Z.of_nat n) in *.
  replace (value p 0 * (N * Q) + (value t 0 * Q + value q 0))
    with ((value p 0 * N + value t 0) * Q + value q 0) by ring.
  assert (0 < Q) by (apply Z.pow_pos_nonneg; lia).
  assert (0 < N) by (apply Z.pow_pos_nonneg; lia).
  rewrite Z.div_add_l by lia. rewrite (Z.div_small (value q 0)) by lia.
  rewrite Z.add_0_r, Z.add_comm, Z.mod_add by lia.
  symmetry. apply Z.mod_small. lia.
Qed.

(** A line of six groups of binary digits, laid out as funct7, rs2, rs1,
    funct3, rd, opcode, is a line of 32 digits that the loader reads as
    a word with these fields. *)
Lemma six_groups g7 g2 g1 g3 gd gop :
  is_binary g7 = true -> String.length g7 = 7%nat ->
  is_binary g2 = true -> String.length g2 = 5%nat ->
  is_binary g1 = true -> String.length g1 = 5%nat ->
  is_binary g3 = true -> String.length g3 = 3%nat ->
  is_binary gd = true -> String.length gd = 5%nat ->
  is_binary gop = true -> String.length gop = 7%nat ->
  let line := g7 +:+ g2 +:+ g1 +:+ g3 +:+ gd +:+ gop in
  Py.len (Py.strip (line +:+ newline)) = 32 /\
  exists w, Py.int 2 (Py.strip (line +:+ newline)) = Some w /\
    Sim.opcode_of w = value gop 0 /\ Sim.rd_of w = value gd 0 /\
    Sim.funct3_of w = value g3 0 /\ Sim.rs1_of w = value g1 0 /\
    Sim.rs2_of w = value g2 0 /\ Sim.funct7_of w = value g7 0.
Proof.
  intros B7 L7 B2 L2 B1 L1 B3 L3 Bd Ld Bo Lo line.
  assert (Hb : is_binary line = true).
  { subst line. rewrite !is_binary_app, B7, B2, B1, B3, Bd, Bo. reflexivity. }
  assert (Hl : String.length line = 32%nat).
  { subst line. rewrite !length_app, L7, L2, L1, L3, Ld, Lo. reflexivity. }
  rewrite (strip_line line Hb). unfold Py.len. rewrite Hl.
  split; [reflexivity|].
  exists (value line 0). split.
  { apply int_binary; [exact Hb|]. intros E. rewrite E in Hl. discriminate. }
  pose proof (value_bound _ B7) as V7. rewrite L7 in V7.
  pose proof (value_bound _ B2) as V2. rewrite L2 in V2.
  pose proof (value_bound _ B1) as V1. rewrite L1 in V1.
  pose proof (value_bound _ B3) as V3. rewrite L3 in V3.
  pose proof (value_bound _ Bd) as Vd. rewrite Ld in Vd.
  pose proof (value_bound _ Bo) as Vo. rewrite Lo in Vo.
  assert (Hw : value line 0 =
    ((((value g7 0 * 2 ^ 5 + value g2 0) * 2 ^ 5 + value g1 0) * 2 ^ 3 + value g3 0)
       * 2 ^ 5 + value gd 0) * 2 ^ 7 + value gop 0).
  { subst line. rewrite !value_app_pow, !length_app, L2, L1, L3, Ld, Lo.
    cbn [Nat.add Z.of_nat Pos.of_succ_nat Pos.succ]. pow2_consts. lia. }
  rewrite Hw.
  apply word_fields; cbn in *; lia.
Qed.

Lemma r_functs_cases mn f3s f7s f3 f7 :
  r_functs mn = Some (f3s, f7s, f3, f7) ->
  In (mn, f3s, f7s, f3, f7)
    [("add", "000", "0000000", 0, 0); ("sub", "000", "0100000", 0, 32);
     ("sll", "001", "0000000", 1, 0); ("slt", "010", "0000000", 2, 0);
     ("sltu", "011", "0000000", 3, 0); ("xor", "100", "0000000", 4, 0);
     ("srl", "101", "0000000", 5, 0); ("or", "110", "0000000", 6, 0);
     ("and", "111", "0000000", 7, 0)].
Proof.
  unfold r_functs.
  repeat (destruct (String.eqb mn _) eqn:E;
          [apply String.eqb_eq in E; subst mn; intros [= <- <- <- <-];
           cbn; tauto | clear E]).
  discriminate.
Qed.

Lemma r_body_ok data funct3 funct7 rd rs1 rs2 nd n1 n2 e :
  data !! 1%nat = Some rd -> data !! 2%nat = Some rs1 -> data !! 3%nat = Some rs2 ->
  Asm.reg_index rd = Some nd -> Asm.reg_index rs1 = Some n1 ->
  Asm.reg_index rs2 = Some n2 ->
  Asm.r_body data funct3 funct7 e =
    (e, Asm.Ok [Some "0110011"; Some (Py.format_0b 5 nd); Some funct3;
                Some (Py.format_0b 5 n1); Some (Py.format_0b 5 n2); Some funct7]).
Proof.
  intros H1 H2 H3 Hd Hr1 Hr2. unfold Asm.r_body.
  rewrite (bind_ok _ _ _ _ _ (at_ok _ _ _ _ H1)).
  rewrite (bind_ok _ _ _ _ _ (proj1 (reg_add_known _ _ e Hd))).
  rewrite (bind_ok _ _ _ _ _ (at_ok _ _ _ _ H2)).
  rewrite (bind_ok _ _ _ _ _ (proj1 (reg_add_known _ _ e Hr1))).
  rewrite (bind_ok _ _ _ _ _ (at_ok _ _ _ _ H3)).
  rewrite (bind_ok _ _ _ _ _ (proj1 (reg_add_known _ _ e Hr2))).
  reflexivity.
Qed.

Ltac run_block_with body_ok :=
  first
    [ eapply block_hit; [eassumption | reflexivity | eapply body_ok; eassumption]
    | eapply block_skip; [eassumption | reflexivity] ].

Lemma r_type_ok data i mn f3s f7s f3 f7 rd rs1 rs2 nd n1 n2 e :
  data !! 0%nat = Some mn ->
  data !! 1%nat = Some rd -> data !! 2%nat = Some rs1 -> data !! 3%nat = Some rs2 ->
  r_functs mn = Some (f3s, f7s, f3, f7) ->
  Asm.reg_index rd = Some nd -> Asm.reg_index rs1 = Some n1 ->
  Asm.reg_index rs2 = Some n2 ->
  Asm.r_type data i e =
    (e, Asm.Ok [Some "0110011"; Some (Py.format_0b 5 nd); Some f3s;
                Some (Py.format_0b 5 n1); Some (Py.format_0b 5 n2); Some f7s]).
Proof.
  intros H0 H1 H2 H3 Hf Hd Hr1 Hr2. unfold Asm.r_type.
  apply r_functs_cases in Hf. cbn [In] in Hf.
  repeat (destruct Hf as [Hf|Hf]; [injection Hf as <- <- <- <- <-|]); [..|contradiction].
  all: do 8 (erewrite bind_ok by run_block_with r_body_ok); cbn [app].
  all: (etransitivity; [run_block_with r_body_ok | reflexivity]).
Qed.

Lemma write_line fs s (m : Asm.M (list Asm.field)) e :
  m e = (e, Asm.Ok fs) -> Asm.pop_all (rev fs) "" e = (e, Asm.Ok s) ->
  (l ← Some <$> m;
   s ← match l with Some l => Asm.pop_all (rev l) "" | None => Asm.ret "" end;
   Asm.write (s +:+ newline)) e =
    (Asm.Env (Asm.stdout e) (Asm.output e ++ [s +:+ newline]) (Asm.check e)
             (Asm.label_dict e), Asm.Ok tt).
Proof.
  intros Hm Hp.
  rewrite (bind_ok _ _ _ _ _ (fmap_ok _ Some _ _ _ Hm)).
  rewrite (bind_ok _ _ _ _ _ Hp). reflexivity.
Qed.

Lemma Switch_case_r data i mn f3s f7s f3 f7 rd rs1 rs2 nd n1 n2 e :
  data !! 0%nat = Some mn ->
  data !! 1%nat = Some rd -> data !! 2%nat = Some rs1 -> data !! 3%nat = Some rs2 ->
  r_functs mn = Some (f3s, f7s, f3, f7) ->
  Asm.reg_index rd = Some nd -> Asm.reg_index rs1 = Some n1 ->
  Asm.reg_index rs2 = Some n2 ->
  Asm.Switch_case mn data i e =
    (Asm.Env (Asm.stdout e)
       (Asm.output e ++
        [(f7s +:+ Py.format_0b 5 n2 +:+ Py.format_0b 5 n1 +:+ f3s +:+
          Py.format_0b 5 nd +:+ "0110011") +:+ newline])
       (Asm.check e) (Asm.label_dict e), Asm.Ok tt).
Proof.
  intros H0 H1 H2 H3 Hf Hd Hr1 Hr2.
  pose proof (r_type_ok data i mn f3s f7s f3 f7 rd rs1 rs2 nd n1 n2 e
                H0 H1 H2 H3 Hf Hd Hr1 Hr2) as Hr.
  unfold Asm.Switch_case.
  assert (Hg : Asm.get_format mn Asm.switch_dict = Some Asm.RType).
  { apply r_functs_cases in Hf. cbn [In] in Hf.
    repeat (destruct Hf as [Hf|Hf]; [injection Hf as <- <- <- <- <-; reflexivity|]).
    contradiction. }
  rewrite Hg. cbn [Asm.run_format].
  apply (write_line _ _ _ e Hr).
  cbn [rev app Asm.pop_all]. cbn [String.append]. rewrite !app_assoc_s. reflexivity.
Qed.

(** X11.  The R format round trip: for each of the nine register
    mnemonics and any three register names of the table, [Switch_case]
    appends one line and changes nothing else; the loader reads the line
    as a word whose opcode is 0x33, whose rd, rs1 and rs2 are the indices
    of the three names, and whose funct3 and funct7 are those of the
    mnemonic. *)
Theorem r_format_roundtrip data i mn f3s f7s f3 f7 rd rs1 rs2 nd n1 n2 e :
  data !! 0%nat = Some mn ->
  data !! 1%nat = Some rd -> data !! 2%nat = Some rs1 -> data !! 3%nat = Some rs2 ->
  r_functs mn = Some (f3s, f7s, f3, f7) ->
  Asm.reg_index rd = Some nd -> Asm.reg_index rs1 = Some n1 ->
  Asm.reg_index rs2 = Some n2 ->
  exists line w,
    Asm.Switch_case mn data i e =
      (Asm.Env (Asm.stdout e) (Asm.output e ++ [line]) (Asm.check e)
               (Asm.label_dict e), Asm.Ok tt) /\
    Py.len (Py.strip line) = 32 /\
    Py.int 2 (Py.strip line) = Some w /\
    Sim.opcode_of w = 0x33 /\ Sim.rd_of w = nd /\ Sim.rs1_of w = n1 /\
    Sim.rs2_of w = n2 /\ Sim.funct3_of w = f3 /\ Sim.funct7_of w = f7.
Proof.
  intros H0 H1 H2 H3 Hf Hd Hr1 Hr2.
  pose proof (Switch_case_r data i mn f3s f7s f3 f7 rd rs1 rs2 nd n1 n2 e
                H0 H1 H2 H3 Hf Hd Hr1 Hr2) as Hs.
  destruct (format_0b_5 nd (proj2 (reg_add_known _ _ e Hd))) as (Bd & Ld & Vd).
  destruct (format_0b_5 n1 (proj2 (reg_add_known _ _ e Hr1))) as (B1 & L1 & V1).
  destruct (format_0b_5 n2 (proj2 (reg_add_known _ _ e Hr2))) as (B2 & L2 & V2).
  assert (F : is_binary f3s = true /\ String.length f3s = 3%nat /\ value f3s 0 = f3 /\
              is_binary f7s = true /\ String.length f7s = 7%nat /\ value f7s 0 = f7).
  { apply r_functs_cases in Hf. cbn [In] in Hf.
    repeat (destruct Hf as [Hf|Hf];
            [injection Hf as <- <- <- <- <-; repeat split|]).
    contradiction. }
  destruct F as (B3 & L3 & V3 & B7 & L7 & V7).
  destruct (six_groups f7s (Py.format_0b 5 n2) (Py.format_0b 5 n1) f3s
              (Py.format_0b 5 nd) "0110011" B7 L7 B2 L2 B1 L1 B3 L3 Bd Ld
              eq_refl eq_refl)
    as (Hlen & w & Hw & Eo & Ed & E3 & E1 & E2 & E7).
  eexists _, w. split; [exact Hs|]. split; [exact Hlen|]. split; [exact Hw|].
  rewrite Eo, Ed, E3, E1, E2, E7, Vd, V1, V2, V3, V7. repeat split.
Qed.

Lemma r_format_roundtrip_witness :
  exists line w,
    Asm.Switch_case "sub" ["sub"; "a0"; "s1"; "t6"] 0 Asm.env0 =
      (Asm.Env (Asm.stdout Asm.env0) (Asm.output Asm.env0 ++ [line])
               (Asm.check Asm.env0) (Asm.label_dict Asm.env0), Asm.Ok tt) /\
    Py.len (Py.strip line) = 32 /\
    Py.int 2 (Py.strip line) = Some w /\
    Sim.opcode_of w = 0x33 /\ Sim.rd_of w = 10 /\ Sim.rs1_of w = 9 /\
    Sim.rs2_of w = 31 /\ Sim.funct3_of w = 0 /\ Sim.funct7_of w = 32.
Proof.
  apply (r_format_roundtrip ["sub"; "a0"; "s1"; "t6"] 0 "sub" "000" "0100000" 0 32
           "a0" "s1" "t6" 10 9 31 Asm.env0); reflexivity.
Defined.

(** The four slices the formats cut from the 32 digits of an immediate. *)
Lemma binr_slices binr :
  is_binary binr = true -> String.length binr = 32%nat ->
  let U := value binr 0 in
  let low12 := Py.slice binr (Some (-12)) None in
  let low5 := Py.slice binr (Some (-5)) None in
  let mid7 := Py.slice binr (Some (-12)) (Some (-5)) in
  let top20 := Py.slice binr (Some (-32)) (Some (-12)) in
  (is_binary low12 = true /\ String.length low12 = 12%nat /\ value low12 0 = U mod 4096) /\
  (is_binary low5 = true /\ String.length low5 = 5%nat /\ value low5 0 = U mod 32) /\
  (is_binary mid7 = true /\ String.length mid7 = 7%nat /\
   value mid7 0 = (U / 32) mod 128) /\
  (is_binary top20 = true /\ String.length top20 = 20%nat /\ value top20 0 = U / 4096).
Proof.
  intros Hb Hl U low12 low5 mid7 top20.
  pose proof (value_bound _ Hb) as HU. rewrite Hl in HU. fold U in HU.
  change (2 ^ Z.of_nat 32) with 4294967296 in HU.
  replace low12 with (substring 20 12 binr)
    by (subst low12; unfold Py.slice, Py.len; rewrite Hl; reflexivity).
  replace low5 with (substring 27 5 binr)
    by (subst low5; unfold Py.slice, Py.len; rewrite Hl; reflexivity).
  replace mid7 with (substring 20 7 binr)
    by (subst mid7; unfold Py.slice, Py.len; rewrite Hl; reflexivity).
  replace top20 with (substring 0 20 binr)
    by (subst top20; unfold Py.slice, Py.len; rewrite Hl; reflexivity).
  pose proof (substring_value 20 12 binr Hb ltac:(lia)) as (B1 & L1 & V1).
  pose proof (substring_value 27 5 binr Hb ltac:(lia)) as (B2 & L2 & V2).
  pose proof (substring_value 20 7 binr Hb ltac:(lia)) as (B3 & L3 & V3).
  pose proof (substring_value 0 20 binr Hb ltac:(lia)) as (B4 & L4 & V4).
  rewrite Hl in V1, V2, V3, V4. fold U in V1, V2, V3, V4.
  cbn [Nat.sub Z.of_nat Pos.of_succ_nat Pos.succ] in V1, V2, V3, V4.
  change (2 ^ 0) with 1 in *. change (2 ^ 12) with 4096 in *.
  change (2 ^ 5) with 32 in *. change (2 ^ 7) with 128 in *.
  change (2 ^ 20) with 1048576 in *.
  rewrite Z.div_1_r in V1, V2.
  repeat split; try assumption.
  rewrite V4. apply Z.mod_small. Z.div_mod_to_equations. lia.
Qed.

Lemma lor_shiftl_add a b k :
  0 <= k -> 0 <= b < 2 ^ k -> Z.lor (Z.shiftl a k) b = a * 2 ^ k + b.
Proof.
  intros Hk Hb.
  assert (E : Z.land (Z.shiftl a k) b = 0).
  { apply Z.bits_inj'. intros n Hn. rewrite Z.land_spec, Z.bits_0.
    destruct (Z.lt_ge_cases n k).
    - rewrite Z.shiftl_spec_low by lia. reflexivity.
    - rewrite <- (Z.mod_small b (2 ^ k)) by lia.
      rewrite Z.mod_pow2_bits_high by lia. apply andb_false_r. }
  rewrite <- Z.lxor_lor by exact E.
  rewrite <- Z.add_nocarry_lxor by exact E.
  rewrite Z.shiftl_mul_pow2 by lia. reflexivity.
Qed.

Lemma land_pow2 val k :
  0 <= k -> Z.land val (2 ^ k) = if Z.testbit val k then 2 ^ k else 0.
Proof.
  intros Hk. apply Z.bits_inj'. intros n Hn.
  rewrite Z.land_spec, Z.pow2_bits_eqb by lia.
  destruct (Z.eqb_spec k n) as [->|Hne].
  - destruct (Z.testbit val n) eqn:E; [rewrite Z.pow2_bits_true by lia|rewrite Z.bits_0];
      reflexivity.
  - rewrite andb_false_r.
    destruct (Z.testbit val k); [rewrite Z.pow2_bits_false by lia|rewrite Z.bits_0];
      reflexivity.
Qed.

(** Sign extension of a field of [k + 1] bits, as the decoders do it: the
    mask [ext * 2^(k+1)] is added when bit [k] is set. *)
Lemma sign_extend k val ext :
  0 <= k -> 0 <= val < 2 ^ (k + 1) ->
  (if Z.land val (2 ^ k) =? 0 then val else Z.lor val (Z.shiftl ext (k + 1))) =
  if val <? 2 ^ k then val else val + ext * 2 ^ (k + 1).
Proof.
  intros Hk Hv. rewrite land_pow2 by lia.
  assert (Hp : 0 < 2 ^ k) by (apply Z.pow_pos_nonneg; lia).
  rewrite Z.pow_add_r in Hv by lia. change (2 ^ 1) with 2 in Hv.
  destruct (Z.ltb_spec val (2 ^ k)) as [Hlt|Hge].
  - assert (E : Z.testbit val k = false).
    { apply Z.testbit_false; [lia|]. rewrite Z.div_small by lia. reflexivity. }
    rewrite E. reflexivity.
  - assert (E : Z.testbit val k = true).
    { apply Z.testbit_true; [lia|].
      replace (val / 2 ^ k) with 1; [reflexivity|].
      apply (Z.div_unique val (2 ^ k) 1 (val - 2 ^ k)); lia. }
    rewrite E. destruct (Z.eqb_spec (2 ^ k) 0); [lia|].
    rewrite Z.lor_comm. rewrite lor_shiftl_add; [lia|lia|].
    rewrite Z.pow_add_r by lia. change (2 ^ 1) with 2. lia.
Qed.

Lemma i_functs_cases mn ops f3s op f3 :
  i_functs mn = Some (ops, f3s, op, f3) ->
  In (mn, ops, f3s, op, f3)
    [("lw", "0000011", "010", 0x03, 2); ("addi", "0010011", "000", 0x13, 0);
     ("sltiu", "0010011", "011", 0x13, 3); ("jalr", "1100111", "000", 0x67, 0)].
Proof.
  unfold i_functs.
  repeat (destruct (String.eqb mn _) eqn:E;
          [apply String.eqb_eq in E; subst mn; intros [= <- <- <- <-];
           cbn; tauto | clear E]).
  discriminate.
Qed.

Lemma binr_of tok z e :
  Py.int 10 tok = Some z -> -2147483648 <= z <= 2147483647 ->
  let binr := Py.format_0b 32 (pattern32 z) in
  Asm.Binary_convertor (Asm.PStr tok) 32 e = (e, Asm.Ok binr) /\
  is_binary binr = true /\ String.length binr = 32%nat /\ value binr 0 = pattern32 z.
Proof.
  intros Hz Hr binr. split.
  - apply (Binary_convertor_ok _ _ 32 _ (int_of_str _ _ e Hz) Hr
             (proj1 (pattern32_range z Hr))).
  - apply (format_0b_spec _ 32 (pattern32_range z Hr)). lia.
Qed.

Lemma lw_body_ok data rd rs1 tok nd n1 z e :
  data !! 1%nat = Some rd -> data !! 3%nat = Some rs1 -> data !! 2%nat = Some tok ->
  Asm.reg_index rd = Some nd -> Asm.reg_index rs1 = Some n1 ->
  Py.int 10 tok = Some z -> -2147483648 <= z <= 2147483647 ->
  Asm.lw_body data e =
    (e, Asm.Ok [Some "0000011"; Some (Py.format_0b 5 nd); Some "010";
                Some (Py.format_0b 5 n1);
                Some (Py.slice (Py.format_0b 32 (pattern32 z)) (Some (-12)) None)]).
Proof.
  intros H1 H3 H2 Hd Hr1 Hz Hr. unfold Asm.lw_body.
  rewrite (bind_ok _ _ _ _ _ (at_ok _ _ _ _ H1)).
  rewrite (bind_ok _ _ _ _ _ (proj1 (reg_add_known _ _ e Hd))).
  rewrite (bind_ok _ _ _ _ _ (at_ok _ _ _ _ H3)).
  rewrite (bind_ok _ _ _ _ _ (proj1 (reg_add_known _ _ e Hr1))).
  rewrite (bind_ok _ _ _ _ _ (at_ok _ _ _ _ H2)).
  rewrite (bind_ok _ _ _ _ _ (proj1 (binr_of tok z e Hz Hr))).
  reflexivity.
Qed.

Lemma i_body_ok data opcode funct3 rd rs1 tok nd n1 z e :
  data !! 1%nat = Some rd -> data !! 2%nat = Some rs1 -> data !! 3%nat = Some tok ->
  Asm.reg_index rd = Some nd -> Asm.reg_index rs1 = Some n1 ->
  Py.int 10 tok = Some z -> -2147483648 <= z <= 2147483647 ->
  Asm.i_body data opcode funct3 e =
    (e, Asm.Ok [Some opcode; Some (Py.format_0b 5 nd); Some funct3;
                Some (Py.format_0b 5 n1);
                Some (Py.slice (Py.format_0b 32 (pattern32 z)) (Some (-12)) None)]).
Proof.
  intros H1 H2 H3 Hd Hr1 Hz Hr. unfold Asm.i_body.
  rewrite (bind_ok _ _ _ _ _ (at_ok _ _ _ _ H1)).
  rewrite (bind_ok _ _ _ _ _ (proj1 (reg_add_known _ _ e Hd))).
  rewrite (bind_ok _ _ _ _ _ (at_ok _ _ _ _ H2)).
  rewrite (bind_ok _ _ _ _ _ (proj1 (reg_add_known _ _ e Hr1))).
  rewrite (bind_ok _ _ _ _ _ (at_ok _ _ _ _ H3)).
  rewrite (bind_ok _ _ _ _ _ (proj1 (binr_of tok z e Hz Hr))).
  reflexivity.
Qed.

Ltac run_block_i :=
  first
    [ eapply block_hit; [eassumption | reflexivity | eapply lw_body_ok; eassumption]
    | eapply block_hit; [eassumption | reflexivity | eapply i_body_ok; eassumption]
    | eapply block_skip; [eassumption | reflexivity] ].

Lemma i_type_ok data i mn ops f3s op f3 rd rs1 tok nd n1 z e :
  data !! 0%nat = Some mn -> data !! 1%nat = Some rd ->
  data !! i_base mn = Some rs1 -> data !! i_imm mn = Some tok ->
  i_functs mn = Some (ops, f3s, op, f3) ->
  Asm.reg_index rd = Some nd -> Asm.reg_index rs1 = Some n1 ->
  Py.int 10 tok = Some z -> -2147483648 <= z <= 2147483647 ->
  Asm.i_type data i e =
    (e, Asm.Ok [Some ops; Some (Py.format_0b 5 nd); Some f3s;
                Some (Py.format_0b 5 n1);
                Some (Py.slice (Py.format_0b 32 (pattern32 z)) (Some (-12)) None)]).
Proof.
  intros H0 H1 H2 H3 Hf Hd Hr1 Hz Hr. unfold Asm.i_type.
  apply i_functs_cases in Hf. cbn [In] in Hf.
  repeat (destruct Hf as [Hf|Hf]; [injection Hf as <- <- <- <- <-|]); [..|contradiction].
  all: cbn in H2, H3.
  all: do 3 (erewrite bind_ok by run_block_i); cbn [app].
  all: (etransitivity; [run_block_i | reflexivity]).
Qed.

Lemma Switch_case_i data i mn ops f3s op f3 rd rs1 tok nd n1 z e :
  data !! 0%nat = Some mn -> data !! 1%nat = Some rd ->
  data !! i_base mn = Some rs1 -> data !! i_imm mn = Some tok ->
  i_functs mn = Some (ops, f3s, op, f3) ->
  Asm.reg_index rd = Some nd -> Asm.reg_index rs1 = Some n1 ->
  Py.int 10 tok = Some z -> -2147483648 <= z <= 2147483647 ->
  Asm.Switch_case mn data i e =
    (Asm.Env (Asm.stdout e)
       (Asm.output e ++
        [(Py.slice (Py.format_0b 32 (pattern32 z)) (Some (-12)) None +:+
          Py.format_0b 5 n1 +:+ f3s +:+ Py.format_0b 5 nd +:+ ops) +:+ newline])
       (Asm.check e) (Asm.label_dict e), Asm.Ok tt).
Proof.
  intros H0 H1 H2 H3 Hf Hd Hr1 Hz Hr.
  pose proof (i_type_ok data i mn ops f3s op f3 rd rs1 tok nd n1 z e
                H0 H1 H2 H3 Hf Hd Hr1 Hz Hr) as Hi.
  unfold Asm.Switch_case.
  assert (Hg : Asm.get_format mn Asm.switch_dict = Some Asm.IType).
  { apply i_functs_cases in Hf. cbn [In] in Hf.
    repeat (destruct Hf as [Hf|Hf]; [injection Hf as <- <- <- <- <-; reflexivity|]).
    contradiction. }
  rewrite Hg. cbn [Asm.run_format].
  apply (write_line _ _ _ e Hi).
  cbn [rev app Asm.pop_all]. cbn [String.append]. rewrite !app_assoc_s. reflexivity.
Qed.

(** A line laid out as imm[11:0], rs1, funct3, rd, opcode. *)
Lemma five_groups gi g1 g3 gd gop :
  is_binary gi = true -> String.length gi = 12%nat ->
  is_binary g1 = true -> String.length g1 = 5%nat ->
  is_binary g3 = true -> String.length g3 = 3%nat ->
  is_binary gd = true -> String.length gd = 5%nat ->
  is_binary gop = true -> String.length gop = 7%nat ->
  let line := gi +:+ g1 +:+ g3 +:+ gd +:+ gop in
  Py.len (Py.strip (line +:+ newline)) = 32 /\
  exists w, Py.int 2 (Py.strip (line +:+ newline)) = Some w /\
    Sim.opcode_of w = value gop 0 /\ Sim.rd_of w = value gd 0 /\
    Sim.funct3_of w = value g3 0 /\ Sim.rs1_of w = value g1 0 /\
    Z.land (Z.shiftr w 20) 0xfff = value gi 0.
Proof.
  intros Bi Li B1 L1 B3 L3 Bd Ld Bo Lo line.
  assert (Hb : is_binary line = true).
  { subst line. rewrite !is_binary_app, Bi, B1, B3, Bd, Bo. reflexivity. }
  assert (Hl : String.length line = 32%nat).
  { subst line. rewrite !length_app, Li, L1, L3, Ld, Lo. reflexivity. }
  rewrite (strip_line line Hb). unfold Py.len. rewrite Hl.
  split; [reflexivity|].
  exists (value line 0). split.
  { apply int_binary; [exact Hb|]. intros E. rewrite E in Hl. discriminate. }
  pose proof (value_bound _ Bi) as Vi. rewrite Li in Vi.
  pose proof (value_bound _ B1) as V1. rewrite L1 in V1.
  pose proof (value_bound _ B3) as V3. rewrite L3 in V3.
  pose proof (value_bound _ Bd) as Vd. rewrite Ld in Vd.
  pose proof (value_bound _ Bo) as Vo. rewrite Lo in Vo.
  assert (Hw : value line 0 =
    (((value gi 0 * 2 ^ 5 + value g1 0) * 2 ^ 3 + value g3 0)
       * 2 ^ 5 + value gd 0) * 2 ^ 7 + value gop 0).
  { subst line. rewrite !value_app_pow, !length_app, L1, L3, Ld, Lo.
    cbn [Nat.add Z.of_nat Pos.of_succ_nat Pos.succ]. pow2_consts. lia. }
  rewrite Hw. cbn in Vi, V1, V3, Vd, Vo.
  unfold Sim.opcode_of, Sim.rd_of, Sim.funct3_of, Sim.rs1_of.
  to_div_mod. repeat split; Z.div_mod_to_equations; lia.
Qed.

(** The low 12 bits of a 32-bit pattern, sign-extended, are the pattern
    of the number itself when it fits 12 bits. *)
Lemma low12_extended z :
  -2048 <= z <= 2047 ->
  let m := pattern32 z mod 4096 in
  (if Z.land m 0x800 =? 0 then m else Z.lor m 0xfffff000) = pattern32 z.
Proof.
  intros Hz m.
  assert (Hm : 0 <= m < 2 ^ (11 + 1)) by (subst m; apply Z.mod_pos_bound; lia).
  pose proof (sign_extend 11 m 1048575 ltac:(lia) Hm) as E.
  change (2 ^ 11) with 0x800 in E. change (Z.shiftl 1048575 (11 + 1)) with 0xfffff000 in E.
  rewrite E. clear E Hm. subst m. unfold pattern32. change (Z.shiftl 1 32) with 4294967296.
  change (2 ^ (11 + 1)) with 4096. change 0x800 with 2048.
  destruct (Z.ltb_spec z 0).
  - replace ((4294967296 + z) mod 4096) with (z + 4096)
      by (Z.div_mod_to_equations; lia).
    destruct (Z.ltb_spec (z + 4096) 2048); lia.
  - rewrite Z.mod_small by lia. destruct (Z.ltb_spec z 2048); lia.
Qed.

(** X12.  The I format round trip: for [lw], [addi], [sltiu] and [jalr],
    register names of the table and a literal immediate that fits 32
    bits, [Switch_case] appends one line and changes nothing else; the
    loader reads it as a word with the opcode and funct3 of the mnemonic
    and the indices of the two registers; its immediate field holds the
    low 12 bits of the immediate, whatever its size; and [imm_i] gives the
    32-bit pattern of the immediate when it is from -2048 to 2047. *)
Theorem i_format_roundtrip data i mn ops f3s op f3 rd rs1 tok nd n1 z e :
  data !! 0%nat = Some mn -> data !! 1%nat = Some rd ->
  data !! i_base mn = Some rs1 -> data !! i_imm mn = Some tok ->
  i_functs mn = Some (ops, f3s, op, f3) ->
  Asm.reg_index rd = Some nd -> Asm.reg_index rs1 = Some n1 ->
  Py.int 10 tok = Some z -> -2147483648 <= z <= 2147483647 ->
  exists line w,
    Asm.Switch_case mn data i e =
      (Asm.Env (Asm.stdout e) (Asm.output e ++ [line]) (Asm.check e)
               (Asm.label_dict e), Asm.Ok tt) /\
    Py.len (Py.strip line) = 32 /\
    Py.int 2 (Py.strip line) = Some w /\
    Sim.opcode_of w = op /\ Sim.rd_of w = nd /\ Sim.funct3_of w = f3 /\
    Sim.rs1_of w = n1 /\
    Z.land (Z.shiftr w 20) 0xfff = pattern32 z mod 4096 /\
    (-2048 <= z <= 2047 -> Sim.imm_i w = pattern32 z).
Proof.
  intros H0 H1 H2 H3 Hf Hd Hr1 Hz Hr.
  pose proof (Switch_case_i data i mn ops f3s op f3 rd rs1 tok nd n1 z e
                H0 H1 H2 H3 Hf Hd Hr1 Hz Hr) as Hs.
  destruct (format_0b_5 nd (proj2 (reg_add_known _ _ e Hd))) as (Bd & Ld & Vd).
  destruct (format_0b_5 n1 (proj2 (reg_add_known _ _ e Hr1))) as (B1 & L1 & V1).
  destruct (binr_of tok z e Hz Hr) as (_ & Bb & Lb & Vb).
  destruct (binr_slices _ Bb Lb) as ((Bi & Li & Vi) & _).
  rewrite Vb in Vi.
  assert (F : is_binary f3s = true /\ String.length f3s = 3%nat /\ value f3s 0 = f3 /\
              is_binary ops = true /\ String.length ops = 7%nat /\ value ops 0 = op).
  { apply i_functs_cases in Hf. cbn [In] in Hf.
    repeat (destruct Hf as [Hf|Hf];
            [injection Hf as <- <- <- <- <-; repeat split|]).
    contradiction. }
  destruct F as (B3 & L3 & V3 & Bo & Lo & Vo).
  destruct (five_groups _ (Py.format_0b 5 n1) f3s (Py.format_0b 5 nd) ops
              Bi Li B1 L1 B3 L3 Bd Ld Bo Lo)
    as (Hlen & w & Hw & Eo & Ed & E3 & E1 & Ei).
  eexists _, w. split; [exact Hs|]. split; [exact Hlen|]. split; [exact Hw|].
  rewrite Eo, Ed, E3, E1, Vd, V1, V3, Vo. repeat split.
  - rewrite Ei. exact Vi.
  - intros Hz12. unfold Sim.imm_i. cbv zeta. rewrite Ei, Vi.
    apply (low12_extended z Hz12).
Qed.

Lemma i_format_roundtrip_witness :
  exists line w,
    Asm.Switch_case "lw" ["lw"; "a0"; "-8"; "sp"] 0 Asm.env0 =
      (Asm.Env (Asm.stdout Asm.env0) (Asm.output Asm.env0 ++ [line])
               (Asm.check Asm.env0) (Asm.label_dict Asm.env0), Asm.Ok tt) /\
    Py.len (Py.strip line) = 32 /\
    Py.int 2 (Py.strip line) = Some w /\
    Sim.opcode_of w = 3 /\ Sim.rd_of w = 10 /\ Sim.funct3_of w = 2 /\
    Sim.rs1_of w = 2 /\
    Z.land (Z.shiftr w 20) 0xfff = pattern32 (-8) mod 4096 /\
    (-2048 <= -8 <= 2047 -> Sim.imm_i w = pattern32 (-8)).
Proof.
  apply (i_format_roundtrip ["lw"; "a0"; "-8"; "sp"] 0 "lw" "0000011" "010" 3 2
           "a0" "sp" "-8" 10 2 (-8) Asm.env0); try reflexivity; lia.
Defined.

Lemma sw_body_ok data rs2 rs1 tok n2 n1 z e :
  data !! 1%nat = Some rs2 -> data !! 2%nat = Some tok -> data !! 3%nat = Some rs1 ->
  Asm.reg_index rs2 = Some n2 -> Asm.reg_index rs1 = Some n1 ->
  Py.int 10 tok = Some z -> -2147483648 <= z <= 2147483647 ->
  let binr := Py.format_0b 32 (pattern32 z) in
  Asm.sw_body data e =
    (e, Asm.Ok [Some "0100011"; Some (Py.slice binr (Some (-5)) None); Some "010";
                Some (Py.format_0b 5 n1); Some (Py.format_0b 5 n2);
                Some (Py.slice binr (Some (-12)) (Some (-5)))]).
Proof.
  intros H1 H2 H3 Hr2 Hr1 Hz Hr binr. unfold Asm.sw_body.
  rewrite (bind_ok _ _ _ _ _ (at_ok _ _ _ _ H2)).
  rewrite (bind_ok _ _ _ _ _ (proj1 (binr_of tok z e Hz Hr))).
  rewrite (bind_ok _ _ _ _ _ (at_ok _ _ _ _ H3)).
  rewrite (bind_ok _ _ _ _ _ (proj1 (reg_add_known _ _ e Hr1))).
  rewrite (bind_ok _ _ _ _ _ (at_ok _ _ _ _ H1)).
  rewrite (bind_ok _ _ _ _ _ (proj1 (reg_add_known _ _ e Hr2))).
  reflexivity.
Qed.

Lemma Switch_case_sw data i rs2 rs1 tok n2 n1 z e :
  data !! 0%nat = Some "sw" ->
  data !! 1%nat = Some rs2 -> data !! 2%nat = Some tok -> data !! 3%nat = Some rs1 ->
  Asm.reg_index rs2 = Some n2 -> Asm.reg_index rs1 = Some n1 ->
  Py.int 10 tok = Some z -> -2147483648 <= z <= 2147483647 ->
  let binr := Py.format_0b 32 (pattern32 z) in
  Asm.Switch_case "sw" data i e =
    (Asm.Env (Asm.stdout e)
       (Asm.output e ++
        [(Py.slice binr (Some (-12)) (Some (-5)) +:+ Py.format_0b 5 n2 +:+
          Py.format_0b 5 n1 +:+ "010" +:+ Py.slice binr (Some (-5)) None +:+
          "0100011") +:+ newline])
       (Asm.check e) (Asm.label_dict e), Asm.Ok tt).
Proof.
  intros H0 H1 H2 H3 Hr2 Hr1 Hz Hr binr.
  unfold Asm.Switch_case.
  change (Asm.get_format "sw" Asm.switch_dict) with (Some Asm.SType).
  cbn [Asm.run_format]. unfold Asm.s_type.
  apply (write_line _ _ _ e
           (block_hit _ "sw" _ [] _ _ _ _ H0 eq_refl
              (sw_body_ok data rs2 rs1 tok n2 n1 z e H1 H2 H3 Hr2 Hr1 Hz Hr))).
  cbn [rev app Asm.pop_all]. cbn [String.append]. rewrite !app_assoc_s. reflexivity.
Qed.

(** X13.  The S format round trip: for [sw rs2, imm(rs1)] with register
    names of the table and a literal immediate that fits 32 bits,
    [Switch_case] appends one line and changes nothing else; the loader
    reads it as a word with opcode 0x23, funct3 2 and the indices of the
    two registers; and [imm_s], as the store computes it, gives the 32-bit
    pattern of the immediate when it is from -2048 to 2047. *)
Theorem s_format_roundtrip data i rs2 rs1 tok n2 n1 z e :
  data !! 0%nat = Some "sw" ->
  data !! 1%nat = Some rs2 -> data !! 2%nat = Some tok -> data !! 3%nat = Some rs1 ->
  Asm.reg_index rs2 = Some n2 -> Asm.reg_index rs1 = Some n1 ->
  Py.int 10 tok = Some z -> -2147483648 <= z <= 2147483647 ->
  exists line w,
    Asm.Switch_case "sw" data i e =
      (Asm.Env (Asm.stdout e) (Asm.output e ++ [line]) (Asm.check e)
               (Asm.label_dict e), Asm.Ok tt) /\
    Py.len (Py.strip line) = 32 /\
    Py.int 2 (Py.strip line) = Some w /\
    Sim.opcode_of w = 0x23 /\ Sim.funct3_of w = 2 /\
    Sim.rs1_of w = n1 /\ Sim.rs2_of w = n2 /\
    (-2048 <= z <= 2047 -> Sim.imm_s w = pattern32 z).
Proof.
  intros H0 H1 H2 H3 Hr2 Hr1 Hz Hr.
  pose proof (Switch_case_sw data i rs2 rs1 tok n2 n1 z e
                H0 H1 H2 H3 Hr2 Hr1 Hz Hr) as Hs.
  destruct (format_0b_5 n2 (proj2 (reg_add_known _ _ e Hr2))) as (B2 & L2 & V2).
  destruct (format_0b_5 n1 (proj2 (reg_add_known _ _ e Hr1))) as (B1 & L1 & V1).
  destruct (binr_of tok z e Hz Hr) as (_ & Bb & Lb & Vb).
  destruct (binr_slices _ Bb Lb) as (_ & (B5 & L5 & V5) & (B7 & L7 & V7) & _).
  rewrite Vb in V5, V7.
  destruct (six_groups _ (Py.format_0b 5 n2) (Py.format_0b 5 n1) "010" _ "0100011"
              B7 L7 B2 L2 B1 L1 eq_refl eq_refl B5 L5 eq_refl eq_refl)
    as (Hlen & w & Hw & Eo & Ed & E3 & E1 & E2 & E7).
  eexists _, w. split; [exact Hs|]. split; [exact Hlen|]. split; [exact Hw|].
  rewrite Eo, E3, E1, E2, V1, V2. repeat split.
  intros Hz12. unfold Sim.imm_s. cbv zeta.
  fold (Sim.funct7_of w). fold (Sim.rd_of w). rewrite E7, Ed, V7, V5.
  rewrite lor_shiftl_add by (try apply Z.mod_pos_bound; lia).
  replace ((pattern32 z / 32) mod 128 * 2 ^ 5 + pattern32 z mod 32)
    with (pattern32 z mod 4096)
    by (change (2 ^ 5) with 32; Z.div_mod_to_equations; lia).
  apply (low12_extended z Hz12).
Qed.

Lemma s_format_roundtrip_witness :
  exists line w,
    Asm.Switch_case "sw" ["sw"; "a1"; "-4"; "sp"] 0 Asm.env0 =
      (Asm.Env (Asm.stdout Asm.env0) (Asm.output Asm.env0 ++ [line])
               (Asm.check Asm.env0) (Asm.label_dict Asm.env0), Asm.Ok tt) /\
    Py.len (Py.strip line) = 32 /\
    Py.int 2 (Py.strip line) = Some w /\
    Sim.opcode_of w = 0x23 /\ Sim.funct3_of w = 2 /\
    Sim.rs1_of w = 2 /\ Sim.rs2_of w = 11 /\
    (-2048 <= -4 <= 2047 -> Sim.imm_s w = pattern32 (-4)).
Proof.
  apply (s_format_roundtrip ["sw"; "a1"; "-4"; "sp"] 0 "a1" "sp" "-4" 11 2 (-4)
           Asm.env0); try reflexivity; lia.
Defined.

Lemma u_ops_cases mn ops op :
  u_ops mn = Some (ops, op) ->
  (mn = "lui" /\ ops = "0110111" /\ op = 0x37) \/
  (mn = "auipc" /\ ops = "0010111" /\ op = 0x17).
Proof.
  unfold u_ops.
  repeat (destruct (String.eqb mn _) eqn:E;
          [apply String.eqb_eq in E; subst mn; intros [= <- <-]; tauto | clear E]).
  discriminate.
Qed.

Lemma u_body_ok data opcode rd tok nd z e :
  data !! 1%nat = Some rd -> data !! 2%nat = Some tok ->
  Asm.reg_index rd = Some nd ->
  Py.int 10 tok = Some z -> -2147483648 <= z <= 2147483647 ->
  Asm.u_body data opcode e =
    (e, Asm.Ok [Some opcode; Some (Py.format_0b 5 nd);
                Some (Py.slice (Py.format_0b 32 (pattern32 z)) (Some (-32)) (Some (-12)))]).
Proof.
  intros H1 H2 Hd Hz Hr. unfold Asm.u_body.
  rewrite (bind_ok _ _ _ _ _ (at_ok _ _ _ _ H1)).
  rewrite (bind_ok _ _ _ _ _ (proj1 (reg_add_known _ _ e Hd))).
  rewrite (bind_ok _ _ _ _ _ (at_ok _ _ _ _ H2)).
  rewrite (bind_ok _ _ _ _ _ (proj1 (binr_of tok z e Hz Hr))).
  reflexivity.
Qed.

Lemma Switch_case_u data i mn ops op rd tok nd z e :
  data !! 0%nat = Some mn -> data !! 1%nat = Some rd -> data !! 2%nat = Some tok ->
  u_ops mn = Some (ops, op) -> Asm.reg_index rd = Some nd ->
  Py.int 10 tok = Some z -> -2147483648 <= z <= 2147483647 ->
  Asm.Switch_case mn data i e =
    (Asm.Env (Asm.stdout e)
       (Asm.output e ++
        [(Py.slice (Py.format_0b 32 (pattern32 z)) (Some (-32)) (Some (-12)) +:+
          Py.format_0b 5 nd +:+ ops) +:+ newline])
       (Asm.check e) (Asm.label_dict e), Asm.Ok tt).
Proof.
  intros H0 H1 H2 Hf Hd Hz Hr.
  assert (Hu : Asm.u_type data i e =
                 (e, Asm.Ok [Some ops; Some (Py.format_0b 5 nd);
                             Some (Py.slice (Py.format_0b 32 (pattern32 z))
                                     (Some (-32)) (Some (-12)))])).
  { unfold Asm.u_type.
    destruct (u_ops_cases _ _ _ Hf) as [(-> & -> & ->)|(-> & -> & ->)].
    all: erewrite bind_ok by run_block_with u_body_ok; cbn [app].
    all: (etransitivity; [run_block_with u_body_ok | reflexivity]). }
  unfold Asm.Switch_case.
  assert (Hg : Asm.get_format mn Asm.switch_dict = Some Asm.UType)
    by (destruct (u_ops_cases _ _ _ Hf) as [(-> & _)|(-> & _)]; reflexivity).
  rewrite Hg. cbn [Asm.run_format].
  apply (write_line _ _ _ e Hu).
  cbn [rev app Asm.pop_all]. cbn [String.append]. rewrite !app_assoc_s. reflexivity.
Qed.

(** X14.  [lui] and [auipc] are assembled but not executed: for a
    register name of the table and a literal operand that fits 32 bits,
    [Switch_case] appends one line and changes nothing else; the loader
    reads it as a word with the opcode of the mnemonic and the index of
    the register, whose upper 20 bits are the upper 20 bits of the 32-bit
    pattern of the operand; and [execute_instruction] fails on this word
    with the unknown-opcode message, in every state. *)
Theorem u_format_not_executed data i mn ops op rd tok nd z e :
  data !! 0%nat = Some mn -> data !! 1%nat = Some rd -> data !! 2%nat = Some tok ->
  u_ops mn = Some (ops, op) -> Asm.reg_index rd = Some nd ->
  Py.int 10 tok = Some z -> -2147483648 <= z <= 2147483647 ->
  exists line w,
    Asm.Switch_case mn data i e =
      (Asm.Env (Asm.stdout e) (Asm.output e ++ [line]) (Asm.check e)
               (Asm.label_dict e), Asm.Ok tt) /\
    Py.len (Py.strip line) = 32 /\
    Py.int 2 (Py.strip line) = Some w /\
    Sim.opcode_of w = op /\ Sim.rd_of w = nd /\
    Z.shiftr w 12 = pattern32 z / 4096 /\
    forall self,
      Sim.execute_instruction self w =
        Some (false, Sim.say (Sim.UnknownOpcode op (Sim.pc self)) self).
Proof.
  intros H0 H1 H2 Hf Hd Hz Hr.
  pose proof (Switch_case_u data i mn ops op rd tok nd z e H0 H1 H2 Hf Hd Hz Hr) as Hs.
  destruct (format_0b_5 nd (proj2 (reg_add_known _ _ e Hd))) as (Bd & Ld & Vd).
  destruct (binr_of tok z e Hz Hr) as (_ & Bb & Lb & Vb).
  destruct (binr_slices _ Bb Lb) as (_ & _ & _ & (Bt & Lt & Vt)).
  rewrite Vb in Vt.
  set (top := Py.slice (Py.format_0b 32 (pattern32 z)) (Some (-32)) (Some (-12))) in *.
  assert (F : is_binary ops = true /\ String.length ops = 7%nat /\ value ops 0 = op /\
              (op = 0x37 \/ op = 0x17)).
  { destruct (u_ops_cases _ _ _ Hf) as [(_ & -> & ->)|(_ & -> & ->)];
      repeat split; auto. }
  destruct F as (Bo & Lo & Vo & Hop).
  set (line := top +:+ Py.format_0b 5 nd +:+ ops) in *.
  assert (Hb : is_binary line = true).
  { subst line. rewrite !is_binary_app, Bt, Bd, Bo. reflexivity. }
  assert (Hl : String.length line = 32%nat).
  { subst line. rewrite !length_app, Lt, Ld, Lo. reflexivity. }
  pose proof (proj2 (reg_add_known _ _ e Hd)) as Rd.
  pose proof (pattern32_range z Hr) as Rz. change (2 ^ Z.of_nat 32) with 4294967296 in Rz.
  assert (Hw : value line 0 = (pattern32 z / 4096 * 2 ^ 5 + nd) * 2 ^ 7 + op).
  { subst line. rewrite !value_app_pow, !length_app, Ld, Lo, Vt, Vd, Vo.
    cbn [Nat.add Z.of_nat Pos.of_succ_nat Pos.succ]. pow2_consts. lia. }
  assert (Eo : Sim.opcode_of (value line 0) = op).
  { rewrite Hw. unfold Sim.opcode_of. to_div_mod.
    destruct Hop as [-> | ->]; Z.div_mod_to_equations; lia. }
  exists (line +:+ newline), (value line 0).
  split; [exact Hs|]. rewrite (strip_line line Hb).
  split; [unfold Py.len; rewrite Hl; reflexivity|].
  split.
  { apply int_binary; [exact Hb|]. intros E. rewrite E in Hl. discriminate. }
  split; [exact Eo|]. split; [|split].
  - rewrite Hw. unfold Sim.rd_of. to_div_mod.
    destruct Hop as [-> | ->]; Z.div_mod_to_equations; lia.
  - rewrite Hw, Z.shiftr_div_pow2 by lia. pow2_consts.
    destruct Hop as [-> | ->]; Z.div_mod_to_equations; lia.
  - intros self. unfold Sim.execute_instruction. cbv zeta. rewrite Eo.
    destruct Hop as [-> | ->]; reflexivity.
Qed.

Lemma u_format_not_executed_witness :
  exists line w,
    Asm.Switch_case "lui" ["lui"; "a0"; "74565"] 0 Asm.env0 =
      (Asm.Env (Asm.stdout Asm.env0) (Asm.output Asm.env0 ++ [line])
               (Asm.check Asm.env0) (Asm.label_dict Asm.env0), Asm.Ok tt) /\
    Py.len (Py.strip line) = 32 /\
    Py.int 2 (Py.strip line) = Some w /\
    Sim.opcode_of w = 0x37 /\ Sim.rd_of w = 10 /\
    Z.shiftr w 12 = pattern32 74565 / 4096 /\
    forall self,
      Sim.execute_instruction self w =
        Some (false, Sim.say (Sim.UnknownOpcode 0x37 (Sim.pc self)) self).
Proof.
  apply (u_format_not_executed ["lui"; "a0"; "74565"] 0 "lui" "0110111" 0x37
           "a0" "74565" 10 74565 Asm.env0); try reflexivity; lia.
Defined.

Lemma get_substring (n : nat) : forall (s : string) c,
  String.get n s = Some c -> substring n 1 s = String c EmptyString.
Proof.
  induction n as [|n IH]; intros [|d s] c H; try discriminate.
  - cbn in H. injection H as <-. cbn. destruct s; reflexivity.
  - cbn in H. cbn [substring]. apply IH. exact H.
Qed.

Lemma ch_substring s i :
  0 <= i < Py.len s -> ch s i = substring (Z.to_nat i) 1 s.
Proof.
  intros Hi. unfold ch, Py.item. cbv zeta.
  destruct (Z.ltb_spec i 0); [lia|].
  replace ((0 <=? i) && (i <? Py.len s)) with true
    by (symmetry; apply andb_true_iff; split; [apply Z.leb_le|apply Z.ltb_lt]; lia).
  destruct (get_some s (Z.to_nat i) ltac:(unfold Py.len in Hi; lia)) as [c Hc].
  rewrite Hc. symmetry. apply get_substring. exact Hc.
Qed.

Lemma lor_add_multiple x y k :
  0 <= k -> x mod 2 ^ k = 0 -> 0 <= y < 2 ^ k -> Z.lor x y = x + y.
Proof.
  intros Hk Hx Hy.
  assert (0 < 2 ^ k) by (apply Z.pow_pos_nonneg; lia).
  assert (E : x = Z.shiftl (x / 2 ^ k) k).
  { rewrite Z.shiftl_mul_pow2 by lia. Z.div_mod_to_equations. lia. }
  rewrite E at 1. rewrite lor_shiftl_add by lia.
  Z.div_mod_to_equations. lia.
Qed.

(** The 20 digits the J format writes for 21 digits of value [V], and
    what [imm_j] makes of a word that has them on top. *)
Lemma j_encoded_value imm_21 :
  is_binary imm_21 = true -> String.length imm_21 = 21%nat ->
  let V := value imm_21 0 in
  let enc := j_encoded imm_21 in
  is_binary enc = true /\ String.length enc = 20%nat /\
  value enc 0 =
    (((V / 1048576) mod 2 * 2 ^ 10 + (V / 2) mod 1024) * 2 + (V / 2048) mod 2) * 2 ^ 8 +
    (V / 4096) mod 256.
Proof.
  intros Hb Hl V enc. subst enc. unfold j_encoded.
  rewrite !ch_substring by (unfold Py.len; lia).
  replace (Py.slice imm_21 (Some 10) (Some 20)) with (substring 10 10 imm_21)
    by (unfold Py.slice, Py.len; rewrite Hl; reflexivity).
  replace (Py.slice imm_21 (Some 1) (Some 9)) with (substring 1 8 imm_21)
    by (unfold Py.slice, Py.len; rewrite Hl; reflexivity).
  change (Z.to_nat 0) with 0%nat. change (Z.to_nat 9) with 9%nat.
  pose proof (substring_value 0 1 imm_21 Hb ltac:(lia)) as (B1 & L1 & V1).
  pose proof (substring_value 10 10 imm_21 Hb ltac:(lia)) as (B2 & L2 & V2).
  pose proof (substring_value 9 1 imm_21 Hb ltac:(lia)) as (B3 & L3 & V3).
  pose proof (substring_value 1 8 imm_21 Hb ltac:(lia)) as (B4 & L4 & V4).
  rewrite Hl in V1, V2, V3, V4. fold V in V1, V2, V3, V4.
  cbn [Nat.sub Z.of_nat Pos.of_succ_nat Pos.succ] in V1, V2, V3, V4.
  change (2 ^ 20) with 1048576 in *. change (2 ^ 1) with 2 in *.
  change (2 ^ 10) with 1024 in *. change (2 ^ 11) with 2048 in *.
  change (2 ^ 12) with 4096 in *. change (2 ^ 8) with 256 in *.
  split; [rewrite !is_binary_app, B1, B2, B3, B4; reflexivity|].
  split; [rewrite !length_app, L1, L2, L3, L4; reflexivity|].
  rewrite !value_app_pow, !length_app, L2, L3, L4, V1, V2, V3, V4.
  cbn [Nat.add Z.of_nat Pos.of_succ_nat Pos.succ]. pow2_consts. lia.
Qed.

Lemma lor_j_fields a b c d :
  0 <= a < 2 -> 0 <= b < 256 -> 0 <= c < 2 -> 0 <= d < 1024 ->
  Z.lor (Z.lor (Z.lor (a * 1048576) (b * 4096)) (c * 2048)) (d * 2) =
  a * 1048576 + b * 4096 + c * 2048 + d * 2.
Proof.
  intros Ha Hb Hc Hd.
  rewrite (lor_add_multiple (a * 1048576) (b * 4096) 20);
    [|lia|change (2 ^ 20) with 1048576; apply Z.mod_mul; lia
     |change (2 ^ 20) with 1048576; lia].
  rewrite (lor_add_multiple _ (c * 2048) 12);
    [|lia|change (2 ^ 12) with 4096|change (2 ^ 12) with 4096; lia].
  2: { replace (a * 1048576 + b * 4096) with ((a * 256 + b) * 4096) by ring.
       apply Z.mod_mul. lia. }
  rewrite (lor_add_multiple _ (d * 2) 11);
    [|lia|change (2 ^ 11) with 2048|change (2 ^ 11) with 2048; lia].
  2: { replace (a * 1048576 + b * 4096 + c * 2048)
         with ((a * 512 + b * 2 + c) * 2048) by ring.
       apply Z.mod_mul. lia. }
  reflexivity.
Qed.

(** [imm_j] of a word whose upper 20 bits are the regrouped digits of
    [V], for [V] of 21 bits. *)
Lemma imm_j_regrouped V rd op :
  0 <= V < 2097152 -> 0 <= rd < 32 -> 0 <= op < 128 ->
  let enc :=
    (((V / 1048576) mod 2 * 2 ^ 10 + (V / 2) mod 1024) * 2 + (V / 2048) mod 2) * 2 ^ 8 +
    (V / 4096) mod 256 in
  let w := (enc * 2 ^ 5 + rd) * 2 ^ 7 + op in
  Sim.opcode_of w = op /\ Sim.rd_of w = rd /\
  Sim.imm_j w = if V <? 1048576 then V - V mod 2 else V - V mod 2 + 4292870144.
Proof.
  intros HV Hrd Hop enc w.
  assert (F : (w / 2147483648) mod 2 = (V / 1048576) mod 2 /\
              (w / 4096) mod 256 = (V / 4096) mod 256 /\
              (w / 1048576) mod 2 = (V / 2048) mod 2 /\
              (w / 2097152) mod 1024 = (V / 2) mod 1024).
  { subst w enc. pow2_consts.
    pose proof (Z.mod_pos_bound (V / 1048576) 2 ltac:(lia)).
    pose proof (Z.mod_pos_bound (V / 2) 1024 ltac:(lia)).
    pose proof (Z.mod_pos_bound (V / 2048) 2 ltac:(lia)).
    pose proof (Z.mod_pos_bound (V / 4096) 256 ltac:(lia)).
    generalize dependent ((V / 1048576) mod 2). intros a Ha.
    generalize dependent ((V / 2) mod 1024). intros b Hb.
    generalize dependent ((V / 2048) mod 2). intros c Hc.
    generalize dependent ((V / 4096) mod 256). intros d Hd.
    repeat split; Z.div_mod_to_equations; lia. }
  destruct F as (F20 & F19 & F11 & F10).
  assert (G : Sim.opcode_of w = op /\ Sim.rd_of w = rd).
  { unfold Sim.opcode_of, Sim.rd_of. to_div_mod. subst w. pow2_consts.
    generalize dependent enc. intros enc _ _ _ _.
    split; Z.div_mod_to_equations; lia. }
  split; [apply G|]. split; [apply G|].
  unfold Sim.imm_j. cbv zeta.
  { change 0xff with (Z.ones 8). change 0x3ff with (Z.ones 10).
    rewrite land_1, !Z.land_ones, !Z.shiftr_div_pow2, !Z.shiftl_mul_pow2 by lia.
    pow2_consts. rewrite land_1, F20, F19, F11, F10.
    assert (E : Z.lor (Z.lor (Z.lor ((V / 1048576) mod 2 * 1048576)
                                    ((V / 4096) mod 256 * 4096))
                             ((V / 2048) mod 2 * 2048))
                      ((V / 2) mod 1024 * 2) = V - V mod 2).
    { rewrite lor_j_fields by (apply Z.mod_pos_bound; lia).
      clear F20 F19 F11 F10 G. Z.div_mod_to_equations. lia. }
    rewrite E.
    pose proof (sign_extend 20 (V - V mod 2) 2047 ltac:(lia)
                  ltac:(pow2_consts; Z.div_mod_to_equations; lia)) as S.
    change (2 ^ 20) with 0x100000 in S.
    change (Z.shiftl 2047 (20 + 1)) with 0xffe00000 in S.
    rewrite S. change (2 ^ (20 + 1)) with 2097152. change 0x100000 with 1048576.
    destruct (Z.ltb_spec (V - V mod 2) 1048576); destruct (Z.ltb_spec V 1048576);
      try reflexivity; Z.div_mod_to_equations; lia. }
Qed.

(** The word the loader reads from a line of the J format. *)
Lemma j_line_decode n off :
  0 <= n < 32 -> -1048576 <= off <= 1048575 ->
  let line := j_line n off in
  is_binary line = true /\ String.length line = 32%nat /\
  Sim.opcode_of (value line 0) = 0x6f /\ Sim.rd_of (value line 0) = n /\
  Sim.imm_j (value line 0) = pattern32 (off - off mod 2).
Proof.
  intros Rn Hoff line.
  destruct (format_0b_5 n Rn) as (Bn & Ln & Vn).
  set (V := if off <? 0 then Z.shiftl 1 21 + off else off).
  assert (HV : 0 <= V < 2 ^ Z.of_nat 21).
  { subst V. change (Z.shiftl 1 21) with 2097152. change (2 ^ Z.of_nat 21) with 2097152.
    destruct (Z.ltb_spec off 0); lia. }
  assert (Hi : j_imm_21 off = Py.format_0b 21 V)
    by (unfold j_imm_21; subst V; destruct (off <? 0); reflexivity).
  destruct (format_0b_spec V 21 HV ltac:(lia)) as (Bi & Li & Vi).
  cbv zeta in Bi, Li, Vi. change (Z.of_nat 21) with 21 in Bi, Li, Vi.
  rewrite <- Hi in Bi, Li, Vi.
  destruct (j_encoded_value _ Bi Li) as (Be & Le & Ve). rewrite Vi in Ve.
  change (2 ^ Z.of_nat 21) with 2097152 in HV.
  destruct (imm_j_regrouped V n 0x6f HV Rn ltac:(lia)) as (Eo & Ed & Ej).
  assert (Hb : is_binary line = true).
  { subst line. unfold j_line. rewrite !is_binary_app, Be, Bn. reflexivity. }
  assert (Hl : String.length line = 32%nat).
  { subst line. unfold j_line. rewrite !length_app, Le, Ln. reflexivity. }
  assert (Hw : value line 0 =
    (value (j_encoded (j_imm_21 off)) 0 * 2 ^ 5 + n) * 2 ^ 7 + 0x6f).
  { subst line. unfold j_line. rewrite !value_app_pow, !length_app, Ln, Vn.
    cbn [String.length Nat.add Z.of_nat Pos.of_succ_nat Pos.succ]. pow2_consts.
    change (value "1101111" 0) with 111. lia. }
  split; [exact Hb|]. split; [exact Hl|].
  rewrite Hw, Ve. split; [exact Eo|]. split; [exact Ed|].
  rewrite Ej. subst V. unfold pattern32.
  change (Z.shiftl 1 21) with 2097152. change (Z.shiftl 1 32) with 4294967296.
  destruct (Z.ltb_spec off 0).
  - destruct (Z.ltb_spec (2097152 + off) 1048576); [lia|].
    destruct (Z.ltb_spec (off - off mod 2) 0);
      Z.div_mod_to_equations; lia.
  - destruct (Z.ltb_spec off 1048576); [|lia].
    destruct (Z.ltb_spec (off - off mod 2) 0);
      Z.div_mod_to_equations; lia.
Qed.

(** X15.  The J format round trip: for [jal] with a register name of the
    table and an operand, literal or label, whose value is from [-2^20]
    to [2^20 - 1], [Switch_case] appends one line and changes nothing
    else; the loader reads it as a word with opcode 0x6f and the index of
    the register; and [imm_j] gives the 32-bit pattern of the value
    without its lowest bit. *)
Theorem j_format_roundtrip data i r tok n off e :
  data !! 0%nat = Some "jal" -> data !! 1%nat = Some r -> data !! 2%nat = Some tok ->
  Asm.reg_index r = Some n -> resolves tok i (Asm.label_dict e) off ->
  -1048576 <= off <= 1048575 ->
  exists line w,
    Asm.Switch_case "jal" data i e =
      (Asm.Env (Asm.stdout e) (Asm.output e ++ [line]) (Asm.check e)
               (Asm.label_dict e), Asm.Ok tt) /\
    Py.len (Py.strip line) = 32 /\
    Py.int 2 (Py.strip line) = Some w /\
    Sim.opcode_of w = 0x6f /\ Sim.rd_of w = n /\
    Sim.imm_j w = pattern32 (off - off mod 2).
Proof.
  intros H0 H1 H2 Hr Ht Hoff.
  pose proof (Switch_case_j data i r tok n off e H0 H1 H2 Hr Ht) as Hs.
  destruct (j_line_decode n off (proj2 (reg_add_known _ _ e Hr)) Hoff)
    as (Hb & Hl & Eo & Ed & Ej).
  exists (j_line n off +:+ newline), (value (j_line n off) 0).
  split; [exact Hs|]. rewrite (strip_line _ Hb).
  split; [unfold Py.len; rewrite Hl; reflexivity|].
  split; [|auto].
  apply int_binary; [exact Hb|]. intros E. rewrite E in Hl. discriminate.
Qed.

Lemma j_format_roundtrip_witness :
  exists line w,
    Asm.Switch_case "jal" ["jal"; "ra"; "loop"] 4 loop_labels =
      (Asm.Env (Asm.stdout loop_labels) (Asm.output loop_labels ++ [line])
               (Asm.check loop_labels) (Asm.label_dict loop_labels), Asm.Ok tt) /\
    Py.len (Py.strip line) = 32 /\
    Py.int 2 (Py.strip line) = Some w /\
    Sim.opcode_of w = 0x6f /\ Sim.rd_of w = 1 /\
    Sim.imm_j w = pattern32 (-12 - (-12) mod 2).
Proof.
  apply (j_format_roundtrip ["jal"; "ra"; "loop"] 4 "ra" "loop" 1 (-12) loop_labels);
    try reflexivity; try lia.
  right. split; [reflexivity|]. exists 1. split; reflexivity.
Defined.

(** X19.  [addi] from source to result: the line the assembler writes
    for [addi rd, rs1, z], with [z] from -2048 to 2047, is a word that
    [execute_instruction] accepts in any state with 32 registers; it
    leaves [(a + z) mod 2^32] in [rd], where [a] is the content of [rs1],
    then clears register 0 and moves to the next word. *)
Theorem addi_assembled_adds data i rd rs1 tok nd n1 z e self a :
  data !! 0%nat = Some "addi" -> data !! 1%nat = Some rd ->
  data !! 2%nat = Some rs1 -> data !! 3%nat = Some tok ->
  Asm.reg_index rd = Some nd -> Asm.reg_index rs1 = Some n1 ->
  Py.int 10 tok = Some z -> -2048 <= z <= 2047 ->
  length (Sim.registers self) = 32%nat ->
  Sim.registers self !! Z.to_nat n1 = Some a ->
  exists line w self',
    Asm.Switch_case "addi" data i e =
      (Asm.Env (Asm.stdout e) (Asm.output e ++ [line]) (Asm.check e)
               (Asm.label_dict e), Asm.Ok tt) /\
    Py.int 2 (Py.strip line) = Some w /\
    Sim.execute_instruction self w = Some (true, self') /\
    Sim.registers self' =
      <[0%nat := 0]> (<[Z.to_nat nd := (a + z) mod 2 ^ 32]> (Sim.registers self)) /\
    Sim.pc self' = Sim.pc self + 1 /\ Sim.memory self' = Sim.memory self.
Proof.
  intros H0 H1 H2 H3 Hd Hr1 Hz Hz12 Hlen Ha.
  assert (Hr : -2147483648 <= z <= 2147483647) by lia.
  pose proof (Switch_case_i data i "addi" "0010011" "000" 0x13 0 rd rs1 tok nd n1 z e
                H0 H1 H2 H3 eq_refl Hd Hr1 Hz Hr) as Hs.
  pose proof (proj2 (reg_add_known _ _ e Hd)) as Rd.
  pose proof (proj2 (reg_add_known _ _ e Hr1)) as R1.
  destruct (format_0b_5 nd Rd) as (Bd & Ld & Vd).
  destruct (format_0b_5 n1 R1) as (B1 & L1 & V1).
  destruct (binr_of tok z e Hz Hr) as (_ & Bb & Lb & Vb).
  destruct (binr_slices _ Bb Lb) as ((Bi & Li & Vi) & _).
  rewrite Vb in Vi.
  destruct (five_groups _ (Py.format_0b 5 n1) "000" (Py.format_0b 5 nd) "0010011"
              Bi Li B1 L1 eq_refl eq_refl Bd Ld eq_refl eq_refl)
    as (_ & w & Hw & Eo & Ed & E3 & E1 & Ei).
  rewrite Vd in Ed. rewrite V1 in E1.
  change (value "0010011" 0) with 0x13 in Eo. change (value "000" 0) with 0 in E3.
  assert (Him : Sim.imm_i w = pattern32 z).
  { unfold Sim.imm_i. cbv zeta. rewrite Ei, Vi. apply (low12_extended z Hz12). }
  eexists _, w, _. split; [exact Hs|]. split; [exact Hw|].
  unfold Sim.execute_instruction. cbv zeta. rewrite Eo, E3, E1, Ed, Him.
  cbn [Z.eqb Pos.eqb].
  rewrite getitem_ok by lia. rewrite Ha. cbn [mbind option_bind].
  unfold Sim.write_reg, Sim.next, Sim.finish, Sim.write_reg.
  rewrite setitem_ok by lia. cbn [mbind option_bind].
  cbn [Sim.registers Sim.set_registers Sim.set_pc].
  rewrite setitem_ok by (rewrite length_insert; lia). cbn [mbind option_bind].
  split; [reflexivity|]. cbn. repeat split.
  do 2 f_equal. rewrite land_ffffffff. change (2 ^ 32) with 4294967296.
  unfold pattern32. change (Z.shiftl 1 32) with 4294967296.
  destruct (z <? 0); [|reflexivity].
  replace (a + (4294967296 + z)) with (a + z + 1 * 4294967296) by ring.
  apply Z.mod_add. lia.
Qed.

Lemma addi_assembled_adds_witness :
  exists line w self',
    Asm.Switch_case "addi" ["addi"; "a0"; "zero"; "-3"] 0 Asm.env0 =
      (Asm.Env (Asm.stdout Asm.env0) (Asm.output Asm.env0 ++ [line])
               (Asm.check Asm.env0) (Asm.label_dict Asm.env0), Asm.Ok tt) /\
    Py.int 2 (Py.strip line) = Some w /\
    Sim.execute_instruction Sim.init w = Some (true, self') /\
    Sim.registers self' =
      <[0%nat := 0]> (<[Z.to_nat 10 := (0 + -3) mod 2 ^ 32]> (Sim.registers Sim.init)) /\
    Sim.pc self' = Sim.pc Sim.init + 1 /\ Sim.memory self' = Sim.memory Sim.init.
Proof.
  apply (addi_assembled_adds ["addi"; "a0"; "zero"; "-3"] 0 "a0" "zero" "-3" 10 0 (-3)
           Asm.env0 Sim.init 0); try reflexivity; lia.
Defined.

(** X20.  [jal] to a label, from source to result: when the table holds
    index [L] for the label and the line is line [i], the word written
    makes [execute_instruction] store [pc + 1] in [rd] and add [L - i] to
    the program counter when the label is not before the line; for a
    label before the line it adds [L - i + 2^30], because the decoded
    offset is never negative. *)
Theorem jal_label_target data i r tok n L e self :
  data !! 0%nat = Some "jal" -> data !! 1%nat = Some r -> data !! 2%nat = Some tok ->
  Asm.reg_index r = Some n ->
  Py.int 10 tok = None -> Asm.label_dict e !! tok = Some L ->
  -262144 <= L - i <= 262143 ->
  length (Sim.registers self) = 32%nat ->
  exists line w self',
    Asm.Switch_case "jal" data i e =
      (Asm.Env (Asm.stdout e) (Asm.output e ++ [line]) (Asm.check e)
               (Asm.label_dict e), Asm.Ok tt) /\
    Py.int 2 (Py.strip line) = Some w /\
    Sim.execute_instruction self w = Some (true, self') /\
    Sim.registers self' =
      <[0%nat := 0]> (<[Z.to_nat n := Sim.pc self + 1]> (Sim.registers self)) /\
    Sim.pc self' =
      Sim.pc self + (if i <=? L then L - i else L - i + 2 ^ 30).
Proof.
  intros H0 H1 H2 Hr Hnl HL Hd Hlen.
  set (off := (L - i) * 4).
  assert (Ht : resolves tok i (Asm.label_dict e) off)
    by (right; split; [exact Hnl|]; exists L; split; [exact HL|reflexivity]).
  pose proof (Switch_case_j data i r tok n off e H0 H1 H2 Hr Ht) as Hs.
  pose proof (proj2 (reg_add_known _ _ e Hr)) as Rn.
  destruct (j_line_decode n off Rn ltac:(subst off; lia)) as (Hb & Hl & Eo & Ed & Ej).
  exists (j_line n off +:+ newline), (value (j_line n off) 0). eexists.
  split; [exact Hs|]. rewrite (strip_line _ Hb).
  split.
  { apply int_binary; [exact Hb|]. intros E. rewrite E in Hl. discriminate. }
  unfold Sim.execute_instruction. cbv zeta. rewrite Eo, Ed.
  cbn [Z.eqb Pos.eqb].
  unfold Sim.write_reg, Sim.finish, Sim.write_reg.
  rewrite setitem_ok by lia. cbn [mbind option_bind].
  cbn [Sim.registers Sim.set_registers Sim.set_pc Sim.pc].
  rewrite setitem_ok by (rewrite length_insert; lia). cbn [mbind option_bind].
  split; [reflexivity|]. cbn. split; [reflexivity|].
  f_equal. rewrite Ej. subst off. unfold pattern32.
  change (Z.shiftl 1 32) with 4294967296. change (2 ^ 30) with 1073741824.
  replace ((L - i) * 4 - ((L - i) * 4) mod 2) with ((L - i) * 4)
    by (Z.div_mod_to_equations; lia).
  destruct (Z.leb_spec i L); destruct (Z.ltb_spec ((L - i) * 4) 0); try lia;
    Z.div_mod_to_equations; lia.
Qed.

Lemma jal_label_target_witness :
  exists line w self',
    Asm.Switch_case "jal" ["jal"; "ra"; "loop"] 0 loop_labels =
      (Asm.Env (Asm.stdout loop_labels) (Asm.output loop_labels ++ [line])
               (Asm.check loop_labels) (Asm.label_dict loop_labels), Asm.Ok tt) /\
    Py.int 2 (Py.strip line) = Some w /\
    Sim.execute_instruction Sim.init w = Some (true, self') /\
    Sim.registers self' =
      <[0%nat := 0]> (<[Z.to_nat 1 := Sim.pc Sim.init + 1]> (Sim.registers Sim.init)) /\
    Sim.pc self' = Sim.pc Sim.init + (if 0 <=? 1 then 1 - 0 else 1 - 0 + 2 ^ 30).
Proof.
  apply (jal_label_target ["jal"; "ra"; "loop"] 0 "ra" "loop" 1 1 loop_labels Sim.init);
    try reflexivity; lia.
Defined.

(** X21.  Which register instructions run: the word the assembler
    writes for [add], [sub], [slt], [srl], [or] and [and] executes in any
    state with 32 registers and moves to the next word; the word it
    writes for [sll], [sltu] and [xor] makes [execute_instruction] fail
    with the unknown-funct3 message and change nothing else. *)
Theorem r_format_executed data i mn f3s f7s f3 f7 rd rs1 rs2 nd n1 n2 e self :
  data !! 0%nat = Some mn ->
  data !! 1%nat = Some rd -> data !! 2%nat = Some rs1 -> data !! 3%nat = Some rs2 ->
  r_functs mn = Some (f3s, f7s, f3, f7) ->
  Asm.reg_index rd = Some nd -> Asm.reg_index rs1 = Some n1 ->
  Asm.reg_index rs2 = Some n2 ->
  length (Sim.registers self) = 32%nat ->
  exists line w,
    Asm.Switch_case mn data i e =
      (Asm.Env (Asm.stdout e) (Asm.output e ++ [line]) (Asm.check e)
               (Asm.label_dict e), Asm.Ok tt) /\
    Py.int 2 (Py.strip line) = Some w /\
    if (f3 =? 1) || (f3 =? 3) || (f3 =? 4) then
      Sim.execute_instruction self w =
        Some (false, Sim.say (Sim.UnknownRFunct3 f3 (Sim.pc self)) self)
    else
      exists self',
        Sim.execute_instruction self w = Some (true, self') /\
        Sim.pc self' = Sim.pc self + 1 /\ Sim.memory self' = Sim.memory self.
Proof.
  intros H0 H1 H2 H3 Hf Hd Hr1 Hr2 Hlen.
  pose proof (Switch_case_r data i mn f3s f7s f3 f7 rd rs1 rs2 nd n1 n2 e
                H0 H1 H2 H3 Hf Hd Hr1 Hr2) as Hs.
  pose proof (proj2 (reg_add_known _ _ e Hd)) as Rd.
  pose proof (proj2 (reg_add_known _ _ e Hr1)) as R1.
  pose proof (proj2 (reg_add_known _ _ e Hr2)) as R2.
  destruct (format_0b_5 nd Rd) as (Bd & Ld & Vd).
  destruct (format_0b_5 n1 R1) as (B1 & L1 & V1).
  destruct (format_0b_5 n2 R2) as (B2 & L2 & V2).
  assert (F : is_binary f3s = true /\ String.length f3s = 3%nat /\ value f3s 0 = f3 /\
              is_binary f7s = true /\ String.length f7s = 7%nat /\ value f7s 0 = f7).
  { apply r_functs_cases in Hf. cbn [In] in Hf.
    repeat (destruct Hf as [Hf|Hf];
            [injection Hf as <- <- <- <- <-; repeat split|]).
    contradiction. }
  destruct F as (B3 & L3 & V3 & B7 & L7 & V7).
  destruct (six_groups f7s (Py.format_0b 5 n2) (Py.format_0b 5 n1) f3s
              (Py.format_0b 5 nd) "0110011" B7 L7 B2 L2 B1 L1 B3 L3 Bd Ld
              eq_refl eq_refl)
    as (_ & w & Hw & Eo & Ed & E3 & E1 & E2 & E7).
  rewrite Vd in Ed. rewrite V1 in E1. rewrite V2 in E2. rewrite V3 in E3.
  rewrite V7 in E7. change (value "0110011" 0) with 0x33 in Eo.
  eexists _, w. split; [exact Hs|]. split; [exact Hw|].
  destruct (lookup_ok (Sim.registers self) (Z.to_nat n1) ltac:(lia)) as [a Ha].
  destruct (lookup_ok (Sim.registers self) (Z.to_nat n2) ltac:(lia)) as [b Hb].
  unfold Sim.execute_instruction. cbv zeta. rewrite Eo, E3, E7, E1, E2, Ed.
  rewrite !getitem_ok by lia. rewrite Ha, Hb.
  apply r_functs_cases in Hf. cbn [In] in Hf.
  repeat (destruct Hf as [Hf|Hf]; [injection Hf as <- <- <- <- <-|]); [..|contradiction].
  all: cbn [Z.eqb Pos.eqb orb mbind option_bind]; try reflexivity.
  all: unfold Sim.write_reg, Sim.next, Sim.finish, Sim.write_reg.
  all: rewrite setitem_ok by lia; cbn [mbind option_bind].
  all: cbn [Sim.registers Sim.set_registers Sim.set_pc].
  all: rewrite setitem_ok by (rewrite length_insert; lia); cbn [mbind option_bind].
  all: eexists; split; [reflexivity|]; split; reflexivity.
Qed.

Lemma r_format_executed_witness :
  exists line w,
    Asm.Switch_case "xor" ["xor"; "a0"; "a1"; "a2"] 0 Asm.env0 =
      (Asm.Env (Asm.stdout Asm.env0) (Asm.output Asm.env0 ++ [line])
               (Asm.check Asm.env0) (Asm.label_dict Asm.env0), Asm.Ok tt) /\
    Py.int 2 (Py.strip line) = Some w /\
    if (4 =? 1) || (4 =? 3) || (4 =? 4) then
      Sim.execute_instruction Sim.init w =
        Some (false, Sim.say (Sim.UnknownRFunct3 4 (Sim.pc Sim.init)) Sim.init)
    else
      exists self',
        Sim.execute_instruction Sim.init w = Some (true, self') /\
        Sim.pc self' = Sim.pc Sim.init + 1 /\ Sim.memory self' = Sim.memory Sim.init.
Proof.
  apply (r_format_executed ["xor"; "a0"; "a1"; "a2"] 0 "xor" "100" "0000000" 4 0
           "a0" "a1" "a2" 10 11 12 Asm.env0 Sim.init); reflexivity.
Defined.

(** ** The assembler: unknown mnemonics, the register table and the tokens *)

(** X16.  A mnemonic that [switch_dict] does not hold is not fatal: the
    assembler prints [error:] with the first token, appends an empty line
    to the output file and goes on; and the loader skips such a line
    without counting a word for it. *)
Theorem unknown_mnemonic_blank_line case_value data d0 i e :
  Asm.get_format case_value Asm.switch_dict = None ->
  data !! 0%nat = Some d0 ->
  Asm.Switch_case case_value data i e =
    (Asm.Env (Asm.stdout e ++ [Asm.Print ("error:  " +:+ d0)])
             (Asm.output e ++ [newline]) (Asm.check e) (Asm.label_dict e),
     Asm.Ok tt) /\
  forall self rest lineno k,
    Sim.load_lines self (newline :: rest) lineno k =
    Sim.load_lines self rest (lineno + 1) k.
Proof.
  intros Hg H0. split; [|reflexivity].
  unfold Asm.Switch_case, Asm.default_case. rewrite Hg.
  rewrite (bind_assoc (Asm.at_ data 0)).
  rewrite (bind_ok _ _ _ _ _ (at_ok _ _ _ _ H0)).
  reflexivity.
Qed.

Lemma unknown_mnemonic_blank_line_witness :
  Asm.Switch_case "mul" ["mul"; "a0"; "a1"; "a2"] 0 Asm.env0 =
    (Asm.Env (Asm.stdout Asm.env0 ++ [Asm.Print ("error:  " +:+ "mul")])
             (Asm.output Asm.env0 ++ [newline]) (Asm.check Asm.env0)
             (Asm.label_dict Asm.env0),
     Asm.Ok tt) /\
  forall self rest lineno k,
    Sim.load_lines self (newline :: rest) lineno k =
    Sim.load_lines self rest (lineno + 1) k.
Proof.
  apply (unknown_mnemonic_blank_line "mul" ["mul"; "a0"; "a1"; "a2"] "mul" 0 Asm.env0);
    reflexivity.
Defined.

Lemma lookup_name_in r n : forall t,
  Asm.lookup_name r t = Some n -> In (r, n) t.
Proof.
  induction t as [|[name m] t IH]; [discriminate|].
  cbn [Asm.lookup_name]. destruct (String.eqb r name) eqn:E.
  - apply String.eqb_eq in E. intros [= <-]. left. congruence.
  - intros H. right. apply IH, H.
Qed.

Lemma format_0b_5_inj n m :
  0 <= n < 32 -> 0 <= m < 32 -> Py.format_0b 5 n = Py.format_0b 5 m -> n = m.
Proof.
  intros Hn Hm E.
  destruct (format_0b_5 n Hn) as (_ & _ & <-).
  destruct (format_0b_5 m Hm) as (_ & _ & <-).
  rewrite E. reflexivity.
Qed.

Lemma reg_add_some r f e e' :
  Asm.reg_add r e = (e', Asm.Ok (Some f)) ->
  exists n, Asm.reg_index r = Some n /\ f = Py.format_0b 5 n /\ 0 <= n < 32.
Proof.
  intros H. destruct (Asm.reg_index r) as [n|] eqn:E.
  - destruct (reg_add_known r n e E) as [Hk Hn]. rewrite Hk in H.
    injection H as _ <-. eauto.
  - rewrite (reg_add_unknown r e E) in H. discriminate.
Qed.

Lemma alias_only r1 r2 n :
  In (r1, n) Asm.reg_table -> In (r2, n) Asm.reg_table ->
  r1 = r2 \/ (r1 = "s0" /\ r2 = "fp") \/ (r1 = "fp" /\ r2 = "s0").
Proof.
  unfold Asm.reg_table. cbn [In]. intros H1 H2.
  repeat (destruct H1 as [H1|H1]; [injection H1 as <- <-|]); [..|contradiction].
  all: repeat (destruct H2 as [H2|H2]; [try discriminate H2; injection H2 as <-|]);
    try contradiction; auto.
Qed.

(** X17.  The register table of [reg_add]: every index from 0 to 31 has
    a name, which [reg_add] turns into the five binary digits of the
    index without printing; and two names that give the same digits are
    the same name, or [s0] and [fp], the two names of register 8. *)
Theorem register_table_complete :
  (forall n, 0 <= n < 32 ->
     exists r, forall e,
       Asm.reg_add r e = (e, Asm.Ok (Some (Py.format_0b 5 n))) /\
       value (Py.format_0b 5 n) 0 = n /\ String.length (Py.format_0b 5 n) = 5%nat) /\
  (forall r1 r2 f e1 e1' e2 e2',
     Asm.reg_add r1 e1 = (e1', Asm.Ok (Some f)) ->
     Asm.reg_add r2 e2 = (e2', Asm.Ok (Some f)) ->
     r1 = r2 \/ (r1 = "s0" /\ r2 = "fp") \/ (r1 = "fp" /\ r2 = "s0")).
Proof.
  split.
  - intros n Hn.
    assert (Hex : exists r, Asm.reg_index r = Some n).
    { pose proof (check_range_sound 0 32
                    (fun k => existsb
                                (fun p => match Asm.reg_index (fst p) with
                                          | Some m => m =? k
                                          | None => false
                                          end) Asm.reg_table)
                    eq_refl n ltac:(lia)) as Hc.
      apply existsb_exists in Hc as ([r m] & _ & Hc). exists r.
      cbn [fst] in Hc. destruct (Asm.reg_index r) as [k|]; [|discriminate].
      apply Z.eqb_eq in Hc. congruence. }
    destruct Hex as [r Hr]. exists r. intros e.
    destruct (format_0b_5 n Hn) as (_ & Hl & Hv).
    split; [apply (reg_add_known r n e Hr)|]. split; assumption.
  - intros r1 r2 f e1 e1' e2 e2' H1 H2.
    apply reg_add_some in H1 as (n1 & Hr1 & -> & Hn1).
    apply reg_add_some in H2 as (n2 & Hr2 & Hf & Hn2).
    apply format_0b_5_inj in Hf; [|assumption..]. subst n2.
    apply (alias_only r1 r2 n1); apply lookup_name_in; assumption.
Qed.

Lemma re_split_clean s : forall sep,
  Forall (fun t => has_sep t = false) (Py.re_split s sep).
Proof.
  induction s as [|c s IH]; intros sep; cbn [Py.re_split].
  - repeat constructor.
  - destruct (Py.is_sep c) eqn:Ec.
    + destruct sep; [apply IH|]. constructor; [reflexivity|apply IH].
    + specialize (IH false). destruct (Py.re_split s false) as [|tok rest].
      * repeat constructor. cbn. rewrite Ec. reflexivity.
      * inversion IH; subst. constructor; [|assumption].
        cbn [has_sep]. rewrite Ec. assumption.
Qed.

Lemma re_split_empty s : forall sep,
  Py.re_split s sep <> [] /\
  (forall k x, Py.re_split s sep !! S k = Some x -> Py.is_empty x = true ->
               S (S k) = length (Py.re_split s sep)) /\
  (sep = true -> empty_last_only (Py.re_split s sep)).
Proof.
  induction s as [|c s IH]; intros sep; cbn [Py.re_split].
  - split; [discriminate|]. split.
    + intros k x H. rewrite lookup_cons, lookup_nil in H. discriminate.
    + intros _ [|k] x H He; [reflexivity|]. rewrite lookup_cons, lookup_nil in H.
      discriminate.
  - destruct (Py.is_sep c) eqn:Ec.
    + destruct (IH true) as (Hne & Htail & Hall). specialize (Hall eq_refl).
      destruct sep.
      * split; [exact Hne|]. split; [exact Htail|]. intros _. exact Hall.
      * split; [discriminate|]. split; [|discriminate].
        intros k x H He. cbn [length]. f_equal. apply (Hall k x); assumption.
    + destruct (IH false) as (Hne & Htail & _).
      destruct (Py.re_split s false) as [|tok rest]; [congruence|].
      split; [discriminate|]. split.
      * intros k x H He. apply (Htail k x); assumption.
      * intros _ [|k] x H He.
        -- cbn in H. injection H as <-. discriminate.
        -- apply (Htail k x); assumption.
Qed.

(** X18.  The operands of a line: no token holds a comma, a blank or a
    parenthesis, and no token but the last is empty.  (The last one is
    empty when the line ends in a separator, as it does with its line
    feed.) *)
Theorem tokens_clean a :
  Forall (fun t => has_sep t = false) (Asm.tokens a) /\
  empty_last_only (Asm.tokens a).
Proof.
  unfold Asm.tokens.
  set (s := if Py.contains ":" a then Py.strip (Py.after ":" a) else a).
  assert (E : (if Py.contains ":" a
               then Py.re_split (Py.strip (Py.after ":" a)) false
               else Py.re_split a false) = Py.re_split s false)
    by (subst s; destruct (Py.contains ":" a); reflexivity).
  cbv zeta. rewrite E. clear E.
  pose proof (re_split_clean s false) as Hc.
  destruct (re_split_empty s false) as (Hne & Htail & _).
  destruct (Py.re_split s false) as [|d0 rest]; [congruence|].
  destruct (Py.is_empty d0) eqn:E0.
  - split; [inversion Hc; assumption|].
    intros k x H He. specialize (Htail k x H He). cbn [length] in Htail. lia.
  - split; [assumption|].
    intros [|k] x H He.
    + cbn in H. injection H as <-. congruence.
    + apply (Htail k x); assumption.
Qed.

(** ** The halt flag, the label table, the trace file and the branches *)

Lemma keeps_ret {A} (a : A) : keeps (Asm.ret a).
Proof. intros e e' r [= <- <-]. reflexivity. Qed.

Lemma keeps_raise {A} x : keeps (@Asm.raise A x).
Proof. intros e e' r [= <- <-]. reflexivity. Qed.

Lemma keeps_bind {A B} (m : Asm.M A) (k : A -> Asm.M B) :
  keeps m -> (forall a, keeps (k a)) -> keeps (m ≫= k).
Proof.
  intros Hm Hk e e' r Hrun. unfold mbind, Asm.M_bind, Asm.bind in Hrun.
  destruct (m e) as [e1 [a|x]] eqn:Em.
  - rewrite (Hk a e1 e' r Hrun). exact (Hm e e1 _ Em).
  - injection Hrun as <- <-. exact (Hm e e1 _ Em).
Qed.

Lemma keeps_fmap {A B} (f : A -> B) (m : Asm.M A) : keeps m -> keeps (f <$> m).
Proof.
  intros H. unfold fmap, Asm.M_fmap. apply (keeps_bind m); [exact H|].
  intros a. apply keeps_ret.
Qed.

Lemma keeps_orelse {A} x (o : option A) : keeps (Asm.orelse x o).
Proof. destruct o; [apply keeps_ret | apply keeps_raise]. Qed.

Lemma flags_keeps {A} (m : Asm.M A) P : keeps m -> flags m P.
Proof. intros H e e' r Hrun. left. exact (H e e' r Hrun). Qed.

Lemma flags_bind {A B} (m : Asm.M A) (k : A -> Asm.M B) P :
  flags m P -> (forall a, flags (k a) P) -> flags (m ≫= k) P.
Proof.
  intros Hm Hk e e' r Hrun. unfold mbind, Asm.M_bind, Asm.bind in Hrun.
  destruct (m e) as [e1 [a|x]] eqn:Em.
  - destruct (Hk a e1 e' r Hrun) as [E2|[E2 HP]]; [|right; auto].
    destruct (Hm e e1 _ Em) as [E1|[E1 HP]]; [left; congruence|right].
    split; [congruence | exact HP].
  - injection Hrun as <- <-. exact (Hm e e1 _ Em).
Qed.

Lemma flags_weaken {A} (m : Asm.M A) (P Q : Prop) : flags m P -> (P -> Q) -> flags m Q.
Proof.
  intros H HPQ e e' r Hrun. destruct (H e e' r Hrun) as [E|[E HP]]; auto.
Qed.
Lemma keeps_at data k : keeps (Asm.at_ data k).
Proof. apply keeps_orelse. Qed.

Lemma keeps_print msg : keeps (Asm.print msg).
Proof. intros e e' r [= <- <-]. reflexivity. Qed.

Lemma keeps_print_data data : keeps (Asm.print_data data).
Proof. intros e e' r [= <- <-]. reflexivity. Qed.

Lemma keeps_write line : keeps (Asm.write line).
Proof. intros e e' r [= <- <-]. reflexivity. Qed.

Lemma keeps_set_label label i : keeps (Asm.set_label label i).
Proof. intros e e' r [= <- <-]. reflexivity. Qed.

Lemma keeps_get_label tok : keeps (Asm.get_label tok).
Proof. intros e e' r [= <- <-]. reflexivity. Qed.

Lemma keeps_int_of a : keeps (Asm.int_of a).
Proof. destruct a; [apply keeps_orelse | apply keeps_ret]. Qed.

Lemma keeps_char_at s i : keeps (Asm.char_at s i).
Proof. unfold Asm.char_at. apply keeps_fmap, keeps_orelse. Qed.

Lemma keeps_Binary_convertor a b : keeps (Asm.Binary_convertor a b).
Proof.
  unfold Asm.Binary_convertor. apply keeps_bind; [apply keeps_int_of|]. intros z.
  destruct (negb _); [|apply keeps_ret].
  apply keeps_bind; [apply keeps_print|]. intros _. apply keeps_raise.
Qed.

Lemma keeps_target tok i : keeps (Asm.target tok i).
Proof.
  unfold Asm.target. destruct (Py.int 10 tok); [apply keeps_ret|].
  apply keeps_bind; [apply keeps_get_label|]. intros l.
  apply keeps_bind; [apply keeps_orelse|]. intros li. apply keeps_ret.
Qed.

Lemma keeps_reg_add r : keeps (Asm.reg_add r).
Proof.
  intros e e' res Hrun. destruct (Asm.reg_index r) as [n|] eqn:Er.
  - rewrite (proj1 (reg_add_known r n e Er)) in Hrun. injection Hrun as <- <-.
    reflexivity.
  - rewrite (reg_add_unknown r e Er) in Hrun. injection Hrun as <- <-.
    reflexivity.
Qed.

Ltac keep_leaf :=
  first [ apply keeps_at | apply keeps_reg_add | apply keeps_Binary_convertor
        | apply keeps_char_at | apply keeps_target | apply keeps_int_of
        | apply keeps_get_label | apply keeps_print_data | apply keeps_print
        | apply keeps_write ].

Ltac keep_body :=
  repeat first [ apply keeps_ret | eapply keeps_bind; [keep_leaf | intros ?] ].

Lemma keeps_block data mn body ans : keeps body -> keeps (Asm.block data mn body ans).
Proof.
  intros Hb. unfold Asm.block. apply keeps_bind; [apply keeps_at|]. intros d0.
  destruct (d0 =? mn)%string; [|apply keeps_ret].
  apply keeps_bind; [exact Hb|]. intros fs. apply keeps_ret.
Qed.

Ltac keep_blocks body_lemma :=
  repeat first
    [ apply keeps_block; body_lemma
    | eapply keeps_bind; [apply keeps_block; body_lemma | intros ?] ].

Lemma keeps_r_type data i : keeps (Asm.r_type data i).
Proof. unfold Asm.r_type. keep_blocks ltac:(unfold Asm.r_body; keep_body). Qed.

Lemma keeps_i_type data i : keeps (Asm.i_type data i).
Proof.
  unfold Asm.i_type.
  keep_blocks ltac:(unfold Asm.lw_body, Asm.i_body; keep_body).
Qed.

Lemma keeps_s_type data i : keeps (Asm.s_type data i).
Proof. unfold Asm.s_type. keep_blocks ltac:(unfold Asm.sw_body; keep_body). Qed.

Lemma keeps_u_type data i : keeps (Asm.u_type data i).
Proof. unfold Asm.u_type. keep_blocks ltac:(unfold Asm.u_body; keep_body). Qed.

Lemma keeps_j_type data i : keeps (Asm.j_type data i).
Proof. unfold Asm.j_type. keep_blocks ltac:(unfold Asm.jal_body; keep_body). Qed.

Lemma keeps_b_blocks data i :
  keeps (ans ← Asm.block data "beq" (Asm.b_body data i "000") [];
         ans ← Asm.block data "bne" (Asm.b_body data i "001") ans;
         ans ← Asm.block data "blt" (Asm.b_body data i "100") ans;
         ans ← Asm.block data "bge" (Asm.b_body data i "101") ans;
         ans ← Asm.block data "bltu" (Asm.b_body data i "110") ans;
         Asm.block data "bgeu" (Asm.b_body data i "111") ans).
Proof. keep_blocks ltac:(unfold Asm.b_body; keep_body). Qed.

(** The halt test changes nothing, and it answers True for the text
    [beq zero,zero,0] only. *)
Lemma halt_pattern_spec data e e' r :
  Asm.halt_pattern data e = (e', r) ->
  e' = e /\ (r = Asm.Ok true -> halt_text data).
Proof.
  unfold Asm.halt_pattern, Asm.at_, Asm.orelse, halt_text.
  unfold mbind, Asm.M_bind, Asm.bind, Asm.ret, Asm.raise.
  destruct (data !! 0%nat) as [d0|]; [|intros [= <- <-]; split; [reflexivity|discriminate]].
  destruct (String.eqb_spec d0 "beq") as [->|]; cbn [negb];
    [|intros [= <- <-]; split; [reflexivity|discriminate]].
  destruct (data !! 1%nat) as [d1|]; [|intros [= <- <-]; split; [reflexivity|discriminate]].
  destruct (String.eqb_spec d1 "zero") as [->|]; cbn [negb];
    [|intros [= <- <-]; split; [reflexivity|discriminate]].
  destruct (data !! 2%nat) as [d2|]; [|intros [= <- <-]; split; [reflexivity|discriminate]].
  destruct (String.eqb_spec d2 "zero") as [->|]; cbn [negb];
    [|intros [= <- <-]; split; [reflexivity|discriminate]].
  destruct (data !! 3%nat) as [d3|]; [|intros [= <- <-]; split; [reflexivity|discriminate]].
  intros [= <- <-]. split; [reflexivity|].
  intros [= E]. apply String.eqb_eq in E. subst d3. auto.
Qed.

Lemma flags_b_type data i : flags (Asm.b_type data i) (halt_text data).
Proof.
  intros e e' r Hrun. unfold Asm.b_type in Hrun.
  unfold mbind at 1, Asm.M_bind at 1, Asm.bind at 1 in Hrun.
  destruct (Asm.halt_pattern data e) as [e1 [h|x]] eqn:Eh.
  - destruct (halt_pattern_spec _ _ _ _ Eh) as [-> Hh].
    unfold mbind at 1, Asm.M_bind at 1, Asm.bind at 1 in Hrun.
    destruct h.
    + cbn [Asm.set_check] in Hrun.
      apply (keeps_b_blocks data i) in Hrun. cbn [Asm.check] in Hrun.
      right. split; [exact Hrun | exact (Hh eq_refl)].
    + cbn [Asm.ret] in Hrun. left. exact (keeps_b_blocks data i _ _ _ Hrun).
  - injection Hrun as <- <-. left.
    destruct (halt_pattern_spec _ _ _ _ Eh) as [-> _]. reflexivity.
Qed.

Lemma keeps_pop_all l : forall s, keeps (Asm.pop_all l s).
Proof.
  intros s e e' r Hrun. pose proof (pop_all_env l s e) as H.
  rewrite Hrun in H. cbn in H. subst e'. reflexivity.
Qed.

Lemma flags_Switch_case case_value data i :
  flags (Asm.Switch_case case_value data i) (halt_text data).
Proof.
  unfold Asm.Switch_case.
  apply flags_bind.
  - destruct (Asm.get_format case_value Asm.switch_dict) as [f|].
    + destruct f; cbn [Asm.run_format].
      all: try (apply flags_keeps, keeps_fmap;
                first [ apply keeps_r_type | apply keeps_i_type | apply keeps_s_type
                      | apply keeps_u_type | apply keeps_j_type ]).
      unfold fmap, Asm.M_fmap. apply flags_bind; [apply flags_b_type|].
      intros a. apply flags_keeps, keeps_ret.
    + apply flags_keeps. unfold Asm.default_case. keep_body.
  - intros l. apply flags_keeps. apply keeps_bind.
    + destruct l; [apply keeps_pop_all | apply keeps_ret].
    + intros s. apply keeps_write.
Qed.

Lemma keeps_pass1 lines : forall i, keeps (Asm.pass1 lines i).
Proof.
  induction lines as [|b rest IH]; intros i; cbn [Asm.pass1]; [apply keeps_ret|].
  destruct (Py.is_empty b); [apply keeps_ret|].
  destruct (Py.is_empty (Py.strip b)); [apply IH|].
  apply keeps_bind; [|intros _; apply IH].
  destruct (Py.contains ":" b); [apply keeps_set_label | apply keeps_ret].
Qed.

Lemma flags_pass2 lines : forall i,
  flags (Asm.pass2 lines i) (exists a, In a lines /\ halt_text (Asm.tokens a)).
Proof.
  induction lines as [|a rest IH]; intros i; cbn [Asm.pass2];
    [apply flags_keeps, keeps_ret|].
  destruct (Py.is_empty a); [apply flags_keeps, keeps_ret|].
  destruct (Py.is_empty (Py.strip a)).
  { eapply flags_weaken; [apply IH|]. intros (b & Hb & Ht). exists b. split; [right|]; auto. }
  apply flags_bind; [apply flags_keeps, keeps_print_data|]. intros _.
  apply flags_bind.
  - destruct (Asm.tokens a) as [|d0 ds] eqn:Et; [apply flags_keeps, keeps_ret|].
    eapply flags_weaken; [apply flags_Switch_case|].
    intros Ht. exists a. split; [left; reflexivity|]. rewrite Et. exact Ht.
  - intros _. eapply flags_weaken; [apply IH|].
    intros (b & Hb & Ht). exists b. split; [right|]; auto.
Qed.

(** X22.  The message [No Virtual Halt]: when the assembler starts with
    [check = 0] and ends without an exception, either some line of the
    source has the operands [beq], [zero], [zero], [0] as its first four
    tokens, [check] is 1 at the end and nothing is printed after the
    second pass; or [check] is still 0 and the last thing printed is
    [No Virtual Halt].  The test is on the text: a halt written in another
    way does not count. *)
Theorem no_virtual_halt_message lines e0 e' :
  Asm.check e0 = 0 ->
  Asm.main lines e0 = (e', Asm.Ok tt) ->
  exists e2,
    (Asm.pass1 lines (-1) ≫= fun _ => Asm.pass2 lines (-1)) e0 = (e2, Asm.Ok tt) /\
    ((Asm.check e2 = 1 /\ e' = e2 /\
      exists a, In a lines /\ halt_text (Asm.tokens a)) \/
     (Asm.check e2 = 0 /\
      e' = Asm.Env (Asm.stdout e2 ++ [Asm.Print "No Virtual Halt"]) (Asm.output e2)
             0 (Asm.label_dict e2))).
Proof.
  intros H0 Hrun. unfold Asm.main in Hrun.
  unfold mbind, Asm.M_bind, Asm.bind in Hrun |- *.
  destruct (Asm.pass1 lines (-1) e0) as [e1 [[]|x]] eqn:E1; [|discriminate].
  destruct (Asm.pass2 lines (-1) e1) as [e2 [[]|x]] eqn:E2; [|discriminate].
  exists e2. split; [reflexivity|].
  pose proof (keeps_pass1 lines (-1) _ _ _ E1) as K1.
  destruct (flags_pass2 lines (-1) _ _ _ E2) as [K2|[K2 Hh]].
  - right. assert (Hc : Asm.check e2 = 0) by congruence.
    split; [exact Hc|]. unfold Asm.get_check in Hrun. rewrite Hc in Hrun.
    cbn in Hrun. injection Hrun as <-. rewrite Hc. reflexivity.
  - left. split; [exact K2|]. split; [|exact Hh].
    unfold Asm.get_check in Hrun. rewrite K2 in Hrun. cbn in Hrun.
    injection Hrun as <-. reflexivity.
Qed.

Lemma no_virtual_halt_message_witness :
  exists e' e2,
    Asm.main halting_source Asm.env0 = (e', Asm.Ok tt) /\
    (Asm.pass1 halting_source (-1) ≫= fun _ => Asm.pass2 halting_source (-1)) Asm.env0 =
      (e2, Asm.Ok tt) /\
    ((Asm.check e2 = 1 /\ e' = e2 /\
      exists a, In a halting_source /\ halt_text (Asm.tokens a)) \/
     (Asm.check e2 = 0 /\
      e' = Asm.Env (Asm.stdout e2 ++ [Asm.Print "No Virtual Halt"]) (Asm.output e2)
             0 (Asm.label_dict e2))).
Proof.
  destruct (no_virtual_halt_message halting_source Asm.env0
              (fst (Asm.main halting_source Asm.env0)) eq_refl eq_refl)
    as (e2 & H2 & H).
  eexists _, e2. split; [reflexivity|]. split; [exact H2 | exact H].
Defined.

Lemma pass1_table lines : forall i e,
  Forall (fun b => Py.is_empty b = false) lines ->
  exists e',
    Asm.pass1 lines i e = (e', Asm.Ok tt) /\
    forall tok,
      Asm.label_dict e' !! tok =
      match last_declaration tok lines with
      | Some k => Some (i + 1 + count_nonblank (take k lines))
      | None => Asm.label_dict e !! tok
      end.
Proof.
  induction lines as [|b rest IH]; intros i e Hne.
  - exists e. split; reflexivity.
  - inversion Hne as [|? ? Hb Hrest]; subst. cbn [Asm.pass1]. rewrite Hb.
    destruct (Py.is_empty (Py.strip b)) eqn:Eb.
    + destruct (IH i e Hrest) as (e' & Hrun & Hl).
      exists e'. split; [exact Hrun|]. intros tok. rewrite Hl.
      cbn [last_declaration]. unfold declares, nonblank. rewrite Eb. cbn [negb andb].
      destruct (last_declaration tok rest) as [k|]; [|reflexivity].
      cbn [take]. rewrite count_nonblank_cons. unfold nonblank. rewrite Eb.
      cbn [negb]. f_equal; lia.
    + set (e1 := if Py.contains ":" b
                 then Asm.Env (Asm.stdout e) (Asm.output e) (Asm.check e)
                        (<[Py.strip (Py.before ":" b) := i + 1]> (Asm.label_dict e))
                 else e).
      assert (H1 : (if Py.contains ":" b
                    then Asm.set_label (Py.strip (Py.before ":" b)) (i + 1)
                    else Asm.ret tt) e = (e1, Asm.Ok tt))
        by (subst e1; destruct (Py.contains ":" b); reflexivity).
      rewrite (bind_ok _ _ _ _ _ H1).
      destruct (IH (i + 1) e1 Hrest) as (e' & Hrun & Hl).
      exists e'. split; [exact Hrun|]. intros tok. rewrite Hl.
      cbn [last_declaration]. unfold declares, nonblank. rewrite Eb. cbn [negb andb].
      destruct (last_declaration tok rest) as [k|].
      * cbn [take]. rewrite count_nonblank_cons. unfold nonblank. rewrite Eb.
        cbn [negb]. f_equal; lia.
      * subst e1. destruct (Py.contains ":" b); cbn [andb]; [|reflexivity].
        cbn [Asm.label_dict].
        destruct (String.eqb_spec (Py.strip (Py.before ":" b)) tok) as [->|Hneq].
        -- rewrite lookup_insert_eq. cbn [take]. unfold count_nonblank.
           cbn [List.filter length]. f_equal; lia.
        -- apply lookup_insert_ne. exact Hneq.
Qed.

(** X23.  The label table of the first pass: in a source of non-empty
    lines read from an empty table, every label is mapped to the index,
    among non-blank lines, of the last line that declares it, so a later
    declaration of the same label replaces an earlier one; and a name no
    line declares is not in the table. *)
Theorem label_table_last_declaration lines e0 e1 tok :
  Forall (fun b => Py.is_empty b = false) lines ->
  Asm.label_dict e0 = ∅ ->
  Asm.pass1 lines (-1) e0 = (e1, Asm.Ok tt) ->
  Asm.label_dict e1 !! tok = line_index lines <$> last_declaration tok lines.
Proof.
  intros Hne H0 Hrun.
  destruct (pass1_table lines (-1) e0 Hne) as (e' & Hrun' & Hl).
  rewrite Hrun in Hrun'. injection Hrun' as <-.
  rewrite Hl, H0. destruct (last_declaration tok lines) as [k|]; cbn.
  - unfold line_index. f_equal; lia.
  - apply lookup_empty.
Qed.

Lemma label_table_last_declaration_witness :
  Asm.label_dict (fst (Asm.pass1 twice_declared (-1) Asm.env0)) !! "l" =
  line_index twice_declared <$> last_declaration "l" twice_declared.
Proof.
  apply (label_table_last_declaration twice_declared Asm.env0).
  - repeat constructor.
  - reflexivity.
  - reflexivity.
Defined.




(** X25.  Which assembled branches run: for the six branch mnemonics,
    register names of the table and an operand, literal or label, whose
    value is from -4096 to 4095, the word written for [beq] and [bne]
    executes in any state with 32 registers: it is the halt, or it goes
    to the next word, or it adds a quarter of the decoded offset to the
    program counter; the word written for [blt], [bge], [bltu] and [bgeu]
    makes [execute_instruction] fail with the unknown-funct3 message. *)
Theorem b_format_executed data i mn f3s f3 r1 r2 tok n1 n2 off e self :
  data !! 0%nat = Some mn -> data !! 1%nat = Some r1 ->
  data !! 2%nat = Some r2 -> data !! 3%nat = Some tok ->
  b_funct3 mn = Some (f3s, f3) ->
  Asm.reg_index r1 = Some n1 -> Asm.reg_index r2 = Some n2 ->
  resolves tok i (Asm.label_dict e) off -> -4096 <= off <= 4095 ->
  length (Sim.registers self) = 32%nat ->
  exists e' line w,
    Asm.Switch_case mn data i e = (e', Asm.Ok tt) /\
    Asm.output e' = (Asm.output e ++ [line])%list /\
    Py.int 2 (Py.strip line) = Some w /\
    if 2 <=? f3 then
      Sim.execute_instruction self w =
        Some (false, Sim.say (Sim.UnknownBFunct3 f3 (Sim.pc self)) self)
    else
      exists self',
        Sim.execute_instruction self w = Some (true, self') /\
        (self' = Sim.set_halted true self \/
         Sim.pc self' = Sim.pc self + 1 \/
         Sim.pc self' = Sim.pc self + pattern32 (off - off mod 2) / 4).
Proof.
  intros H0 H1 H2 H3 Hf Hr1 Hr2 Ht Hoff Hlen.
  destruct (Switch_case_b data i mn f3s f3 r1 r2 tok n1 n2 off e
              H0 H1 H2 H3 Hf Hr1 Hr2 Ht ltac:(lia)) as (e' & Hs & _ & Ho).
  pose proof (proj2 (reg_add_known _ _ e Hr1)) as R1.
  pose proof (proj2 (reg_add_known _ _ e Hr2)) as R2.
  destruct (b_line_decode f3s f3 mn n1 n2 off Hf R1 R2 Hoff)
    as (Hb & Hl & w & Hw & Eo & E3 & E1 & E2 & Ei).
  exists e', (b_line f3s n1 n2 off +:+ newline), w.
  split; [exact Hs|]. split; [exact Ho|]. rewrite (strip_line _ Hb).
  split; [exact Hw|].
  destruct (lookup_ok (Sim.registers self) (Z.to_nat n1) ltac:(lia)) as [a Ha].
  destruct (lookup_ok (Sim.registers self) (Z.to_nat n2) ltac:(lia)) as [b Hb'].
  unfold Sim.execute_instruction. cbv zeta. rewrite Eo, E3, E1, E2, Ei.
  rewrite !getitem_ok by lia. rewrite Ha, Hb'.
  cbn [Z.eqb Pos.eqb mbind option_bind].
  destruct (b_funct3_cases _ _ _ Hf) as
    [(_ & _ & ->)|[(_ & _ & ->)|[(_ & _ & ->)|[(_ & _ & ->)|
     [(_ & _ & ->)|(_ & _ & ->)]]]]]; cbn [Z.eqb Z.leb Z.compare Pos.compare Pos.compare_cont
                                           Pos.eqb andb negb mbind option_bind];
    try reflexivity.
  - destruct ((n1 =? 0) && (n2 =? 0) && (pattern32 (off - off mod 2) =? 0));
      [eexists; split; [reflexivity|left; reflexivity]|].
    unfold Sim.next, Sim.finish, Sim.write_reg.
    destruct (a =? b); cbn [Sim.registers Sim.set_pc];
      rewrite setitem_ok by lia; cbn [mbind option_bind];
      eexists; (split; [reflexivity|]); cbn; auto.
  - unfold Sim.next, Sim.finish, Sim.write_reg.
    destruct (negb (a =? b)); cbn [Sim.registers Sim.set_pc];
      rewrite setitem_ok by lia; cbn [mbind option_bind];
      eexists; (split; [reflexivity|]); cbn; auto.
Qed.

Lemma b_format_executed_witness :
  exists e' line w,
    Asm.Switch_case "blt" ["blt"; "a0"; "a1"; "8"] 0 Asm.env0 = (e', Asm.Ok tt) /\
    Asm.output e' = (Asm.output Asm.env0 ++ [line])%list /\
    Py.int 2 (Py.strip line) = Some w /\
    if 2 <=? 4 then
      Sim.execute_instruction Sim.init w =
        Some (false, Sim.say (Sim.UnknownBFunct3 4 (Sim.pc Sim.init)) Sim.init)
    else
      exists self',
        Sim.execute_instruction Sim.init w = Some (true, self') /\
        (self' = Sim.set_halted true Sim.init \/
         Sim.pc self' = Sim.pc Sim.init + 1 \/
         Sim.pc self' = Sim.pc Sim.init + pattern32 (8 - 8 mod 2) / 4).
Proof.
  apply (b_format_executed ["blt"; "a0"; "a1"; "8"] 0 "blt" "100" 4 "a0" "a1" "8" 10 11 8
           Asm.env0 Sim.init); try reflexivity; try lia.
  left. reflexivity.
Defined.
